(** * Arabic OCR command-line tools: a shallow embedding

    The development follows the command-line modules of the repository
    and the part of the web server that uses them:

    - [cli/ocr-images.js] and [cli/pdf-to-text.js]   (module [Pipeline]),
    - [cli/batch-pdf-to-text.js]                      (module [Batch]),
    - [cli/file-cleaner.js]                           (module [Cleaner]),
    - [cli/pdf-to-images.js]                          (module [PdfToImages]),
    - the upload route of [server.js]                 (module [Server]).

    JavaScript strings are modelled as byte strings (the UTF-8 encoding of
    the text); thrown [Error] objects by their [message]; asynchronous
    functions by their sequential meaning (every [await] in the modelled
    code is on a single promise, except for the two [Promise.all] calls,
    which are discussed where they are modelled). *)

From stdpp Require Import base option list gmap strings pretty sorting.
From Stdlib Require Import Ascii ZArith Lia.

Open Scope string_scope.

(** ** JavaScript built-ins used by the tools *)

Module Js.

Lemma app_assoc (a b c : string) : a +:+ (b +:+ c) = (a +:+ b) +:+ c.
Proof.
  induction a as [|x a IH]; [reflexivity|].
  change (String x (a +:+ (b +:+ c)) = String x ((a +:+ b) +:+ c)).
  by rewrite IH.
Qed.

Lemma app_empty_r (a : string) : a +:+ "" = a.
Proof.
  induction a as [|x a IH]; [reflexivity|].
  change (String x (a +:+ "") = String x a). by rewrite IH.
Qed.

Definition bytes (l : list nat) : string :=
  foldr (fun n s => String (ascii_of_nat n) s) "" l.

(** [String.prototype.toLowerCase], on the ASCII letters.  The tools only
    compare the result with ASCII literals (".png", ".pdf", ...), none of
    which contains a letter that a non-ASCII character lowers to. *)
Definition lowerAscii (c : ascii) : ascii :=
  let n := nat_of_ascii c in
  if (65 <=? n)%nat && (n <=? 90)%nat then ascii_of_nat (n + 32) else c.

Fixpoint toLowerCase (s : string) : string :=
  match s with
  | "" => ""
  | String c s' => String (lowerAscii c) (toLowerCase s')
  end.

Fixpoint drop (n : nat) (s : string) : string :=
  match n, s with
  | S n', String _ s' => drop n' s'
  | _, _ => s
  end.

Definition startsWith (s pre : string) : bool := String.prefix pre s.

Definition endsWith (s suf : string) : bool :=
  String.prefix (String.rev suf) (String.rev s).

(** [s.replace(pattern, replacement)] for a string pattern: the first
    occurrence only.  (The replacements used by the tools are decimal
    numbers, which contain no [$] pattern.) *)
Fixpoint replace (pattern replacement s : string) : string :=
  if String.prefix pattern s
  then replacement +:+ drop (String.length pattern) s
  else match s with
       | "" => ""
       | String c s' => String c (replace pattern replacement s')
       end.

(** White space and line terminators removed by [String.prototype.trim],
    as UTF-8 byte sequences. *)
Definition whiteSpace : list string :=
  map bytes
    ([ [9]; [10]; [11]; [12]; [13]; [32]; [194; 160]; [225; 154; 128] ]
       ++ map (fun k => [226; 128; k]) (seq 128 11)
       ++ [ [226; 128; 168]; [226; 128; 169]; [226; 128; 175];
            [226; 129; 159]; [227; 128; 128]; [239; 187; 191] ]).

Definition stripOne (spaces : list string) (s : string) : option string :=
  (fun w => drop (String.length w) s)
    <$> List.find (fun w => String.prefix w s) spaces.

Fixpoint stripAll (fuel : nat) (spaces : list string) (s : string) : string :=
  match fuel with
  | O => s
  | S fuel' =>
      match stripOne spaces s with
      | Some s' => stripAll fuel' spaces s'
      | None => s
      end
  end.

Definition trimStart (s : string) : string :=
  stripAll (String.length s) whiteSpace s.

Definition trimEnd (s : string) : string :=
  String.rev
    (stripAll (String.length s) (map String.rev whiteSpace) (String.rev s)).

Definition trim (s : string) : string := trimEnd (trimStart s).

(** [String(n)] for a non-negative integer. *)
Definition toString (n : nat) : string := pretty n.

Fixpoint repeat (s : string) (n : nat) : string :=
  match n with
  | O => ""
  | S n' => s +:+ repeat s n'
  end.

Definition padStart (s : string) (targetLength : nat) (padString : string)
  : string :=
  let need := (targetLength - String.length s)%nat in
  if String.eqb padString "" then s
  else String.substring 0 need (repeat padString need) +:+ s.

(** [Array.prototype.sort()] without a comparator on an array of strings:
    ascending order of the code units. *)
Definition sort (l : list string) : list string := merge_sort (≤)%string l.

Definition includes (l : list string) (s : string) : bool :=
  bool_decide (s ∈ l).

(** [a || b] on strings: the empty string and [null] are falsy. *)
Definition orElse (a : option string) (b : string) : string :=
  match a with
  | Some s => if String.eqb s "" then b else s
  | None => b
  end.

End Js.

(** ** Node's [path] module (POSIX flavour) *)

Module Path.

Fixpoint dropTrailingSlashesRev (r : string) : string :=
  match r with
  | String "/" r' => dropTrailingSlashesRev r'
  | _ => r
  end.

Fixpoint takeUntilSlash (r : string) : string :=
  match r with
  | "" => ""
  | String "/" _ => ""
  | String c r' => String c (takeUntilSlash r')
  end.

(** The last portion of a path, trailing separators ignored. *)
Definition lastPortion (p : string) : string :=
  String.rev (takeUntilSlash (dropTrailingSlashesRev (String.rev p))).

(** Index of the last '.' of a portion, if any. *)
Fixpoint lastDot (s : string) (i : nat) (found : option nat) : option nat :=
  match s with
  | "" => found
  | String "." s' => lastDot s' (S i) (Some i)
  | String _ s' => lastDot s' (S i) found
  end.

(** [path.extname]: from the last '.' of the last portion to its end;
    empty when there is no '.', when the only '.' is the first character
    of the portion, and for the portion "..". *)
Definition extname (p : string) : string :=
  let b := lastPortion p in
  match lastDot b 0 None with
  | None | Some O => ""
  | Some d => if String.eqb b ".." then "" else Js.drop d b
  end.

(** [path.basename(p, suffix)].  (Node returns the empty string when the
    whole path equals the suffix, and keeps a portion that is equal to
    the suffix.) *)
Definition basename (p : string) (suffix : string) : string :=
  let b := lastPortion p in
  if String.eqb suffix "" then b
  else if String.eqb suffix p then ""
  else if Js.endsWith b suffix && negb (String.eqb b suffix)
       then String.substring 0 (String.length b - String.length suffix) b
       else b.

(** [path.join(a, b)] for two segments; "." and ".." segments are not
    resolved. *)
Definition join (a b : string) : string :=
  if String.eqb a "" then b
  else if String.eqb b "" then a
  else if Js.endsWith a "/" then a +:+ b
  else a +:+ "/" +:+ b.

End Path.

Module JsExamples.
Example extname_png : Path.extname "page_001.PNG" = ".PNG".
Proof. reflexivity. Qed.
Example extname_hidden : Path.extname ".gitkeep" = "".
Proof. reflexivity. Qed.
Example extname_two : Path.extname "a.b/c.tar.gz" = ".gz".
Proof. reflexivity. Qed.
Example basename_pdf : Path.basename "in/report.pdf" ".pdf" = "report".
Proof. reflexivity. Qed.
Example basename_upper : Path.basename "REPORT.PDF" ".pdf" = "REPORT.PDF".
Proof. reflexivity. Qed.
Example trim_text : Js.trim (Js.bytes [32; 10] +:+ "ab c" +:+ Js.bytes [13; 10; 9])
                    = "ab c".
Proof. reflexivity. Qed.
Example replace_first :
  Js.replace "{pageNumber}" (Js.toString 12) "P{pageNumber}-{pageNumber}"
  = "P12-{pageNumber}".
Proof. reflexivity. Qed.
Example padStart_7 : Js.padStart (Js.toString 7) 3 "0" = "007".
Proof. reflexivity. Qed.
Example sort_pages :
  Js.sort ["page_010.png"; "page_002.png"; "page_001.png"]
  = ["page_001.png"; "page_002.png"; "page_010.png"].
Proof. reflexivity. Qed.
End JsExamples.

(** ** Results, the file system and the effect monad *)

(** A call either returns a value or throws an [Error] with a message. *)
Inductive Result (A : Type) : Type :=
| Ok (a : A)
| Err (message : string).
Arguments Ok {A} a.
Arguments Err {A} message.

Definition isOk {A} (r : Result A) : bool :=
  match r with Ok _ => true | Err _ => false end.

Definition LF : string := String "010"%char "".

Module Fs.

(** What a path names.  [Dangling] is a symbolic link whose target is
    missing: [readdirSync] lists it, [existsSync] and [statSync] do not
    find it. *)
Inductive Node :=
| File (content : string)
| Dir
| Dangling.

Inductive Op := Stat | Readdir | Mkdir | Rename | WriteFile | Rm.

(** The file system: the nodes by path, and the calls that the operating
    system refuses (permissions, busy files, a full disk), each with the
    message of the error it throws.  A path is the string the program
    passes: two spellings of one file ([a/b] and [./a/b], say) are two
    paths here, so that a statement about the path of a file speaks of the
    spelling the program uses. *)
Record t := mk {
  nodes : gmap string Node;
  faults : Op -> string -> option string
}.

Definition existsSync (fs : t) (p : string) : bool :=
  match nodes fs !! p with
  | Some (File _) | Some Dir => true
  | _ => false
  end.

(** The name of [k] inside directory [dir], when [k] is an entry of it. *)
Definition entryName (dir k : string) : option string :=
  let pre := dir +:+ "/" in
  if String.prefix pre k then
    let name := Js.drop (String.length pre) k in
    if String.eqb name "" then None
    else match String.index 0 "/" name with
         | Some _ => None
         | None => Some name
         end
  else None.

Definition entries (fs : t) (dir : string) : list string :=
  omap (fun kv => entryName dir (fst kv)) (map_to_list (nodes fs)).

Definition readdirSync (fs : t) (p : string) : Result (list string) :=
  match faults fs Readdir p with
  | Some msg => Err msg
  | None =>
      match nodes fs !! p with
      | Some Dir => Ok (entries fs p)
      | Some (File _) => Err ("ENOTDIR: not a directory, scandir '" +:+ p +:+ "'")
      | _ => Err ("ENOENT: no such file or directory, scandir '" +:+ p +:+ "'")
      end
  end.

(** [fs.statSync(p).isDirectory()] *)
Definition statIsDirectory (fs : t) (p : string) : Result bool :=
  match faults fs Stat p with
  | Some msg => Err msg
  | None =>
      match nodes fs !! p with
      | Some Dir => Ok true
      | Some (File _) => Ok false
      | _ => Err ("ENOENT: no such file or directory, stat '" +:+ p +:+ "'")
      end
  end.

(** [fs.mkdirSync(p, { recursive: true })] *)
Definition mkdirSync (fs : t) (p : string) : Result unit * t :=
  match faults fs Mkdir p with
  | Some msg => (Err msg, fs)
  | None =>
      match nodes fs !! p with
      | None => (Ok tt, mk (<[p := Dir]> (nodes fs)) (faults fs))
      | Some Dir => (Ok tt, fs)
      | Some _ => (Err ("EEXIST: file already exists, mkdir '" +:+ p +:+ "'"), fs)
      end
  end.

Definition isUnder (dir k : string) : bool :=
  String.eqb k dir || String.prefix (dir +:+ "/") k.

Definition moveKey (src dst k : string) : string :=
  if isUnder src k then dst +:+ Js.drop (String.length src) k else k.

Definition renameSync (fs : t) (src dst : string) : Result unit * t :=
  match faults fs Rename src with
  | Some msg => (Err msg, fs)
  | None =>
      match nodes fs !! src with
      | None =>
          (Err ("ENOENT: no such file or directory, rename '" +:+ src +:+ "'"), fs)
      | Some _ =>
          (Ok tt,
           mk (list_to_map
                 (map (fun kv => (moveKey src dst (fst kv), snd kv))
                    (map_to_list (nodes fs))))
              (faults fs))
      end
  end.

Definition writeFileSync (fs : t) (p content : string) : Result unit * t :=
  match faults fs WriteFile p with
  | Some msg => (Err msg, fs)
  | None =>
      match nodes fs !! p with
      | Some Dir =>
          (Err ("EISDIR: illegal operation on a directory, open '" +:+ p +:+ "'"), fs)
      | _ => (Ok tt, mk (<[p := File content]> (nodes fs)) (faults fs))
      end
  end.

(** [fs.rmSync(p, { recursive: true, force: true })]: a missing path is not
    an error.  A removal that the operating system refuses is taken to
    leave the tree as it was; of a directory, a removal that fails half-way
    may have removed some of its entries already, which is not modelled. *)
Definition rmSync (fs : t) (p : string) : Result unit * t :=
  match faults fs Rm p with
  | Some msg => (Err msg, fs)
  | None =>
      (Ok tt,
       mk (filter (fun kv => isUnder p (fst kv) = false) (nodes fs)) (faults fs))
  end.

End Fs.

(** The calls that leave the process, in the order they are made: file
    system updates, the rasterizer, the OCR engine, and the lines written
    to the standard error stream by [console.warn] and [console.error].
    (Progress lines written by [console.log] are not modelled.) *)
Inductive Event :=
| EMkdir (p : string)
| ERename (src dst : string)
| EWriteFile (p content : string)
| ERm (p : string)
| EBulk (pdf savePath : string)
| ECreateWorker (language : string)
| ERecognize (image : string)
| ETerminate
| EWarn (line : string)
| EError (line : string).

(** What a run leaves behind: its result, the file system and the calls it
    made.  A run that throws keeps the effects it had up to the throw. *)
Record Outcome (A : Type) := mkOutcome {
  result : Result A;
  fsAfter : Fs.t;
  events : list Event
}.
Arguments mkOutcome {A} result fsAfter events.
Arguments result {A} o.
Arguments fsAfter {A} o.
Arguments events {A} o.

Definition M (A : Type) : Type := Fs.t -> Outcome A.

Definition ret {A} (a : A) : M A := fun fs => mkOutcome (Ok a) fs [].

Definition throw {A} (message : string) : M A :=
  fun fs => mkOutcome (Err message) fs [].

Definition bind {A B} (m : M A) (k : A -> M B) : M B :=
  fun fs =>
    match m fs with
    | mkOutcome (Ok a) fs1 ev1 =>
        match k a fs1 with
        | mkOutcome r fs2 ev2 => mkOutcome r fs2 (ev1 ++ ev2)
        end
    | mkOutcome (Err e) fs1 ev1 => mkOutcome (Err e) fs1 ev1
    end.

(** [try { m } catch (error) { handler(error.message) }] *)
Definition tryCatch {A} (m : M A) (handler : string -> M A) : M A :=
  fun fs =>
    match m fs with
    | mkOutcome (Ok a) fs1 ev1 => mkOutcome (Ok a) fs1 ev1
    | mkOutcome (Err e) fs1 ev1 =>
        match handler e fs1 with
        | mkOutcome r fs2 ev2 => mkOutcome r fs2 (ev1 ++ ev2)
        end
    end.

Definition emit (e : Event) : M unit := fun fs => mkOutcome (Ok tt) fs [e].

Definition getFs : M Fs.t := fun fs => mkOutcome (Ok fs) fs [].

(** A fallible read of the file system. *)
Definition liftRead {A} (f : Fs.t -> Result A) : M A :=
  fun fs => mkOutcome (f fs) fs [].

(** A file system update, recorded as a call whether or not it succeeds. *)
Definition liftWrite (e : Event) (f : Fs.t -> Result unit * Fs.t) : M unit :=
  fun fs => let '(r, fs') := f fs in mkOutcome r fs' [e].

Notation "'let*' x ':=' m 'in' k" := (bind m (fun x => k))
  (at level 10, x pattern, m at level 100, k at level 200).

Notation "m ';;' k" := (bind m (fun _ => k))
  (at level 100, k at level 200, right associativity).

Definition when (b : bool) (m : M unit) : M unit := if b then m else ret tt.

Definition consoleWarn (line : string) : M unit := emit (EWarn line).
Definition consoleError (line : string) : M unit := emit (EError line).
Definition existsSync (p : string) : M bool :=
  fun fs => mkOutcome (Ok (Fs.existsSync fs p)) fs [].
Definition readdirSync (p : string) : M (list string) :=
  liftRead (fun fs => Fs.readdirSync fs p).
Definition mkdirSync (p : string) : M unit :=
  liftWrite (EMkdir p) (fun fs => Fs.mkdirSync fs p).
Definition renameSync (src dst : string) : M unit :=
  liftWrite (ERename src dst) (fun fs => Fs.renameSync fs src dst).
Definition writeFileSync (p content : string) : M unit :=
  liftWrite (EWriteFile p content) (fun fs => Fs.writeFileSync fs p content).
Definition rmSync (p : string) : M unit :=
  liftWrite (ERm p) (fun fs => Fs.rmSync fs p).

(** ** [cli/pdf-to-text.js] and [cli/ocr-images.js] *)

Module ImagesOptions.
Record t := mk {
  outputFolder : option string;
  imageFormat : option string;
  density : option Z;
  quality : option Z
}.
End ImagesOptions.

Module OcrOptions.
Record t := mk {
  outputFile : option string;
  language : option string;
  pagePrefix : option string;
  pageSeparator : option string
}.
Definition none : t := mk None None None None.
End OcrOptions.

Module TextOptions.
Record t := mk {
  outputText : option string;
  tempImagesFolder : option string;
  keepImages : option bool;
  imageFormat : option string;
  density : option Z;
  language : option string
}.
Definition none : t := mk None None None None None None.
End TextOptions.

(** The options object handed to [pdf2pic.fromPath]. *)
Record RasterOptions := mkRasterOptions {
  rasterDensity : Z;
  saveFilename : string;
  savePath : string;
  rasterFormat : string;
  rasterWidth : Z;
  rasterHeight : Z;
  rasterQuality : Z
}.

(** The external collaborators.
    - [bulk pdf options fs]: [pdf2pic.fromPath(pdf, options).bulk(-1)]; it
      resolves with one descriptor per page, in page order (the [path]
      property of each, when it has one), or rejects, and it writes to the
      file system.
    - [createWorker language]: [Tesseract.createWorker(language)] resolves
      with a worker or rejects.
    - [recognize language fs image]: [worker.recognize(image)] of a worker
      created for [language] resolves with [data.text] or rejects.
    [worker.terminate()] always resolves. *)
Record External := mkExternal {
  bulk : string -> RasterOptions -> Fs.t -> Result (list (option string)) * Fs.t;
  createWorker : string -> Result unit;
  recognize : string -> Fs.t -> string -> Result string
}.

Module Pipeline.

Definition imageExtensions : list string :=
  [".png"; ".jpg"; ".jpeg"; ".tiff"; ".bmp"].

Definition defaultPageSeparator : string :=
  LF +:+ LF +:+ "=== PAGE {pageNumber} ===" +:+ LF +:+ LF.

(** [readdirSync(folder).filter(extension).filter(prefix).sort()] *)
Definition imageFiles (pagePrefix : string) (names : list string) : list string :=
  Js.sort
    (List.filter (fun file => Js.startsWith file pagePrefix)
       (List.filter
          (fun file =>
             Js.includes imageExtensions (Js.toLowerCase (Path.extname file)))
          names)).

Section WithExternal.

Variable ext : External.

Definition convertBulk (pdfPath : string) (options : RasterOptions)
  : M (list (option string)) :=
  fun fs =>
    let '(r, fs') := bulk ext pdfPath options fs in
    mkOutcome r fs' [EBulk pdfPath (savePath options)].

Definition workerCreate (language : string) : M unit :=
  fun fs => mkOutcome (createWorker ext language) fs [ECreateWorker language].

Definition workerRecognize (language filePath : string) : M string :=
  fun fs => mkOutcome (recognize ext language fs filePath) fs [ERecognize filePath].

Definition workerTerminate : M unit := emit ETerminate.

(** The loop of [convertPdfToImages] that gives the rasterizer's files their
    zero-padded names. *)
Fixpoint renameLoop (finalOutputFolder imageFormat : string)
  (results : list (option string)) (i : nat) (savedImages : list string)
  : M (list string) :=
  match results with
  | [] => ret savedImages
  | result :: rest =>
      let pageNumber := (i + 1)%nat in
      let paddedNumber := Js.padStart (Js.toString pageNumber) 3 "0" in
      let originalPath := Js.orElse result "" in
      let* found :=
        (if String.eqb originalPath "" then ret false
         else existsSync originalPath) in
      let* savedImages' :=
        (if found : bool then
           let newFilename :=
             "page_" +:+ paddedNumber +:+ "." +:+ Js.toLowerCase imageFormat in
           let newPath := Path.join finalOutputFolder newFilename in
           when (negb (String.eqb originalPath newPath))
             (renameSync originalPath newPath) ;;
           ret (savedImages ++ [newPath])%list
         else
           consoleWarn ("⚠ Warning: Could not find file for page "
                          +:+ Js.toString pageNumber) ;;
           ret savedImages) in
      renameLoop finalOutputFolder imageFormat rest (i + 1) savedImages'
  end.

Definition convertPdfToImages (pdfPath : string) (options : ImagesOptions.t)
  : M (list string * string) :=
  let outputFolder := ImagesOptions.outputFolder options in
  let imageFormat := default "png" (ImagesOptions.imageFormat options) in
  let density := default 300%Z (ImagesOptions.density options) in
  let quality := default 100%Z (ImagesOptions.quality options) in
  let* pdfExists := existsSync pdfPath in
  if negb pdfExists then throw ("PDF file not found: " +:+ pdfPath)
  else
    let pdfName := Path.basename pdfPath (Path.extname pdfPath) in
    let finalOutputFolder := Js.orElse outputFolder (pdfName +:+ "_images") in
    let* folderExists := existsSync finalOutputFolder in
    when (negb folderExists) (mkdirSync finalOutputFolder) ;;
    tryCatch
      (let* results :=
         convertBulk pdfPath
           (mkRasterOptions density "page" finalOutputFolder
              (Js.toLowerCase imageFormat) 2000 2000 quality) in
       let* savedImages := renameLoop finalOutputFolder imageFormat results 0 [] in
       ret (savedImages, finalOutputFolder))
      (fun message =>
         consoleError ("Error during PDF conversion: " +:+ message) ;;
         throw message).

Definition errorMarker (message : string) : string :=
  "[ERROR: Could not process this page - " +:+ message +:+ "]".

(** The page loop of [ocrImages]. *)
Fixpoint ocrLoop (imagesFolder language pageSeparator : string)
  (files : list string) (i : nat) (allText : string) : M string :=
  match files with
  | [] => ret allText
  | file :: rest =>
      let filePath := Path.join imagesFolder file in
      let pageNumber := (i + 1)%nat in
      let* allText' :=
        tryCatch
          (let* text := workerRecognize language filePath in
           let separator :=
             Js.replace "{pageNumber}" (Js.toString pageNumber) pageSeparator in
           ret (allText +:+ (separator +:+ Js.trim text +:+ LF)))
          (fun message =>
             consoleError ("Error processing " +:+ file +:+ ": " +:+ message) ;;
             let separator :=
               Js.replace "{pageNumber}" (Js.toString pageNumber) pageSeparator in
             ret (allText +:+ (separator +:+ (errorMarker message +:+ LF)))) in
      ocrLoop imagesFolder language pageSeparator rest (i + 1) allText'
  end.

(** [ocrImages], as written in [cli/ocr-images.js] and again in
    [cli/pdf-to-text.js]. *)
Definition ocrImages (imagesFolder : string) (options : OcrOptions.t) : M string :=
  let outputFile := default "ocr_results.txt" (OcrOptions.outputFile options) in
  let language := default "ara" (OcrOptions.language options) in
  let pagePrefix := default "page_" (OcrOptions.pagePrefix options) in
  let pageSeparator :=
    default defaultPageSeparator (OcrOptions.pageSeparator options) in
  let* folderExists := existsSync imagesFolder in
  if negb folderExists then throw ("Images folder not found: " +:+ imagesFolder)
  else
    tryCatch
      (let* names := readdirSync imagesFolder in
       let files := imageFiles pagePrefix names in
       if (length files =? 0)%nat
       then throw ("No image files found in " +:+ imagesFolder)
       else
         workerCreate language ;;
         let* allText := ocrLoop imagesFolder language pageSeparator files 0 "" in
         workerTerminate ;;
         writeFileSync outputFile allText ;;
         ret outputFile)
      (fun message =>
         consoleError ("Error during OCR process: " +:+ message) ;;
         throw message).

Definition convertPdfToText (pdfPath : string) (options : TextOptions.t) : M string :=
  let outputText := TextOptions.outputText options in
  let tempImagesFolder := TextOptions.tempImagesFolder options in
  let keepImages := default false (TextOptions.keepImages options) in
  let imageFormat := default "png" (TextOptions.imageFormat options) in
  let density := default 300%Z (TextOptions.density options) in
  let language := default "ara" (TextOptions.language options) in
  tryCatch
    (let* (images, folder) :=
       convertPdfToImages pdfPath
         (ImagesOptions.mk tempImagesFolder (Some imageFormat) (Some density) None) in
     let pdfName := Path.basename pdfPath (Path.extname pdfPath) in
     let finalOutputText := Js.orElse outputText (pdfName +:+ "_ocr_results.txt") in
     let* resultFile :=
       ocrImages folder
         (OcrOptions.mk (Some finalOutputText) (Some language) None None) in
     (if negb keepImages then
        tryCatch (rmSync folder)
          (fun message =>
             consoleWarn ("⚠ Warning: Could not remove temporary folder: "
                            +:+ message))
      else ret tt) ;;
     ret resultFile)
    (fun message =>
       consoleError ("Error in PDF to text conversion: " +:+ message) ;;
       throw message).

End WithExternal.

(** *** What [ocrImages] does, case by case *)

Definition concatStrings (l : list string) : string := foldr String.append "" l.

(** The effective options of [ocrImages], after the defaults. *)
Definition outputFileOf (options : OcrOptions.t) : string :=
  default "ocr_results.txt" (OcrOptions.outputFile options).
Definition languageOf (options : OcrOptions.t) : string :=
  default "ara" (OcrOptions.language options).
Definition pagePrefixOf (options : OcrOptions.t) : string :=
  default "page_" (OcrOptions.pagePrefix options).
Definition pageSeparatorOf (options : OcrOptions.t) : string :=
  default defaultPageSeparator (OcrOptions.pageSeparator options).

(** The separator of page [n]: the template with its placeholder replaced. *)
Definition separatorFor (pageSeparator : string) (n : nat) : string :=
  Js.replace "{pageNumber}" (Js.toString n) pageSeparator.

(** The text standing for a page: its trimmed text, or the error marker. *)
Definition pageBody (r : Result string) : string :=
  match r with
  | Ok text => Js.trim text
  | Err message => errorMarker message
  end.

Definition pageBlock (pageSeparator : string) (n : nat) (r : Result string)
  : string :=
  separatorFor pageSeparator n +:+ pageBody r +:+ LF.

(** The blocks of the pages that follow page [i]. *)
Definition pageBlocksFrom (pageSeparator : string) (i : nat)
  (rs : list (Result string)) : list string :=
  imap (fun k r => pageBlock pageSeparator (i + k + 1) r) rs.

Definition ocrError (message : string) : Event :=
  EError ("Error during OCR process: " +:+ message).

Definition isEngineCall (e : Event) : bool :=
  match e with
  | ECreateWorker _ | ERecognize _ | ETerminate => true
  | _ => false
  end.

Definition engineCalls (evs : list Event) : list Event :=
  List.filter isEngineCall evs.

Definition isRemoval (e : Event) : bool :=
  match e with ERm _ => true | _ => false end.

Definition removals (evs : list Event) : list Event :=
  List.filter isRemoval evs.

Lemma pageBlocksFrom_cons pageSeparator i r rs :
  pageBlocksFrom pageSeparator i (r :: rs)
  = pageBlock pageSeparator (i + 1) r :: pageBlocksFrom pageSeparator (i + 1) rs.
Proof.
  unfold pageBlocksFrom. rewrite imap_cons, Nat.add_0_r. f_equal.
  apply imap_ext. intros k x _. cbn. f_equal. lia.
Qed.

Lemma pageBlocksFrom_lookup pageSeparator i rs k r :
  rs !! k = Some r ->
  pageBlocksFrom pageSeparator i rs !! k
  = Some (pageBlock pageSeparator (i + k + 1) r).
Proof.
  intros H. unfold pageBlocksFrom. rewrite list_lookup_imap, H. reflexivity.
Qed.

Lemma default_separator n :
  separatorFor defaultPageSeparator n
  = LF +:+ LF +:+ "=== PAGE " +:+ Js.toString n +:+ " ===" +:+ LF +:+ LF.
Proof.
  unfold separatorFor. generalize (Js.toString n). intros d. lazy. reflexivity.
Qed.

Lemma default_separator_block n r :
  pageBlock defaultPageSeparator n r
  = LF +:+ LF +:+ "=== PAGE " +:+ Js.toString n +:+ " ===" +:+ LF +:+ LF
      +:+ pageBody r +:+ LF.
Proof.
  unfold pageBlock. rewrite default_separator.
  rewrite <- !Js.app_assoc. reflexivity.
Qed.

Definition silent {A} (f : Event -> bool) (m : M A) : Prop :=
  forall fs, List.filter f (events (m fs)) = [].

Section Silent.
Context {A B : Type} (f : Event -> bool).

Lemma silent_ret (a : A) : silent f (ret a).
Proof. intros fs. reflexivity. Qed.

Lemma silent_throw message : silent f (@throw A message).
Proof. intros fs. reflexivity. Qed.

Lemma silent_bind (m : M A) (k : A -> M B) :
  silent f m -> (forall a, silent f (k a)) -> silent f (bind m k).
Proof.
  intros Hm Hk fs. unfold bind. specialize (Hm fs).
  destruct (m fs) as [[a|e] fs1 ev1]; cbn in *; [|done].
  specialize (Hk a fs1). destruct (k a fs1) as [r fs2 ev2]. cbn in *.
  by rewrite List.filter_app, Hm, Hk.
Qed.

Lemma silent_tryCatch (m : M A) (h : string -> M A) :
  silent f m -> (forall e, silent f (h e)) -> silent f (tryCatch m h).
Proof.
  intros Hm Hh fs. unfold tryCatch. specialize (Hm fs).
  destruct (m fs) as [[a|e] fs1 ev1]; cbn in *; [done|].
  specialize (Hh e fs1). destruct (h e fs1) as [r fs2 ev2]. cbn in *.
  by rewrite List.filter_app, Hm, Hh.
Qed.

Lemma silent_liftRead (g : Fs.t -> Result A) : silent f (liftRead g).
Proof. intros fs. reflexivity. Qed.
End Silent.

Lemma silent_emit f e : f e = false -> silent f (emit e).
Proof. intros H fs. cbn. by rewrite H. Qed.

Lemma silent_liftWrite f e g : f e = false -> silent f (liftWrite e g).
Proof. intros H fs. unfold liftWrite. destruct (g fs). cbn. by rewrite H. Qed.

Lemma silent_existsSync f p : silent f (existsSync p).
Proof. intros fs. reflexivity. Qed.

Lemma silent_when f b m : silent f m -> silent f (when b m).
Proof. intros H. destruct b; [done|apply silent_ret]. Qed.

Ltac silent_step :=
  lazymatch goal with
  | |- silent _ (ret _) => apply silent_ret
  | |- silent _ (throw _) => apply silent_throw
  | |- silent _ (bind _ _) => apply silent_bind; [|intros ?]
  | |- silent _ (tryCatch _ _) => apply silent_tryCatch; [|intros ?]
  | |- silent _ (when _ _) => apply silent_when
  | |- silent _ (existsSync _) => apply silent_existsSync
  | |- silent _ (readdirSync _) => apply silent_liftRead
  | |- silent _ (mkdirSync _) => apply silent_liftWrite; reflexivity
  | |- silent _ (renameSync _ _) => apply silent_liftWrite; reflexivity
  | |- silent _ (writeFileSync _ _) => apply silent_liftWrite; reflexivity
  | |- silent _ (consoleWarn _) => apply silent_emit; reflexivity
  | |- silent _ (consoleError _) => apply silent_emit; reflexivity
  | |- silent _ (if ?b then _ else _) => destruct b
  | |- silent _ (let (_, _) := ?p in _) => destruct p
  end.

Lemma bind_run {A B} (m : M A) (k : A -> M B) fs :
  bind m k fs
  = match m fs with
    | mkOutcome (Ok a) fs1 ev1 =>
        match k a fs1 with
        | mkOutcome r fs2 ev2 => mkOutcome r fs2 (ev1 ++ ev2)
        end
    | mkOutcome (Err e) fs1 ev1 => mkOutcome (Err e) fs1 ev1
    end.
Proof. reflexivity. Qed.

Lemma tryCatch_run {A} (m : M A) (h : string -> M A) fs :
  tryCatch m h fs
  = match m fs with
    | mkOutcome (Ok a) fs1 ev1 => mkOutcome (Ok a) fs1 ev1
    | mkOutcome (Err e) fs1 ev1 =>
        match h e fs1 with
        | mkOutcome r fs2 ev2 => mkOutcome r fs2 (ev1 ++ ev2)
        end
    end.
Proof. reflexivity. Qed.

Section Outcomes.

Variable ext : External.

Definition pageResult (language imagesFolder : string) (fs : Fs.t)
  (file : string) : Result string :=
  recognize ext language fs (Path.join imagesFolder file).

(** The calls made for one page. *)
Definition pageEvents (language imagesFolder : string) (fs : Fs.t)
  (file : string) : list Event :=
  ERecognize (Path.join imagesFolder file)
  :: match pageResult language imagesFolder fs file with
     | Ok _ => []
     | Err message => [EError ("Error processing " +:+ file +:+ ": " +:+ message)]
     end.

(** The text [ocrImages] assembles for [files]. *)
Definition ocrText (imagesFolder : string) (options : OcrOptions.t) (fs : Fs.t)
  (files : list string) : string :=
  concatStrings
    (pageBlocksFrom (pageSeparatorOf options) 0
       (map (pageResult (languageOf options) imagesFolder fs) files)).

Lemma ocrLoop_outcome imagesFolder language pageSeparator files :
  forall i allText fs,
    ocrLoop ext imagesFolder language pageSeparator files i allText fs
    = mkOutcome
        (Ok (allText +:+ concatStrings
               (pageBlocksFrom pageSeparator i
                  (map (pageResult language imagesFolder fs) files))))
        fs
        (concat (map (pageEvents language imagesFolder fs) files)).
Proof.
  induction files as [|file rest IH]; intros i allText fs.
  - cbn. by rewrite Js.app_empty_r.
  - cbn [ocrLoop map]. unfold bind at 1, tryCatch, workerRecognize, bind at 1, ret.
    rewrite pageBlocksFrom_cons. cbn [foldr concat concatStrings].
    unfold pageEvents at 1. unfold pageResult at 1 3.
    destruct (recognize ext language fs (Path.join imagesFolder file))
      as [text|message].
    + rewrite IH. unfold pageBlock, pageBody.
      by rewrite <- !Js.app_assoc.
    + unfold consoleError, emit, bind. rewrite IH.
      unfold pageBlock, pageBody.
      by rewrite <- !Js.app_assoc.
Qed.

Lemma engineCalls_pageEvents language imagesFolder fs files :
  engineCalls (concat (map (pageEvents language imagesFolder fs) files))
  = map (fun file => ERecognize (Path.join imagesFolder file)) files.
Proof.
  induction files as [|file rest IH]; [reflexivity|].
  cbn [map concat]. unfold engineCalls in *. rewrite List.filter_app, IH.
  unfold pageEvents. destruct (pageResult language imagesFolder fs file); reflexivity.
Qed.

Lemma removals_pageEvents language imagesFolder fs files :
  removals (concat (map (pageEvents language imagesFolder fs) files)) = [].
Proof.
  induction files as [|file rest IH]; [reflexivity|].
  cbn [map concat]. unfold removals in *. rewrite List.filter_app, IH.
  unfold pageEvents. destruct (pageResult language imagesFolder fs file); reflexivity.
Qed.

Lemma ocrImages_missing_folder imagesFolder options fs :
  Fs.existsSync fs imagesFolder = false ->
  ocrImages ext imagesFolder options fs
  = mkOutcome (Err ("Images folder not found: " +:+ imagesFolder)) fs [].
Proof.
  intros H. unfold ocrImages, bind, existsSync. rewrite H. reflexivity.
Qed.

Lemma ocrImages_readdir_fails imagesFolder options fs message :
  Fs.existsSync fs imagesFolder = true ->
  Fs.readdirSync fs imagesFolder = Err message ->
  ocrImages ext imagesFolder options fs
  = mkOutcome (Err message) fs [ocrError message].
Proof.
  intros H1 H2. unfold ocrImages, bind at 1, existsSync. rewrite H1.
  cbn [negb]. unfold tryCatch, bind at 1, readdirSync, liftRead. rewrite H2.
  reflexivity.
Qed.

Lemma ocrImages_no_images imagesFolder options fs names :
  Fs.existsSync fs imagesFolder = true ->
  Fs.readdirSync fs imagesFolder = Ok names ->
  imageFiles (pagePrefixOf options) names = [] ->
  ocrImages ext imagesFolder options fs
  = mkOutcome (Err ("No image files found in " +:+ imagesFolder)) fs
      [ocrError ("No image files found in " +:+ imagesFolder)].
Proof.
  intros H1 H2 H3. unfold ocrImages, bind at 1, existsSync. rewrite H1.
  cbn [negb]. unfold tryCatch, bind at 1, readdirSync, liftRead. rewrite H2.
  fold (pagePrefixOf options). rewrite H3. reflexivity.
Qed.

Lemma ocrImages_worker_fails imagesFolder options fs names message :
  Fs.existsSync fs imagesFolder = true ->
  Fs.readdirSync fs imagesFolder = Ok names ->
  imageFiles (pagePrefixOf options) names <> [] ->
  createWorker ext (languageOf options) = Err message ->
  ocrImages ext imagesFolder options fs
  = mkOutcome (Err message) fs
      [ECreateWorker (languageOf options); ocrError message].
Proof.
  intros H1 H2 H3 H4. unfold ocrImages, bind at 1, existsSync. rewrite H1.
  cbn [negb]. unfold tryCatch, bind at 1, readdirSync, liftRead. rewrite H2.
  fold (pagePrefixOf options) (languageOf options).
  destruct (imageFiles (pagePrefixOf options) names) as [|file files]; [done|].
  cbn [length Nat.eqb]. unfold bind at 1, workerCreate. rewrite H4. reflexivity.
Qed.

Lemma ocrImages_pages imagesFolder options fs names :
  Fs.existsSync fs imagesFolder = true ->
  Fs.readdirSync fs imagesFolder = Ok names ->
  imageFiles (pagePrefixOf options) names <> [] ->
  createWorker ext (languageOf options) = Ok tt ->
  let files := imageFiles (pagePrefixOf options) names in
  let text := ocrText imagesFolder options fs files in
  let w := Fs.writeFileSync fs (outputFileOf options) text in
  ocrImages ext imagesFolder options fs
  = mkOutcome
      (match w.1 with Ok _ => Ok (outputFileOf options) | Err m => Err m end)
      w.2
      (ECreateWorker (languageOf options)
       :: concat (map (pageEvents (languageOf options) imagesFolder fs) files)
       ++ [ETerminate; EWriteFile (outputFileOf options) text]
       ++ match w.1 with Ok _ => [] | Err m => [ocrError m] end).
Proof.
  intros H1 H2 H3 H4 files text w.
  unfold ocrImages, bind at 1, existsSync. rewrite H1.
  cbn [negb]. unfold tryCatch, bind at 1, readdirSync, liftRead. rewrite H2.
  fold (pagePrefixOf options) (languageOf options) (pageSeparatorOf options)
    (outputFileOf options). fold files.
  destruct files as [|file rest] eqn:E; [done|].
  cbn [length Nat.eqb]. unfold bind at 1, workerCreate. rewrite H4.
  unfold bind at 1. rewrite ocrLoop_outcome.
  unfold bind at 1, workerTerminate, emit. unfold bind at 1, writeFileSync, liftWrite.
  change ("" +:+ ?x) with x.
  fold (ocrText imagesFolder options fs (file :: rest)). fold text. fold w.
  destruct w as [[[]|m] fs']; cbn; rewrite <- ?app_assoc; reflexivity.
Qed.

Lemma writeFileSync_ok fs p content :
  Fs.faults fs Fs.WriteFile p = None ->
  Fs.nodes fs !! p <> Some Fs.Dir ->
  Fs.writeFileSync fs p content
  = (Ok tt, Fs.mk (<[p := Fs.File content]> (Fs.nodes fs)) (Fs.faults fs)).
Proof.
  intros H1 H2. unfold Fs.writeFileSync. rewrite H1.
  destruct (Fs.nodes fs !! p) as [[| |]|]; done.
Qed.

Lemma imageFiles_sorted pagePrefix names :
  Sorted String.le (imageFiles pagePrefix names).
Proof. apply (Sorted_merge_sort String.le). Qed.

(** C2.  When the images folder lists P >= 1 files with an allowed image
    extension and the page prefix (the OCR worker could be created and the
    output file could be written), [ocrImages] returns the output path and
    leaves the file system as it was except for the output file, whose text
    is the concatenation of exactly P blocks; the files are taken in
    ascending (sorted) order, and block k+1 is the separator of page k+1,
    then the trimmed text of the (k+1)-th file or its error marker, then a
    newline.  With the default template the separator of page n is the
    literal line "=== PAGE n ===" between two pairs of newlines. *)
Theorem ocrImages_writes_numbered_blocks
  (imagesFolder : string) (options : OcrOptions.t) (fs : Fs.t)
  (names : list string) :
  Fs.existsSync fs imagesFolder = true ->
  Fs.readdirSync fs imagesFolder = Ok names ->
  (1 <= length (imageFiles (pagePrefixOf options) names))%nat ->
  createWorker ext (languageOf options) = Ok tt ->
  Fs.faults fs Fs.WriteFile (outputFileOf options) = None ->
  Fs.nodes fs !! outputFileOf options <> Some Fs.Dir ->
  let files := imageFiles (pagePrefixOf options) names in
  let blocks :=
    pageBlocksFrom (pageSeparatorOf options) 0
      (map (pageResult (languageOf options) imagesFolder fs) files) in
  let o := ocrImages ext imagesFolder options fs in
  result o = Ok (outputFileOf options)
  /\ fsAfter o
     = Fs.mk (<[outputFileOf options := Fs.File (concatStrings blocks)]>
                (Fs.nodes fs))
         (Fs.faults fs)
  /\ In (EWriteFile (outputFileOf options) (concatStrings blocks)) (events o)
  /\ length blocks = length files
  /\ Sorted String.le files
  /\ (forall k file,
        files !! k = Some file ->
        blocks !! k
        = Some (separatorFor (pageSeparatorOf options) (k + 1)
                  +:+ pageBody (pageResult (languageOf options) imagesFolder fs file)
                  +:+ LF))
  /\ (OcrOptions.pageSeparator options = None ->
      forall n,
        separatorFor (pageSeparatorOf options) n
        = LF +:+ LF +:+ "=== PAGE " +:+ Js.toString n +:+ " ===" +:+ LF +:+ LF).
Proof.
  intros Hex Hdir Hlen Hworker Hfault Hnode files blocks o.
  assert (Hne : imageFiles (pagePrefixOf options) names <> []).
  { intros E. rewrite E in Hlen. cbn in Hlen. lia. }
  pose proof (ocrImages_pages imagesFolder options fs names Hex Hdir Hne Hworker)
    as Hrun.
  cbv zeta in Hrun. unfold ocrText in Hrun. fold files in Hrun. fold blocks in Hrun.
  rewrite (writeFileSync_ok fs _ _ Hfault Hnode) in Hrun. cbn [fst snd] in Hrun.
  fold o in Hrun. rewrite Hrun. cbn [result fsAfter events].
  repeat split.
  - right. apply in_or_app. right. cbn. auto.
  - unfold blocks, pageBlocksFrom. by rewrite length_imap, length_map.
  - apply imageFiles_sorted.
  - intros k file Hk. unfold blocks.
    erewrite pageBlocksFrom_lookup; [reflexivity|].
    by rewrite list_lookup_fmap, Hk.
  - intros Hsep n. unfold pageSeparatorOf. rewrite Hsep. apply default_separator.
Qed.

(** C3.  A page whose recognition call throws does not stop [ocrImages]:
    every sorted file is handed to the recognizer, in order, whatever the
    earlier pages did; the block of a failing page carries the marker
    [[ERROR: Could not process this page - <message>]] in place of its
    text; and when every page fails, [ocrImages] still returns the output
    path, having written P marker blocks in page order. *)
Theorem ocrImages_survives_page_failures
  (imagesFolder : string) (options : OcrOptions.t) (fs : Fs.t)
  (names : list string) (failure : string -> string) :
  Fs.existsSync fs imagesFolder = true ->
  Fs.readdirSync fs imagesFolder = Ok names ->
  (1 <= length (imageFiles (pagePrefixOf options) names))%nat ->
  createWorker ext (languageOf options) = Ok tt ->
  Fs.faults fs Fs.WriteFile (outputFileOf options) = None ->
  Fs.nodes fs !! outputFileOf options <> Some Fs.Dir ->
  let files := imageFiles (pagePrefixOf options) names in
  let blocks :=
    pageBlocksFrom (pageSeparatorOf options) 0
      (map (pageResult (languageOf options) imagesFolder fs) files) in
  let o := ocrImages ext imagesFolder options fs in
  result o = Ok (outputFileOf options)
  /\ Fs.nodes (fsAfter o) !! outputFileOf options
     = Some (Fs.File (concatStrings blocks))
  /\ engineCalls (events o)
     = ECreateWorker (languageOf options)
       :: map (fun file => ERecognize (Path.join imagesFolder file)) files
       ++ [ETerminate]
  /\ (forall k file message,
        files !! k = Some file ->
        pageResult (languageOf options) imagesFolder fs file = Err message ->
        blocks !! k
        = Some (separatorFor (pageSeparatorOf options) (k + 1)
                  +:+ "[ERROR: Could not process this page - " +:+ message +:+ "]"
                  +:+ LF))
  /\ ((forall file,
         In file files ->
         pageResult (languageOf options) imagesFolder fs file = Err (failure file)) ->
      blocks
      = imap (fun k file =>
                separatorFor (pageSeparatorOf options) (k + 1)
                  +:+ "[ERROR: Could not process this page - " +:+ failure file
                  +:+ "]" +:+ LF)
          files).
Proof.
  intros Hex Hdir Hlen Hworker Hfault Hnode files blocks o.
  assert (Hne : imageFiles (pagePrefixOf options) names <> []).
  { intros E. rewrite E in Hlen. cbn in Hlen. lia. }
  pose proof (ocrImages_pages imagesFolder options fs names Hex Hdir Hne Hworker)
    as Hrun.
  cbv zeta in Hrun. unfold ocrText in Hrun. fold files in Hrun. fold blocks in Hrun.
  rewrite (writeFileSync_ok fs _ _ Hfault Hnode) in Hrun. cbn [fst snd] in Hrun.
  fold o in Hrun. rewrite Hrun. cbn [result fsAfter events Fs.nodes].
  repeat split.
  - apply lookup_insert_eq.
  - unfold engineCalls. cbn [List.filter isEngineCall]. f_equal.
    rewrite List.filter_app. fold (engineCalls
      (concat (map (pageEvents (languageOf options) imagesFolder fs) files))).
    by rewrite engineCalls_pageEvents.
  - intros k file message Hk Hfail. unfold blocks.
    erewrite pageBlocksFrom_lookup; [|by rewrite list_lookup_fmap, Hk].
    cbn. unfold pageBlock. rewrite Hfail. cbn [pageBody]. unfold errorMarker.
    by rewrite <- !Js.app_assoc.
  - intros Hall. unfold blocks, pageBlocksFrom. rewrite imap_fmap.
    apply imap_ext. intros k file Hk. cbn.
    assert (Hin : In file files).
    { apply list_elem_of_In. eapply list_elem_of_lookup_2. exact Hk. }
    unfold pageBlock. rewrite (Hall file Hin). cbn [pageBody]. unfold errorMarker.
    by rewrite <- !Js.app_assoc.
Qed.

(** C8.  [ocrImages] acquires an OCR session exactly when the folder
    exists and lists at least one image file with the page prefix, and
    then exactly one for the whole folder: the engine calls of the run are
    a single [createWorker], one [recognize] per sorted file, in order,
    and a single [terminate] at the end.  This holds whatever the pages do
    (a recognition that throws is followed by the next page and by the
    [terminate]) and whether or not the output file can be written
    afterwards: a session that was acquired is released on every path out
    of [ocrImages].  When [createWorker] itself is refused, no session
    exists: it is the only engine call and its error leaves [ocrImages].
    When the folder is missing, cannot be listed or lists no such file,
    [ocrImages] throws without any engine call. *)
Theorem ocrImages_one_session_always_released
  (imagesFolder : string) (options : OcrOptions.t) (fs : Fs.t) :
  let o := ocrImages ext imagesFolder options fs in
  let files :=
    match Fs.readdirSync fs imagesFolder with
    | Ok names => imageFiles (pagePrefixOf options) names
    | Err _ => []
    end in
  if Fs.existsSync fs imagesFolder && negb (length files =? 0)%nat then
    match createWorker ext (languageOf options) with
    | Ok _ =>
        engineCalls (events o)
        = ECreateWorker (languageOf options)
          :: map (fun file => ERecognize (Path.join imagesFolder file)) files
          ++ [ETerminate]
    | Err message =>
        engineCalls (events o) = [ECreateWorker (languageOf options)]
        /\ result o = Err message
    end
  else engineCalls (events o) = [] /\ isOk (result o) = false.
Proof.
  cbv zeta.
  destruct (Fs.existsSync fs imagesFolder) eqn:Hex; cbn [andb];
    [|by rewrite ocrImages_missing_folder].
  destruct (Fs.readdirSync fs imagesFolder) as [names|message] eqn:Hdir;
    [|by rewrite (ocrImages_readdir_fails _ _ _ message)].
  destruct (imageFiles (pagePrefixOf options) names) as [|file files] eqn:Hfiles;
    cbn [length Nat.eqb negb];
    [by rewrite (ocrImages_no_images _ _ _ names)|].
  assert (Hne : imageFiles (pagePrefixOf options) names <> []) by (by rewrite Hfiles).
  destruct (createWorker ext (languageOf options)) as [[]|message] eqn:Hworker.
  - rewrite (ocrImages_pages _ _ _ names Hex Hdir Hne Hworker). rewrite Hfiles.
    cbn [events]. unfold engineCalls. cbn [List.filter isEngineCall]. f_equal.
    rewrite !List.filter_app. fold (engineCalls
      (concat (map (pageEvents (languageOf options) imagesFolder fs)
                 (file :: files)))).
    rewrite engineCalls_pageEvents. f_equal.
    destruct (Fs.writeFileSync _ _ _) as [[[]|m] fs']; reflexivity.
  - by rewrite (ocrImages_worker_fails _ _ _ names message Hex Hdir Hne Hworker).
Qed.

Lemma silent_convertBulk f pdfPath options :
  (forall a b, f (EBulk a b) = false) -> silent f (convertBulk ext pdfPath options).
Proof. intros H fs. unfold convertBulk. destruct (bulk ext pdfPath options fs). cbn. by rewrite H. Qed.

Lemma renameLoop_no_removal folder format results :
  forall i saved, silent isRemoval (renameLoop folder format results i saved).
Proof.
  induction results as [|r rest IH]; intros i saved; cbn [renameLoop].
  - apply silent_ret.
  - repeat silent_step. all: apply IH.
Qed.

Lemma convertPdfToImages_no_removal pdfPath options :
  silent isRemoval (convertPdfToImages ext pdfPath options).
Proof.
  unfold convertPdfToImages. repeat silent_step.
  - by apply silent_convertBulk.
  - apply renameLoop_no_removal.
Qed.

Lemma renameLoop_no_engine folder format results :
  forall i saved, silent isEngineCall (renameLoop folder format results i saved).
Proof.
  induction results as [|r rest IH]; intros i saved; cbn [renameLoop].
  - apply silent_ret.
  - repeat silent_step. all: apply IH.
Qed.

Lemma convertPdfToImages_no_engine pdfPath options :
  silent isEngineCall (convertPdfToImages ext pdfPath options).
Proof.
  unfold convertPdfToImages. repeat silent_step.
  - by apply silent_convertBulk.
  - apply renameLoop_no_engine.
Qed.

Lemma ocrLoop_no_removal folder language sep files :
  forall i allText, silent isRemoval (ocrLoop ext folder language sep files i allText).
Proof.
  induction files as [|file rest IH]; intros i allText; cbn [ocrLoop].
  - apply silent_ret.
  - repeat silent_step; try apply IH.
    intros fs. reflexivity.
Qed.

Lemma ocrImages_no_removal folder options :
  silent isRemoval (ocrImages ext folder options).
Proof.
  unfold ocrImages. repeat silent_step.
  - intros fs. reflexivity.
  - apply ocrLoop_no_removal.
  - apply silent_emit. reflexivity.
Qed.

Definition imagesOptionsOf (options : TextOptions.t) : ImagesOptions.t :=
  ImagesOptions.mk (TextOptions.tempImagesFolder options)
    (Some (default "png" (TextOptions.imageFormat options)))
    (Some (default 300%Z (TextOptions.density options))) None.

Definition ocrOptionsOf (pdfPath : string) (options : TextOptions.t) : OcrOptions.t :=
  OcrOptions.mk
    (Some (Js.orElse (TextOptions.outputText options)
             (Path.basename pdfPath (Path.extname pdfPath) +:+ "_ocr_results.txt")))
    (Some (default "ara" (TextOptions.language options))) None None.

Definition removalWarning (message : string) : Event :=
  EWarn ("⚠ Warning: Could not remove temporary folder: " +:+ message).

Definition conversionError (message : string) : Event :=
  EError ("Error in PDF to text conversion: " +:+ message).

Lemma convertPdfToText_unfold pdfPath options :
  convertPdfToText ext pdfPath options
  = tryCatch
      (let* (images, folder) :=
         convertPdfToImages ext pdfPath (imagesOptionsOf options) in
       let* resultFile := ocrImages ext folder (ocrOptionsOf pdfPath options) in
       (if negb (default false (TextOptions.keepImages options))
        then tryCatch (rmSync folder) (fun message => emit (removalWarning message))
        else ret tt) ;;
       ret resultFile)
      (fun message => emit (conversionError message) ;; throw message).
Proof. reflexivity. Qed.

(** C7.  [convertPdfToText] asks for the removal of the temporary image
    folder exactly when both steps succeeded and [keepImages] is false, and
    then exactly once.  A removal that throws only adds a warning line: the
    run still returns the text file.  When rasterization or recognition
    throws, the same error leaves [convertPdfToText], no removal is asked
    for, and the file system is as the failing step left it. *)
Theorem convertPdfToText_cleanup (pdfPath : string) (options : TextOptions.t) (fs : Fs.t) :
  let keepImages := default false (TextOptions.keepImages options) in
  let o1 := convertPdfToImages ext pdfPath (imagesOptionsOf options) fs in
  let o := convertPdfToText ext pdfPath options fs in
  match result o1 with
  | Err e =>
      result o = Err e /\ removals (events o) = [] /\ fsAfter o = fsAfter o1
  | Ok (images, folder) =>
      let o2 := ocrImages ext folder (ocrOptionsOf pdfPath options) (fsAfter o1) in
      match result o2 with
      | Err e =>
          result o = Err e /\ removals (events o) = [] /\ fsAfter o = fsAfter o2
      | Ok resultFile =>
          result o = Ok resultFile
          /\ if keepImages
             then removals (events o) = [] /\ fsAfter o = fsAfter o2
             else removals (events o) = [ERm folder]
                  /\ fsAfter o = (Fs.rmSync (fsAfter o2) folder).2
                  /\ forall message,
                       (Fs.rmSync (fsAfter o2) folder).1 = Err message ->
                       In (removalWarning message) (events o)
      end
  end.
Proof.
  intros keepImages o1 o. subst o o1 keepImages.
  pose proof (convertPdfToImages_no_removal pdfPath (imagesOptionsOf options) fs) as N1.
  rewrite convertPdfToText_unfold, tryCatch_run, bind_run.
  destruct (convertPdfToImages ext pdfPath (imagesOptionsOf options) fs)
    as [[[images folder]|e] fs1 ev1]; cbn [result fsAfter events] in *.
  2:{ rewrite bind_run. unfold emit, throw. cbn [result fsAfter events].
      unfold removals. rewrite List.filter_app, N1. done. }
  pose proof (ocrImages_no_removal folder (ocrOptionsOf pdfPath options) fs1) as N2.
  rewrite bind_run.
  destruct (ocrImages ext folder (ocrOptionsOf pdfPath options) fs1)
    as [[resultFile|e] fs2 ev2]; cbn [result fsAfter events] in *.
  2:{ rewrite bind_run. unfold emit, throw. cbn [result fsAfter events].
      unfold removals. rewrite !List.filter_app, N1, N2. done. }
  rewrite bind_run.
  destruct (default false (TextOptions.keepImages options)); cbn [negb].
  - unfold ret. cbn [result fsAfter events]. unfold removals.
    rewrite !List.filter_app, N1, N2. done.
  - rewrite tryCatch_run. unfold rmSync, liftWrite.
    destruct (Fs.rmSync fs2 folder) as [[[]|m] fs3];
      unfold emit, ret; cbn [result fsAfter events fst snd];
      unfold removals; rewrite !List.filter_app, N1, N2.
    + repeat split. done.
    + repeat split.
      intros message [= <-]. apply in_or_app. right. apply in_or_app. right.
      cbn. auto.
Qed.

(** C1 (as amended).  The code has no check of the page count: when
    rasterization yields no page image, [convertPdfToText] still calls
    [ocrImages] on the image folder.  If that folder then lists no file with
    an allowed image extension and the [page_] prefix, [ocrImages] throws
    [No image files found in <folder>] before it creates an OCR worker, and
    this error leaves [convertPdfToText]: no engine call is made and the
    folder is not removed. *)
Theorem convertPdfToText_zero_pages_no_images
  (pdfPath : string) (options : TextOptions.t) (fs : Fs.t)
  (folder : string) (names : list string) :
  let o1 := convertPdfToImages ext pdfPath (imagesOptionsOf options) fs in
  result o1 = Ok ([], folder) ->
  Fs.existsSync (fsAfter o1) folder = true ->
  Fs.readdirSync (fsAfter o1) folder = Ok names ->
  imageFiles "page_" names = [] ->
  let o := convertPdfToText ext pdfPath options fs in
  result o = Err ("No image files found in " +:+ folder)
  /\ In (ocrError ("No image files found in " +:+ folder)) (events o)
  /\ engineCalls (events o) = []
  /\ removals (events o) = []
  /\ fsAfter o = fsAfter o1.
Proof.
  intros o1 H1 Hex Hdir Hnone o. subst o o1.
  pose proof (convertPdfToImages_no_engine pdfPath (imagesOptionsOf options) fs) as E1.
  pose proof (convertPdfToImages_no_removal pdfPath (imagesOptionsOf options) fs) as N1.
  rewrite convertPdfToText_unfold, tryCatch_run, bind_run.
  destruct (convertPdfToImages ext pdfPath (imagesOptionsOf options) fs)
    as [r1 fs1 ev1]; cbn [result fsAfter events] in *. subst r1.
  rewrite bind_run.
  rewrite (ocrImages_no_images folder (ocrOptionsOf pdfPath options) fs1 names Hex Hdir Hnone).
  rewrite bind_run. unfold emit, throw. cbn [result fsAfter events].
  repeat split.
  - apply in_or_app. left. apply in_or_app. right. left. reflexivity.
  - unfold engineCalls. rewrite !List.filter_app, E1. reflexivity.
  - unfold removals. rewrite !List.filter_app, N1. reflexivity.
Qed.


End Outcomes.


Definition noFaults : Fs.Op -> string -> option string := fun _ _ => None.

(** A PDF next to an image folder left by an earlier run. *)
Definition staleFs : Fs.t :=
  Fs.mk (list_to_map [("doc.pdf", Fs.File "%PDF-1.4"); ("doc_images", Fs.Dir);
                      ("doc_images/page_001.png", Fs.File "old scan")])
    noFaults.

(** A rasterizer that produces no page, and an engine that works. *)
Definition emptyRasterizer : External :=
  mkExternal (fun _ _ fs => (Ok [], fs)) (fun _ => Ok tt)
    (fun _ _ _ => Ok "old text").

(** C1 as the specification states it: zero rasterized pages make the run
    fail without any call to the recognizer. *)
Definition EmptyDocumentGuard : Prop :=
  forall ext pdfPath options fs folder,
    result (convertPdfToImages ext pdfPath (imagesOptionsOf options) fs)
    = Ok ([], folder) ->
    isOk (result (convertPdfToText ext pdfPath options fs)) = false
    /\ engineCalls (events (convertPdfToText ext pdfPath options fs)) = [].

(** C1, counterexample.  With page images left in the folder by an earlier
    run, a document that rasterizes to zero pages is converted
    "successfully": the stale images are recognized and a text file is
    returned. *)
Lemma zero_pages_stale_images_are_recognized :
  result (convertPdfToImages emptyRasterizer "doc.pdf"
            (imagesOptionsOf TextOptions.none) staleFs)
  = Ok ([], "doc_images")
  /\ result (convertPdfToText emptyRasterizer "doc.pdf" TextOptions.none staleFs)
     = Ok "doc_ocr_results.txt"
  /\ engineCalls
       (events (convertPdfToText emptyRasterizer "doc.pdf" TextOptions.none staleFs))
     = [ECreateWorker "ara"; ERecognize "doc_images/page_001.png"; ETerminate]
  /\ ~ EmptyDocumentGuard.
Proof.
  assert (H1 : result (convertPdfToImages emptyRasterizer "doc.pdf"
            (imagesOptionsOf TextOptions.none) staleFs) = Ok ([], "doc_images"))
    by (vm_compute; reflexivity).
  assert (H2 : result (convertPdfToText emptyRasterizer "doc.pdf" TextOptions.none staleFs)
     = Ok "doc_ocr_results.txt") by (vm_compute; reflexivity).
  split; [exact H1|]. split; [exact H2|]. split; [vm_compute; reflexivity|].
  intros G.
  destruct (G emptyRasterizer "doc.pdf" TextOptions.none staleFs _ H1) as [G1 _].
  vm_compute in G1. discriminate.
Qed.

Definition freshFs : Fs.t :=
  Fs.mk (list_to_map [("doc.pdf", Fs.File "%PDF-1.4")]) noFaults.

Lemma zero_pages_fresh_folder_witness :
  result (convertPdfToText emptyRasterizer "doc.pdf" TextOptions.none freshFs)
  = Err ("No image files found in " +:+ "doc_images").
Proof.
  refine (proj1 (convertPdfToText_zero_pages_no_images emptyRasterizer "doc.pdf"
           TextOptions.none freshFs "doc_images" [] _ _ _ _));
    vm_compute; reflexivity.
Defined.

(** A folder of scans: two page images (one with an upper-case extension),
    an image without the page prefix and a text file. *)
Definition scanFs : Fs.t :=
  Fs.mk (list_to_map [("scans", Fs.Dir);
                      ("scans/page_002.png", Fs.File "scan 2");
                      ("scans/page_001.PNG", Fs.File "scan 1");
                      ("scans/cover.png", Fs.File "cover");
                      ("scans/notes.txt", Fs.File "notes")])
    noFaults.

Definition scanNames : list string :=
  ["cover.png"; "notes.txt"; "page_001.PNG"; "page_002.png"].

(** An engine that reads the first page and rejects every other image. *)
Definition firstPageEngine : External :=
  mkExternal (fun _ _ fs => (Ok [], fs)) (fun _ => Ok tt)
    (fun _ _ image =>
       if String.eqb image "scans/page_001.PNG"
       then Ok ("  first page " +:+ LF)
       else Err "corrupt image").

(** An engine that rejects every image. *)
Definition brokenEngine : External :=
  mkExternal (fun _ _ fs => (Ok [], fs)) (fun _ => Ok tt)
    (fun _ _ image => Err ("cannot read " +:+ image)).

Lemma ocrImages_writes_numbered_blocks_witness :
  result (ocrImages firstPageEngine "scans" OcrOptions.none scanFs)
  = Ok (outputFileOf OcrOptions.none).
Proof.
  refine (proj1 (ocrImages_writes_numbered_blocks firstPageEngine "scans"
                   OcrOptions.none scanFs scanNames _ _ _ _ _ _)).
  - vm_compute. reflexivity.
  - vm_compute. reflexivity.
  - vm_compute. lia.
  - vm_compute. reflexivity.
  - vm_compute. reflexivity.
  - vm_compute. discriminate.
Defined.

Lemma ocrImages_survives_page_failures_witness :
  result (ocrImages brokenEngine "scans" OcrOptions.none scanFs)
  = Ok (outputFileOf OcrOptions.none).
Proof.
  refine (proj1 (ocrImages_survives_page_failures brokenEngine "scans"
                   OcrOptions.none scanFs scanNames
                   (fun file => "cannot read " +:+ Path.join "scans" file)
                   _ _ _ _ _ _)).
  - vm_compute. reflexivity.
  - vm_compute. reflexivity.
  - vm_compute. lia.
  - vm_compute. reflexivity.
  - vm_compute. reflexivity.
  - vm_compute. discriminate.
Defined.

Example scans_text :
  Fs.nodes (fsAfter (ocrImages firstPageEngine "scans" OcrOptions.none scanFs))
    !! "ocr_results.txt"
  = Some (Fs.File
            (LF +:+ LF +:+ "=== PAGE 1 ===" +:+ LF +:+ LF +:+ "first page" +:+ LF
             +:+ LF +:+ LF +:+ "=== PAGE 2 ===" +:+ LF +:+ LF
             +:+ "[ERROR: Could not process this page - corrupt image]" +:+ LF)).
Proof. vm_compute. reflexivity. Qed.

Example scans_all_pages_fail :
  let o := ocrImages brokenEngine "scans" OcrOptions.none scanFs in
  result o = Ok "ocr_results.txt"
  /\ Fs.nodes (fsAfter o) !! "ocr_results.txt"
     = Some (Fs.File
               (LF +:+ LF +:+ "=== PAGE 1 ===" +:+ LF +:+ LF
                +:+ "[ERROR: Could not process this page - cannot read scans/page_001.PNG]"
                +:+ LF
                +:+ LF +:+ LF +:+ "=== PAGE 2 ===" +:+ LF +:+ LF
                +:+ "[ERROR: Could not process this page - cannot read scans/page_002.png]"
                +:+ LF)).
Proof. vm_compute. split; reflexivity. Qed.

End Pipeline.

(** ** [cli/batch-pdf-to-text.js] *)

Module BatchOptions.
Record t := mk {
  outputFolder : option string;
  keepImages : option bool;
  imageFormat : option string;
  density : option Z;
  language : option string;
  filePattern : option string;
  concurrent : option nat
}.
Definition none : t := mk None None None None None None None.
End BatchOptions.

(** An element of [pdfFiles]. *)
Record PdfFile := mkPdfFile {
  fullPath : string;
  filename : string;
  basename : string
}.

(** An element of [results] ([success: true]). *)
Module Done.
Record t := mk { input : string; output : string; duration : string }.
End Done.

(** An element of [errors] ([success: false]). *)
Module Failed.
Record t := mk { input : string; error : string; duration : string }.
End Failed.

(** The object [batchProcessPdfs] returns. *)
Record BatchReturn := mkBatchReturn {
  returnedResults : list Done.t;
  returnedErrors : list Failed.t;
  returnedSummary : string
}.

(** What the run reads from the clock and formats as floating-point
    numbers; these values are inputs of the model.
    - [localeString]: [new Date().toLocaleString()] when the summary is made;
    - [elapsed name]: [((Date.now() - startTime) / 1000).toFixed(1)] for the
      document with that file name;
    - [successRate k n]: [((k / n) * 100).toFixed(1)];
    - [totalDuration ds]: [.toFixed(1)] of the sum of [parseFloat] over [ds];
    - [averageDuration ds n]: [.toFixed(1)] of that sum divided by [n]. *)
Record Runtime := mkRuntime {
  localeString : string;
  elapsed : string -> string;
  successRate : nat -> nat -> string;
  totalDuration : list string -> string;
  averageDuration : list string -> nat -> string
}.

(** The life of the promises of [batch.map(async (pdf) => ...)]: [Launch]
    where the callback is entered for a document (all callbacks of a chunk
    are entered by [map], one after the other, before anything else runs),
    [Settle] where the callback of a document returns.  [Pipe] carries the
    calls and error lines of the work itself. *)
Inductive BatchEvent :=
| Launch (name : string)
| Settle (name : string)
| Pipe (e : Event).

Record LoopState := mkLoopState {
  loopFs : Fs.t;
  results : list Done.t;
  errors : list Failed.t;
  completed : nat;
  loopLog : list BatchEvent
}.

Record BatchOutcome := mkBatchOutcome {
  batchResult : Result BatchReturn;
  batchFs : Fs.t;
  batchLog : list BatchEvent
}.

Module Batch.

(** [l.slice(i, j)] for [0 <= i <= j]. *)
Definition slice {A} (i j : nat) (l : list A) : list A :=
  take (j - i) (drop i l).

(** [l.forEach((x, index) => { s += f(x, index) })] *)
Fixpoint forEachAppend {A} (f : A -> nat -> string) (l : list A) (index : nat)
  (s : string) : string :=
  match l with
  | [] => s
  | x :: l' => forEachAppend f l' (S index) (s +:+ f x index)
  end.

Definition statIsDirectory (p : string) : M bool :=
  liftRead (fun fs => Fs.statIsDirectory fs p).

(** [n || d] on numbers: zero is falsy. *)
Definition orElseZ (n : option Z) (d : Z) : Z :=
  match n with
  | Some v => if Z.eqb v 0 then d else v
  | None => d
  end.

Definition orElseNat (n : option nat) (d : nat) : nat :=
  match n with
  | Some v => if Nat.eqb v 0 then d else v
  | None => d
  end.

Section WithRuntime.

Variable ext : External.
Variable rt : Runtime.

Definition generateSummary (results : list Done.t) (errors : list Failed.t)
  (options : BatchOptions.t) : string :=
  let totalFiles := (length results + length errors)%nat in
  let rate :=
    if (0 <? totalFiles)%nat then successRate rt (length results) totalFiles
    else "0" in
  let durations := (map Done.duration results ++ map Failed.duration errors)%list in
  let summary := "BATCH PDF TO TEXT CONVERSION SUMMARY" +:+ LF in
  let summary := summary +:+ ("=====================================" +:+ LF +:+ LF) in
  let summary := summary +:+ ("Processing Date: " +:+ localeString rt +:+ LF) in
  let summary := summary +:+ ("Total Files: " +:+ Js.toString totalFiles +:+ LF) in
  let summary := summary +:+ ("Successful: " +:+ Js.toString (length results) +:+ LF) in
  let summary := summary +:+ ("Failed: " +:+ Js.toString (length errors) +:+ LF) in
  let summary := summary +:+ ("Success Rate: " +:+ rate +:+ "%" +:+ LF) in
  let summary :=
    summary +:+ ("Total Duration: " +:+ totalDuration rt durations
                   +:+ " seconds" +:+ LF) in
  let summary :=
    summary +:+ ("Average per file: "
                   +:+ (if (0 <? totalFiles)%nat
                        then averageDuration rt durations totalFiles else "0")
                   +:+ " seconds" +:+ LF +:+ LF) in
  let summary := summary +:+ ("SETTINGS:" +:+ LF) in
  let summary := summary +:+ ("---------" +:+ LF) in
  let summary :=
    summary +:+ ("Language: " +:+ Js.orElse (BatchOptions.language options) "ara"
                   +:+ LF) in
  let summary :=
    summary +:+ ("Image Format: "
                   +:+ Js.orElse (BatchOptions.imageFormat options) "png" +:+ LF) in
  let summary :=
    summary +:+ ("DPI: " +:+ pretty (orElseZ (BatchOptions.density options) 300)
                   +:+ LF) in
  let summary :=
    summary +:+ ("Keep Images: "
                   +:+ (if default false (BatchOptions.keepImages options)
                        then "Yes" else "No") +:+ LF) in
  let summary :=
    summary +:+ ("Concurrent: "
                   +:+ Js.toString (orElseNat (BatchOptions.concurrent options) 1)
                   +:+ LF +:+ LF) in
  let summary :=
    if (0 <? length results)%nat then
      let summary := summary +:+ ("SUCCESSFUL CONVERSIONS:" +:+ LF) in
      let summary := summary +:+ ("----------------------" +:+ LF) in
      forEachAppend
        (fun result index =>
           (Js.toString (index + 1) +:+ ". " +:+ Done.input result +:+ LF)
             +:+ ("   Output: " +:+ Path.basename (Done.output result) "" +:+ LF)
             +:+ ("   Duration: " +:+ Done.duration result +:+ "s" +:+ LF +:+ LF))
        results 0 summary
    else summary in
  let summary :=
    if (0 <? length errors)%nat then
      let summary := summary +:+ ("FAILED CONVERSIONS:" +:+ LF) in
      let summary := summary +:+ ("------------------" +:+ LF) in
      forEachAppend
        (fun error index =>
           (Js.toString (index + 1) +:+ ". " +:+ Failed.input error +:+ LF)
             +:+ ("   Error: " +:+ Failed.error error +:+ LF)
             +:+ ("   Duration: " +:+ Failed.duration error +:+ "s" +:+ LF +:+ LF))
        errors 0 summary
    else summary in
  summary.

(** The first part of [batchProcessPdfs]: the output folder is created and
    the input is resolved to the list of PDF files. *)
Definition resolveInput (inputPath outputFolder : string) : M (list PdfFile) :=
  let* outputExists := existsSync outputFolder in
  when (negb outputExists) (mkdirSync outputFolder) ;;
  let* isDirectory := statIsDirectory inputPath in
  let* pdfFiles :=
    (if isDirectory : bool then
       let* files := readdirSync inputPath in
       ret (map (fun file =>
                   mkPdfFile (Path.join inputPath file) file
                     (Path.basename file ".pdf"))
              (List.filter
                 (fun file =>
                    String.eqb (Js.toLowerCase (Path.extname file)) ".pdf")
                 files))
     else if String.eqb (Js.toLowerCase (Path.extname inputPath)) ".pdf" then
       ret [mkPdfFile inputPath (Path.basename inputPath "")
              (Path.basename inputPath ".pdf")]
     else
       throw "Input must be a PDF file or directory containing PDF files") in
  if (length pdfFiles =? 0)%nat
  then throw "No PDF files found in the specified location"
  else ret pdfFiles.

(** The options [batchProcessPdfs] hands to [convertPdfToText] for [pdf]. *)
Definition textOptionsFor (outputFolder : string) (options : BatchOptions.t)
  (pdf : PdfFile) : TextOptions.t :=
  TextOptions.mk
    (Some (Path.join outputFolder (basename pdf +:+ "_ocr.txt")))
    (Some (Path.join outputFolder (basename pdf +:+ "_temp_images")))
    (Some (default false (BatchOptions.keepImages options)))
    (Some (default "png" (BatchOptions.imageFormat options)))
    (Some (default 300%Z (BatchOptions.density options)))
    (Some (default "ara" (BatchOptions.language options))).

(** The callback of [batch.map], from the call of [convertPdfToText] to its
    end: one record is pushed to [results] or to [errors]. *)
Definition processPdf (outputFolder : string) (options : BatchOptions.t)
  (total : nat) (pdf : PdfFile) (st : LoopState) : LoopState :=
  let o :=
    Pipeline.convertPdfToText ext (fullPath pdf)
      (textOptionsFor outputFolder options pdf) (loopFs st) in
  match result o with
  | Ok resultFile =>
      let duration := elapsed rt (filename pdf) in
      mkLoopState (fsAfter o)
        (results st ++ [Done.mk (filename pdf) resultFile duration])
        (errors st)
        (completed st + 1)
        (loopLog st ++ map Pipe (events o) ++ [Settle (filename pdf)])
  | Err message =>
      let completed' := (completed st + 1)%nat in
      let duration := elapsed rt (filename pdf) in
      mkLoopState (fsAfter o)
        (results st)
        (errors st ++ [Failed.mk (filename pdf) message duration])
        completed'
        (loopLog st ++ map Pipe (events o)
           ++ [Pipe (EError ("❌ Failed " +:+ Js.toString completed' +:+ "/"
                               +:+ Js.toString total +:+ ": " +:+ filename pdf
                               +:+ " (" +:+ duration +:+ "s)"));
               Pipe (EError ("   Error: " +:+ message +:+ LF));
               Settle (filename pdf)])
  end.

(** [await Promise.all(batchPromises)]: the promises of the chunk settle one
    by one, in an order the program does not decide; [pick pending] is the
    position in [pending] of the next one to settle.  The work of a document
    is taken at the moment its promise settles. *)
Fixpoint settleAll (pick : list PdfFile -> nat) (outputFolder : string)
  (options : BatchOptions.t) (total : nat) (fuel : nat) (pending : list PdfFile)
  (st : LoopState) : LoopState :=
  match fuel with
  | O => st
  | S fuel' =>
      match pending !! (pick pending mod length pending)%nat with
      | None => st
      | Some pdf =>
          settleAll pick outputFolder options total fuel'
            (delete (pick pending mod length pending)%nat pending)
            (processPdf outputFolder options total pdf st)
      end
  end.

Definition launchAll (batch : list PdfFile) (st : LoopState) : LoopState :=
  mkLoopState (loopFs st) (results st) (errors st) (completed st)
    (loopLog st ++ map (fun pdf => Launch (filename pdf)) batch).

(** [for (let i = 0; i < pdfFiles.length; i += concurrent) { ... }].  The
    loop does not end when [concurrent] is zero: [None] is a run out of
    [fuel]. *)
Fixpoint chunkLoop (pick : list PdfFile -> nat) (outputFolder : string)
  (options : BatchOptions.t) (pdfFiles : list PdfFile) (concurrent : nat)
  (fuel : nat) (i : nat) (st : LoopState) : option LoopState :=
  if (i <? length pdfFiles)%nat then
    match fuel with
    | O => None
    | S fuel' =>
        let batch := slice i (i + concurrent) pdfFiles in
        chunkLoop pick outputFolder options pdfFiles concurrent fuel'
          (i + concurrent)
          (settleAll pick outputFolder options (length pdfFiles)
             (length batch) batch (launchAll batch st))
    end
  else Some st.

Definition fatalError (message : string) : Event :=
  EError ("Fatal error in batch processing: " +:+ message).

Definition batchProcessPdfs (pick : list PdfFile -> nat) (fuel : nat)
  (inputPath : string) (options : BatchOptions.t) (fs : Fs.t)
  : option BatchOutcome :=
  let outputFolder := default "batch_ocr_results" (BatchOptions.outputFolder options) in
  let concurrent := default 1%nat (BatchOptions.concurrent options) in
  let o0 := resolveInput inputPath outputFolder fs in
  match result o0 with
  | Err message =>
      Some (mkBatchOutcome (Err message) (fsAfter o0)
              (map Pipe (events o0 ++ [fatalError message])))
  | Ok pdfFiles =>
      match chunkLoop pick outputFolder options pdfFiles concurrent fuel 0
              (mkLoopState (fsAfter o0) [] [] 0 (map Pipe (events o0))) with
      | None => None
      | Some st =>
          let summaryFile := Path.join outputFolder "batch_processing_summary.txt" in
          let summary := generateSummary (results st) (errors st) options in
          let o1 := writeFileSync summaryFile summary (loopFs st) in
          match result o1 with
          | Ok _ =>
              Some (mkBatchOutcome
                      (Ok (mkBatchReturn (results st) (errors st) summaryFile))
                      (fsAfter o1)
                      (loopLog st ++ map Pipe (events o1)))
          | Err message =>
              Some (mkBatchOutcome (Err message) (fsAfter o1)
                      (loopLog st ++ map Pipe (events o1 ++ [fatalError message])))
          end
      end
  end.

End WithRuntime.

End Batch.

(** *** Runs of [batchProcessPdfs] *)

Module BatchFacts.

Import Batch.
#[local] Open Scope list_scope.

Definition isLaunch (e : BatchEvent) : bool :=
  match e with Launch _ => true | _ => false end.
Definition isSettle (e : BatchEvent) : bool :=
  match e with Settle _ => true | _ => false end.
Definition isPromise (e : BatchEvent) : bool :=
  match e with Pipe _ => false | _ => true end.

(** The promise events of a log. *)
Definition schedule (log : list BatchEvent) : list BatchEvent :=
  List.filter isPromise log.
Definition launched (log : list BatchEvent) : nat :=
  length (List.filter isLaunch log).
Definition settled (log : list BatchEvent) : nat :=
  length (List.filter isSettle log).

(** The order in which the promises of a chunk settle. *)
Fixpoint settleOrder (pick : list PdfFile -> nat) (fuel : nat)
  (pending : list PdfFile) : list PdfFile :=
  match fuel with
  | O => []
  | S fuel' =>
      match pending !! (pick pending mod length pending)%nat with
      | None => []
      | Some pdf =>
          pdf :: settleOrder pick fuel'
                   (delete (pick pending mod length pending)%nat pending)
      end
  end.

(** The chunks the loop takes, from index [i] on. *)
Fixpoint chunksFrom (pdfFiles : list PdfFile) (concurrent fuel i : nat)
  : list (list PdfFile) :=
  if (i <? length pdfFiles)%nat then
    match fuel with
    | O => []
    | S fuel' =>
        slice i (i + concurrent) pdfFiles
        :: chunksFrom pdfFiles concurrent fuel' (i + concurrent)
    end
  else [].

Definition names (l : list PdfFile) : list string := map filename l.

(** The promise events of one chunk. *)
Definition round (pick : list PdfFile -> nat) (batch : list PdfFile)
  : list BatchEvent :=
  map Launch (names batch)
  ++ map Settle (names (settleOrder pick (length batch) batch)).

Lemma settleOrder_perm pick pending :
  settleOrder pick (length pending) pending ≡ₚ pending.
Proof.
  remember (length pending) as n eqn:Hn.
  revert pending Hn. induction n as [|n IH]; intros pending Hn.
  - destruct pending; [done|discriminate].
  - cbn [settleOrder].
    assert (Hk : (pick pending mod length pending < length pending)%nat).
    { apply Nat.mod_upper_bound. lia. }
    destruct (lookup_lt_is_Some_2 _ _ Hk) as [pdf Hpdf]. rewrite Hpdf.
    trans (pdf :: delete (pick pending mod length pending)%nat pending).
    + constructor. apply IH. rewrite length_delete; [lia|eauto].
    + symmetry. by apply delete_Permutation.
Qed.

Lemma slice_length {A} i j (l : list A) :
  length (slice i j l) = (Nat.min (j - i) (length l - i)).
Proof. unfold slice. by rewrite length_take, length_drop. Qed.

Lemma chunksFrom_concat pdfFiles concurrent fuel :
  (1 <= concurrent)%nat ->
  forall i, (length pdfFiles < fuel + i)%nat ->
  concat (chunksFrom pdfFiles concurrent fuel i) = drop i pdfFiles.
Proof.
  intros Hc. induction fuel as [|fuel IH]; intros i Hf.
  - cbn [chunksFrom]. rewrite drop_ge by lia.
    by destruct (i <? length pdfFiles)%nat.
  - cbn [chunksFrom]. destruct (Nat.ltb_spec i (length pdfFiles)) as [Hi|Hi].
    + cbn [concat]. rewrite IH by lia. unfold slice.
      replace (i + concurrent - i)%nat with concurrent by lia.
      rewrite <- drop_drop. apply take_drop.
    + rewrite drop_ge by lia; done.
Qed.

Lemma chunksFrom_lookup pdfFiles concurrent fuel :
  (1 <= concurrent)%nat ->
  forall i k c,
    chunksFrom pdfFiles concurrent fuel i !! k = Some c ->
    c = slice (i + k * concurrent) (i + k * concurrent + concurrent) pdfFiles
    /\ (1 <= length c <= concurrent)%nat.
Proof.
  intros Hc. induction fuel as [|fuel IH]; intros i k c.
  - cbn [chunksFrom]. destruct (i <? length pdfFiles)%nat; done.
  - cbn [chunksFrom]. destruct (Nat.ltb_spec i (length pdfFiles)) as [Hi|Hi]; [|done].
    destruct k as [|k]; cbn.
    + intros [= <-]. rewrite Nat.add_0_r. split; [done|].
      rewrite slice_length. lia.
    + intros H. apply IH in H as [-> H2]. split; [|done].
      f_equal; lia.
Qed.

Lemma launched_app a b : launched (a ++ b) = (launched a + launched b)%nat.
Proof. unfold launched. by rewrite List.filter_app, length_app. Qed.

Lemma settled_app a b : settled (a ++ b) = (settled a + settled b)%nat.
Proof. unfold settled. by rewrite List.filter_app, length_app. Qed.

Lemma launched_launches l : launched (map Launch l) = length l.
Proof. unfold launched. induction l; cbn in *; [done|]. by rewrite IHl. Qed.

Lemma launched_settles l : launched (map Settle l) = 0%nat.
Proof. unfold launched. induction l; cbn in *; done. Qed.

Lemma settled_launches l : settled (map Launch l) = 0%nat.
Proof. unfold settled. induction l; cbn in *; done. Qed.

Lemma settled_settles l : settled (map Settle l) = length l.
Proof. unfold settled. induction l; cbn in *; [done|]. by rewrite IHl. Qed.

Lemma launched_take n l : (launched (take n l) <= launched l)%nat.
Proof.
  rewrite <- (take_drop n l) at 2. rewrite launched_app. lia.
Qed.

Lemma round_launched pick batch : launched (round pick batch) = length batch.
Proof.
  unfold round, names. rewrite launched_app, launched_launches, launched_settles.
  rewrite length_map. lia.
Qed.

Lemma round_settled pick batch : settled (round pick batch) = length batch.
Proof.
  unfold round, names. rewrite settled_app, settled_launches, settled_settles.
  rewrite length_map, (settleOrder_perm pick batch). lia.
Qed.

(** After any number of promise events of a sequence of rounds, the
    promises launched and not yet settled are at most as many as the
    largest round has. *)
Lemma rounds_in_flight pick (concurrent : nat) chunks :
  Forall (fun c => (length c <= concurrent)%nat) chunks ->
  forall n,
    let past := take n (concat (map (round pick) chunks)) in
    (launched past <= settled past + concurrent)%nat.
Proof.
  induction 1 as [|c chunks Hc _ IH]; intros n past; subst past.
  - cbn. rewrite take_nil. cbn. lia.
  - cbn [map concat]. rewrite take_app, launched_app, settled_app.
    destruct (Nat.le_gt_cases (length (round pick c)) n) as [Hn|Hn].
    + rewrite take_ge by done. rewrite round_launched, round_settled.
      specialize (IH (n - length (round pick c))%nat). cbn zeta in IH. lia.
    + replace (n - length (round pick c))%nat with 0%nat by lia.
      rewrite take_0. 
      pose proof (launched_take n (round pick c)) as H1.
      rewrite round_launched in H1. change (launched []) with 0%nat. lia.
Qed.

Section Runs.

Variable ext : External.
Variable rt : Runtime.
Variable pick : list PdfFile -> nat.
Variable outputFolder : string.
Variable options : BatchOptions.t.
Variable total : nat.

Definition processAll (order : list PdfFile) (st : LoopState) : LoopState :=
  foldl (fun st pdf => processPdf ext rt outputFolder options total pdf st) st order.

Definition runChunk (st : LoopState) (batch : list PdfFile) : LoopState :=
  processAll (settleOrder pick (length batch) batch) (launchAll batch st).

Lemma settleAll_processAll fuel :
  forall pending st,
    settleAll ext rt pick outputFolder options total fuel pending st
    = processAll (settleOrder pick fuel pending) st.
Proof.
  induction fuel as [|fuel IH]; intros pending st; [reflexivity|].
  cbn [settleAll settleOrder].
  destruct (pending !! (pick pending mod length pending)%nat); [|reflexivity].
  rewrite IH. reflexivity.
Qed.

(** The file names a state accounts for, in [results] and in [errors]. *)
Definition accounted (st : LoopState) : list string :=
  map Done.input (results st) ++ map Failed.input (errors st).

Lemma schedule_pipes evs : schedule (map Pipe evs) = [].
Proof. unfold schedule. induction evs; cbn in *; done. Qed.

Lemma processPdf_schedule pdf st :
  schedule (loopLog (processPdf ext rt outputFolder options total pdf st))
  = schedule (loopLog st) ++ [Settle (filename pdf)].
Proof.
  unfold processPdf.
  destruct (result _); cbn [loopLog]; unfold schedule;
    rewrite !List.filter_app; fold (schedule (map Pipe (events
      (Pipeline.convertPdfToText ext (fullPath pdf)
         (textOptionsFor outputFolder options pdf) (loopFs st)))));
    rewrite schedule_pipes; reflexivity.
Qed.

Lemma processPdf_accounted pdf st :
  accounted (processPdf ext rt outputFolder options total pdf st)
  ≡ₚ accounted st ++ [filename pdf].
Proof.
  unfold processPdf, accounted.
  destruct (result _); cbn [results errors]; rewrite map_app; cbn [map].
  - rewrite <- !app_assoc. apply Permutation_app_head, Permutation_app_comm.
  - by rewrite app_assoc.
Qed.

Lemma processAll_schedule order :
  forall st,
    schedule (loopLog (processAll order st))
    = schedule (loopLog st) ++ map Settle (names order).
Proof.
  induction order as [|pdf order IH]; intros st; cbn [processAll foldl names map].
  - by rewrite app_nil_r.
  - fold (processAll order (processPdf ext rt outputFolder options total pdf st)).
    rewrite IH, processPdf_schedule, <- app_assoc. reflexivity.
Qed.

Lemma processAll_accounted order :
  forall st, accounted (processAll order st) ≡ₚ accounted st ++ names order.
Proof.
  induction order as [|pdf order IH]; intros st; cbn [processAll foldl names map].
  - by rewrite app_nil_r.
  - fold (processAll order (processPdf ext rt outputFolder options total pdf st)).
    rewrite IH, processPdf_accounted, <- app_assoc. reflexivity.
Qed.

Lemma runChunk_schedule st batch :
  schedule (loopLog (runChunk st batch))
  = schedule (loopLog st) ++ round pick batch.
Proof.
  unfold runChunk. rewrite processAll_schedule. cbn [launchAll loopLog].
  unfold schedule at 1. rewrite List.filter_app. fold (schedule (loopLog st)).
  rewrite <- app_assoc. f_equal. unfold round, names. f_equal.
  rewrite <- map_map. generalize (map filename batch). intros l.
  induction l; cbn; [done|]. by f_equal.
Qed.

Lemma runChunk_accounted st batch :
  accounted (runChunk st batch) ≡ₚ accounted st ++ names batch.
Proof.
  unfold runChunk. rewrite processAll_accounted.
  unfold names. by rewrite settleOrder_perm.
Qed.

Definition runChunks (chunks : list (list PdfFile)) (st : LoopState) : LoopState :=
  foldl runChunk st chunks.

Lemma runChunks_schedule chunks :
  forall st,
    schedule (loopLog (runChunks chunks st))
    = schedule (loopLog st) ++ concat (map (round pick) chunks).
Proof.
  induction chunks as [|c chunks IH]; intros st; cbn [runChunks foldl map concat].
  - by rewrite app_nil_r.
  - fold (runChunks chunks (runChunk st c)).
    rewrite IH, runChunk_schedule, <- app_assoc. reflexivity.
Qed.

Lemma runChunks_accounted chunks :
  forall st, accounted (runChunks chunks st) ≡ₚ accounted st ++ names (concat chunks).
Proof.
  induction chunks as [|c chunks IH]; intros st; cbn [runChunks foldl concat].
  - by rewrite app_nil_r.
  - fold (runChunks chunks (runChunk st c)).
    rewrite IH, runChunk_accounted. unfold names. rewrite map_app, <- app_assoc.
    reflexivity.
Qed.

End Runs.

Section Loop.

Variable ext : External.
Variable rt : Runtime.
Variable pick : list PdfFile -> nat.
Variable outputFolder : string.
Variable options : BatchOptions.t.

Lemma chunkLoop_runs pdfFiles concurrent fuel :
  (1 <= concurrent)%nat ->
  forall i st,
    (length pdfFiles < fuel + i)%nat ->
    chunkLoop ext rt pick outputFolder options pdfFiles concurrent fuel i st
    = Some (runChunks ext rt pick outputFolder options (length pdfFiles)
              (chunksFrom pdfFiles concurrent fuel i) st).
Proof.
  intros Hc. induction fuel as [|fuel IH]; intros i st Hf; cbn [chunkLoop chunksFrom].
  - destruct (Nat.ltb_spec i (length pdfFiles)); [lia|reflexivity].
  - destruct (Nat.ltb_spec i (length pdfFiles)); [|reflexivity].
    rewrite IH by lia. rewrite settleAll_processAll. reflexivity.
Qed.

(** With a zero chunk size the loop never ends. *)
Lemma chunkLoop_zero pdfFiles fuel st :
  pdfFiles <> [] ->
  chunkLoop ext rt pick outputFolder options pdfFiles 0 fuel 0 st = None.
Proof.
  intros Hne. revert st. induction fuel as [|fuel IH]; intros st; cbn [chunkLoop].
  - destruct pdfFiles; done.
  - destruct pdfFiles as [|p l] eqn:E; [done|]. cbn [length Nat.ltb Nat.leb].
    rewrite <- E in *. 
    replace (0 + 0)%nat with 0%nat by done. apply IH.
Qed.

End Loop.

(** [part] occurs in [text]. *)
Definition contains (text part : string) : Prop :=
  exists before after, text = before +:+ part +:+ after.

(** [b] is [a] with more text appended. *)
Definition extends (a b : string) : Prop := exists more, b = a +:+ more.

Lemma extends_refl a : extends a a.
Proof. exists "". by rewrite Js.app_empty_r. Qed.

Lemma extends_app a b : extends a (a +:+ b).
Proof. by exists b. Qed.

Lemma extends_trans a b c : extends a b -> extends b c -> extends a c.
Proof. intros [x ->] [y ->]. exists (x +:+ y). by rewrite Js.app_assoc. Qed.

Lemma contains_extends a b part : extends a b -> contains a part -> contains b part.
Proof.
  intros [more ->] (before & after & ->). exists before, (after +:+ more).
  by rewrite <- !Js.app_assoc.
Qed.

Lemma contains_end a part : contains (a +:+ part) part.
Proof. exists a, "". by rewrite Js.app_empty_r. Qed.

Lemma contains_app_r a b part : contains b part -> contains (a +:+ b) part.
Proof.
  intros (before & after & ->). exists (a +:+ before), after.
  by rewrite <- !Js.app_assoc.
Qed.

Lemma forEachAppend_extends {A} (f : A -> nat -> string) l :
  forall index s, extends s (forEachAppend f l index s).
Proof.
  induction l as [|x l IH]; intros index s; cbn [forEachAppend].
  - apply extends_refl.
  - eapply extends_trans; [apply extends_app|apply IH].
Qed.

Lemma forEachAppend_contains {A} (f : A -> nat -> string) l :
  forall index s k x,
    l !! k = Some x ->
    contains (forEachAppend f l index s) (f x (index + k)%nat).
Proof.
  induction l as [|y l IH]; intros index s k x Hk; [done|].
  cbn [forEachAppend]. destruct k as [|k]; cbn in Hk.
  - injection Hk as ->. rewrite Nat.add_0_r.
    eapply contains_extends; [apply forEachAppend_extends|apply contains_end].
  - replace (index + S k)%nat with (S index + k)%nat by lia. by apply IH.
Qed.

Lemma forEachAppend_start {A} (f : A -> nat -> string) l :
  forall index s, forEachAppend f l index s = s +:+ forEachAppend f l index "".
Proof.
  induction l as [|x l IH]; intros index s; cbn [forEachAppend].
  - by rewrite Js.app_empty_r.
  - rewrite IH, (IH _ ("" +:+ f x index)). change ("" +:+ ?x) with x.
    by rewrite Js.app_assoc.
Qed.

Section Summary.

Variable rt : Runtime.

Definition doneEntry (result : Done.t) (index : nat) : string :=
  (Js.toString (index + 1) +:+ ". " +:+ Done.input result +:+ LF)
    +:+ ("   Output: " +:+ Path.basename (Done.output result) "" +:+ LF)
    +:+ ("   Duration: " +:+ Done.duration result +:+ "s" +:+ LF +:+ LF).

Definition failedEntry (error : Failed.t) (index : nat) : string :=
  (Js.toString (index + 1) +:+ ". " +:+ Failed.input error +:+ LF)
    +:+ ("   Error: " +:+ Failed.error error +:+ LF)
    +:+ ("   Duration: " +:+ Failed.duration error +:+ "s" +:+ LF +:+ LF).

Definition countLines (results : list Done.t) (errors : list Failed.t) : string :=
  "Successful: " +:+ Js.toString (length results) +:+ LF
    +:+ "Failed: " +:+ Js.toString (length errors) +:+ LF.

Definition failedSection (errors : list Failed.t) : string :=
  if (0 <? length errors)%nat
  then "FAILED CONVERSIONS:" +:+ LF +:+ "------------------" +:+ LF
         +:+ forEachAppend failedEntry errors 0 ""
  else "".

Definition summaryHead (results : list Done.t) (errors : list Failed.t) : string :=
  "BATCH PDF TO TEXT CONVERSION SUMMARY" +:+ LF
    +:+ "=====================================" +:+ LF +:+ LF
    +:+ "Processing Date: " +:+ localeString rt +:+ LF
    +:+ "Total Files: " +:+ Js.toString (length results + length errors) +:+ LF.

Definition summaryMiddle (results : list Done.t) (errors : list Failed.t)
  (options : BatchOptions.t) : string :=
  let totalFiles := (length results + length errors)%nat in
  let durations := map Done.duration results ++ map Failed.duration errors in
  "Success Rate: "
    +:+ (if (0 <? totalFiles)%nat then successRate rt (length results) totalFiles
         else "0") +:+ "%" +:+ LF
    +:+ "Total Duration: " +:+ totalDuration rt durations +:+ " seconds" +:+ LF
    +:+ "Average per file: "
    +:+ (if (0 <? totalFiles)%nat then averageDuration rt durations totalFiles
         else "0") +:+ " seconds" +:+ LF +:+ LF
    +:+ "SETTINGS:" +:+ LF +:+ "---------" +:+ LF
    +:+ "Language: " +:+ Js.orElse (BatchOptions.language options) "ara" +:+ LF
    +:+ "Image Format: " +:+ Js.orElse (BatchOptions.imageFormat options) "png" +:+ LF
    +:+ "DPI: " +:+ pretty (orElseZ (BatchOptions.density options) 300) +:+ LF
    +:+ "Keep Images: "
    +:+ (if default false (BatchOptions.keepImages options) then "Yes" else "No")
    +:+ LF
    +:+ "Concurrent: "
    +:+ Js.toString (orElseNat (BatchOptions.concurrent options) 1) +:+ LF +:+ LF
    +:+ (if (0 <? length results)%nat
         then "SUCCESSFUL CONVERSIONS:" +:+ LF +:+ "----------------------" +:+ LF
                +:+ forEachAppend doneEntry results 0 ""
         else "").

Lemma generateSummary_shape results errors options :
  generateSummary rt results errors options
  = summaryHead results errors +:+ countLines results errors
      +:+ summaryMiddle results errors options +:+ failedSection errors.
Proof.
  unfold generateSummary. cbv zeta.
  fold doneEntry. fold failedEntry.
  unfold failedSection, countLines, summaryMiddle, summaryHead. cbv zeta.
  destruct (0 <? length errors)%nat; destruct (0 <? length results)%nat;
    rewrite ?(forEachAppend_start failedEntry errors 0 (_ +:+ _)),
            ?(forEachAppend_start doneEntry results 0 (_ +:+ _));
    rewrite <- ?Js.app_assoc, ?Js.app_empty_r; reflexivity.
Qed.

Lemma summary_counts results errors options :
  contains (generateSummary rt results errors options) (countLines results errors).
Proof.
  rewrite generateSummary_shape. by eexists _, _.
Qed.

Lemma summary_failed_entry results errors options k error :
  errors !! k = Some error ->
  contains (generateSummary rt results errors options)
    (Js.toString (k + 1) +:+ ". " +:+ Failed.input error +:+ LF
       +:+ "   Error: " +:+ Failed.error error +:+ LF).
Proof.
  intros Hk. rewrite generateSummary_shape.
  do 3 apply contains_app_r. unfold failedSection.
  assert (H0 : (0 <? length errors)%nat = true).
  { apply Nat.ltb_lt. apply lookup_lt_Some in Hk. lia. }
  rewrite H0. do 4 apply contains_app_r.
  destruct (forEachAppend_contains failedEntry errors 0 "" k error Hk)
    as (before & after & ->).
  exists before, (("   Duration: " +:+ Failed.duration error +:+ "s" +:+ LF +:+ LF)
                    +:+ after).
  unfold failedEntry. cbn [Nat.add]. rewrite <- !Js.app_assoc. reflexivity.
Qed.

End Summary.

(** One run of the document pipeline inside a batch: the document, the
    file system the run starts on, and what the run leaves. *)
Record Run := mkRun {
  doc : PdfFile;
  before : Fs.t;
  outcome : Outcome string
}.

Section Records.

Variable ext : External.
Variable rt : Runtime.
Variable pick : list PdfFile -> nat.
Variable outputFolder : string.
Variable options : BatchOptions.t.
Variable total : nat.

(** The runs of [convertPdfToText] for the documents of [order], one after
    the other: the first on [fs], each next one on the file system the run
    before it left. *)
Fixpoint pipelineRuns (fs : Fs.t) (order : list PdfFile) : list Run :=
  match order with
  | [] => []
  | pdf :: rest =>
      let o :=
        Pipeline.convertPdfToText ext (fullPath pdf)
          (textOptionsFor outputFolder options pdf) fs in
      mkRun pdf fs o :: pipelineRuns (fsAfter o) rest
  end.

(** The file system after the last of [runs] ([fs] when there is none). *)
Definition lastFs (fs : Fs.t) (runs : list Run) : Fs.t :=
  foldl (fun _ run => fsAfter (outcome run)) fs runs.

(** The record of a run that returned, and of a run that threw. *)
Definition doneOf (run : Run) : option Done.t :=
  match result (outcome run) with
  | Ok resultFile =>
      Some (Done.mk (filename (doc run)) resultFile
              (elapsed rt (filename (doc run))))
  | Err _ => None
  end.

Definition failedOf (run : Run) : option Failed.t :=
  match result (outcome run) with
  | Ok _ => None
  | Err message =>
      Some (Failed.mk (filename (doc run)) message
              (elapsed rt (filename (doc run))))
  end.

(** The order in which the documents are worked on: chunk after chunk, and
    inside a chunk in the order its promises settle. *)
Definition runOrder (chunks : list (list PdfFile)) : list PdfFile :=
  concat (map (fun c => settleOrder pick (length c) c) chunks).

Lemma pipelineRuns_app order1 order2 :
  forall fs,
    pipelineRuns fs (order1 ++ order2)
    = pipelineRuns fs order1
      ++ pipelineRuns (lastFs fs (pipelineRuns fs order1)) order2.
Proof.
  induction order1 as [|pdf order1 IH]; intros fs; [reflexivity|].
  cbn [app pipelineRuns]. f_equal. rewrite IH. reflexivity.
Qed.

Lemma lastFs_app fs runs1 runs2 :
  lastFs fs (runs1 ++ runs2) = lastFs (lastFs fs runs1) runs2.
Proof. apply foldl_app. Qed.

Lemma pipelineRuns_length order : forall fs, length (pipelineRuns fs order) = length order.
Proof. induction order as [|pdf order IH]; intros fs; cbn; [done|]. by rewrite IH. Qed.

Lemma processAll_runs order :
  forall st,
    let runs := pipelineRuns (loopFs st) order in
    results (processAll ext rt outputFolder options total order st)
    = results st ++ omap doneOf runs
    /\ errors (processAll ext rt outputFolder options total order st)
       = errors st ++ omap failedOf runs
    /\ loopFs (processAll ext rt outputFolder options total order st)
       = lastFs (loopFs st) runs.
Proof.
  induction order as [|pdf order IH]; intros st; cbv zeta.
  - cbn. by rewrite !app_nil_r.
  - cbn [processAll foldl pipelineRuns].
    fold (processAll ext rt outputFolder options total order
            (processPdf ext rt outputFolder options total pdf st)).
    destruct (IH (processPdf ext rt outputFolder options total pdf st))
      as (I1 & I2 & I3). cbv zeta in *. rewrite I1, I2, I3. clear I1 I2 I3 IH.
    cbn [omap list_omap lastFs foldl outcome]. unfold doneOf at 2, failedOf at 2.
    cbn [outcome doc]. unfold processPdf.
    destruct (result (Pipeline.convertPdfToText ext (fullPath pdf)
                        (textOptionsFor outputFolder options pdf) (loopFs st)));
      cbn [results errors loopFs]; rewrite <- ?app_assoc; done.
Qed.

Lemma runChunks_runs chunks :
  forall st,
    let runs := pipelineRuns (loopFs st) (runOrder chunks) in
    results (runChunks ext rt pick outputFolder options total chunks st)
    = results st ++ omap doneOf runs
    /\ errors (runChunks ext rt pick outputFolder options total chunks st)
       = errors st ++ omap failedOf runs
    /\ loopFs (runChunks ext rt pick outputFolder options total chunks st)
       = lastFs (loopFs st) runs.
Proof.
  induction chunks as [|c chunks IH]; intros st; cbv zeta.
  - cbn. by rewrite !app_nil_r.
  - cbn [runChunks foldl]. fold (runChunks ext rt pick outputFolder options total chunks
            (runChunk ext rt pick outputFolder options total st c)).
    destruct (IH (runChunk ext rt pick outputFolder options total st c))
      as (I1 & I2 & I3). cbv zeta in *. rewrite I1, I2, I3. clear I1 I2 I3 IH.
    unfold runChunk.
    destruct (processAll_runs (settleOrder pick (length c) c) (launchAll c st))
      as (P1 & P2 & P3). cbv zeta in *. rewrite P1, P2, P3. clear P1 P2 P3.
    cbn [launchAll loopFs results errors].
    unfold runOrder. cbn [map concat]. rewrite pipelineRuns_app.
    rewrite !omap_app, lastFs_app, <- !app_assoc. done.
Qed.

Lemma records_of_success run :
  isOk (result (outcome run)) = true ->
  failedOf run = None /\ exists record, doneOf run = Some record.
Proof.
  unfold failedOf, doneOf. destruct (result (outcome run)); [|done].
  intros _. split; [done|]. by eexists.
Qed.

Lemma records_of_failure run :
  isOk (result (outcome run)) = false -> doneOf run = None.
Proof. unfold doneOf. by destruct (result (outcome run)). Qed.

Lemma records_of_successes runs :
  (forall run, run ∈ runs -> isOk (result (outcome run)) = true) ->
  omap failedOf runs = [] /\ length (omap doneOf runs) = length runs.
Proof.
  induction runs as [|run runs IH]; intros Hall; [done|].
  destruct (records_of_success run) as [Hf [record Hd]]; [apply Hall; by left|].
  destruct IH as [I1 I2]; [intros r Hr; apply Hall; by right|].
  cbn [omap list_omap]. rewrite Hf, Hd, I1. cbn [length]. by rewrite I2.
Qed.

(** When exactly one run throws, there is exactly one failure record. *)
Lemma single_failure runs :
  forall k bad,
    runs !! k = Some bad ->
    isOk (result (outcome bad)) = false ->
    (forall j run, runs !! j = Some run -> j <> k ->
                   isOk (result (outcome run)) = true) ->
    omap failedOf runs = omap failedOf [bad]
    /\ (length (omap doneOf runs) + 1 = length runs)%nat.
Proof.
  induction runs as [|run runs IH]; intros k bad Hk Hbad Hothers; [done|].
  destruct k as [|k]; cbn in Hk.
  - injection Hk as ->.
    destruct (records_of_successes runs) as [S1 S2].
    { intros r Hr. apply list_elem_of_lookup in Hr as [j Hj].
      by apply (Hothers (S j) r). }
    cbn [omap list_omap]. rewrite S1, (records_of_failure bad Hbad).
    split; [reflexivity|]. cbn [length]. lia.
  - destruct (records_of_success run) as [Hf [record Hd]].
    { by apply (Hothers 0%nat run). }
    destruct (IH k bad Hk Hbad) as [I1 I2].
    { intros j r Hj Hne. apply (Hothers (S j) r Hj). lia. }
    cbn [omap list_omap] in *. rewrite Hf, Hd, I1. cbn [length].
    split; [reflexivity|lia].
Qed.

Lemma records_length runs :
  (length (omap doneOf runs) + length (omap failedOf runs) = length runs)%nat.
Proof.
  induction runs as [|run runs IH]; [done|]. cbn [omap list_omap length].
  unfold doneOf at 1, failedOf at 1.
  destruct (result (outcome run)); cbn [length]; lia.
Qed.

Lemma runOrder_perm chunks : runOrder chunks ≡ₚ concat chunks.
Proof.
  induction chunks as [|c chunks IH]; [done|]. unfold runOrder in *.
  cbn [map concat]. by rewrite IH, settleOrder_perm.
Qed.

Lemma missing_source pdfPath textOptions fs :
  Fs.existsSync fs pdfPath = false ->
  result (Pipeline.convertPdfToText ext pdfPath textOptions fs)
  = Err ("PDF file not found: " +:+ pdfPath).
Proof.
  intros H. rewrite Pipeline.convertPdfToText_unfold, Pipeline.tryCatch_run,
    Pipeline.bind_run.
  unfold Pipeline.convertPdfToImages. rewrite Pipeline.bind_run.
  unfold existsSync at 1. rewrite H. reflexivity.
Qed.

Lemma pipelineRuns_missing_source order :
  forall fs run,
    run ∈ pipelineRuns fs order ->
    Fs.existsSync (before run) (fullPath (doc run)) = false ->
    result (outcome run) = Err ("PDF file not found: " +:+ fullPath (doc run)).
Proof.
  induction order as [|pdf order IH]; intros fs run Hin Hmissing.
  - by apply elem_of_nil in Hin.
  - cbn [pipelineRuns] in Hin. apply elem_of_cons in Hin as [->|Hin].
    + cbn [outcome doc before] in *. by apply missing_source.
    + by apply (IH _ run Hin).
Qed.

End Records.

Section Whole.

Variable ext : External.
Variable rt : Runtime.
Variable pick : list PdfFile -> nat.

Definition outputFolderOf (options : BatchOptions.t) : string :=
  default "batch_ocr_results" (BatchOptions.outputFolder options).
Definition concurrentOf (options : BatchOptions.t) : nat :=
  default 1%nat (BatchOptions.concurrent options).
Definition summaryFileOf (options : BatchOptions.t) : string :=
  Path.join (outputFolderOf options) "batch_processing_summary.txt".

(** The state in which the loop of [batchProcessPdfs] ends. *)
Definition loopEnd (fuel : nat) (inputPath : string) (options : BatchOptions.t)
  (fs : Fs.t) (pdfFiles : list PdfFile) : LoopState :=
  let o0 := resolveInput inputPath (outputFolderOf options) fs in
  runChunks ext rt pick (outputFolderOf options) options (length pdfFiles)
    (chunksFrom pdfFiles (concurrentOf options) fuel 0)
    (mkLoopState (fsAfter o0) [] [] 0 (map Pipe (events o0))).

Lemma batchProcessPdfs_run fuel inputPath options fs pdfFiles :
  result (resolveInput inputPath (outputFolderOf options) fs) = Ok pdfFiles ->
  (1 <= concurrentOf options)%nat ->
  (length pdfFiles < fuel)%nat ->
  let st := loopEnd fuel inputPath options fs pdfFiles in
  let summary := generateSummary rt (results st) (errors st) options in
  let w := Fs.writeFileSync (loopFs st) (summaryFileOf options) summary in
  batchProcessPdfs ext rt pick fuel inputPath options fs
  = Some (mkBatchOutcome
            (match w.1 with
             | Ok _ => Ok (mkBatchReturn (results st) (errors st) (summaryFileOf options))
             | Err m => Err m
             end)
            w.2
            (loopLog st
               ++ Pipe (EWriteFile (summaryFileOf options) summary)
               :: match w.1 with Ok _ => [] | Err m => [Pipe (fatalError m)] end)).
Proof.
  intros Hres Hc Hf st summary w.
  unfold batchProcessPdfs. fold (outputFolderOf options) (concurrentOf options).
  rewrite Hres. rewrite chunkLoop_runs by lia.
  fold (loopEnd fuel inputPath options fs pdfFiles). fold st.
  fold (summaryFileOf options). fold summary.
  unfold writeFileSync, liftWrite. fold w.
  destruct w as [[[]|m] fs']; reflexivity.
Qed.

End Whole.

Section Claims.

Variable ext : External.
Variable rt : Runtime.
Variable pick : list PdfFile -> nat.

(** C4.  Once the input is resolved to its PDF files (and the chunk size is
    at least one), [batchProcessPdfs] works on every document exactly once,
    chunk after chunk; [runs] are these runs of [convertPdfToText], each on
    the file system the run before it left.  A run that throws does not
    stop the batch: it is caught and kept as a failure record with the
    file name and the message of its error, a run that returns is kept
    as a success record with its output file, and these records, in the
    order of the runs, are exactly [results] and [errors].  The summary of
    these records is then written to [batch_processing_summary.txt] in the
    output folder whether or not documents failed, on the file system the
    last run left, and only a failure of that write makes the batch itself
    fail.  The summary reports the numbers of successes and of failures and
    lists every failed file name with its error message.  A document whose
    source is missing when its run starts fails with [PDF file not found:
    <path>]; so in a batch of three documents in which this is the only
    failure, the summary reports 2 successes and 1 failure, with the name
    of that file and this message. *)
Theorem batchProcessPdfs_isolates_failures
  (fuel : nat) (inputPath : string) (options : BatchOptions.t) (fs : Fs.t)
  (pdfFiles : list PdfFile) :
  result (resolveInput inputPath (outputFolderOf options) fs) = Ok pdfFiles ->
  (1 <= concurrentOf options)%nat ->
  (length pdfFiles < fuel)%nat ->
  let fs0 := fsAfter (resolveInput inputPath (outputFolderOf options) fs) in
  let order := runOrder pick (chunksFrom pdfFiles (concurrentOf options) fuel 0) in
  let runs := pipelineRuns ext (outputFolderOf options) options fs0 order in
  let results := omap (doneOf rt) runs in
  let errors := omap (failedOf rt) runs in
  let summary := generateSummary rt results errors options in
  let w := Fs.writeFileSync (lastFs fs0 runs) (summaryFileOf options) summary in
  order ≡ₚ pdfFiles
  /\ (exists log,
        batchProcessPdfs ext rt pick fuel inputPath options fs
        = Some (mkBatchOutcome
                  (match w.1 with
                   | Ok _ =>
                       Ok (mkBatchReturn results errors (summaryFileOf options))
                   | Err message => Err message
                   end)
                  w.2 log)
        /\ In (Pipe (EWriteFile (summaryFileOf options) summary)) log)
  /\ (length results + length errors = length pdfFiles)%nat
  /\ contains summary
       ("Successful: " +:+ Js.toString (length results) +:+ LF
          +:+ "Failed: " +:+ Js.toString (length errors) +:+ LF)
  /\ (forall k error,
        errors !! k = Some error ->
        contains summary
          (Js.toString (k + 1) +:+ ". " +:+ Failed.input error +:+ LF
             +:+ "   Error: " +:+ Failed.error error +:+ LF))
  /\ (forall run,
        run ∈ runs ->
        Fs.existsSync (before run) (fullPath (doc run)) = false ->
        failedOf rt run
        = Some (Failed.mk (filename (doc run))
                  ("PDF file not found: " +:+ fullPath (doc run))
                  (elapsed rt (filename (doc run)))))
  /\ (forall k bad,
        length pdfFiles = 3%nat ->
        runs !! k = Some bad ->
        Fs.existsSync (before bad) (fullPath (doc bad)) = false ->
        (forall j run,
           runs !! j = Some run -> j <> k ->
           isOk (result (outcome run)) = true) ->
        length results = 2%nat
        /\ errors
           = [Failed.mk (filename (doc bad))
                ("PDF file not found: " +:+ fullPath (doc bad))
                (elapsed rt (filename (doc bad)))]
        /\ contains summary
             ("Successful: " +:+ "2" +:+ LF +:+ "Failed: " +:+ "1" +:+ LF)
        /\ contains summary
             ("1" +:+ ". " +:+ filename (doc bad) +:+ LF
                +:+ "   Error: " +:+ ("PDF file not found: " +:+ fullPath (doc bad))
                +:+ LF)).
Proof.
  intros Hres Hc Hf.
  pose proof (batchProcessPdfs_run ext rt pick fuel inputPath options fs pdfFiles
                Hres Hc Hf) as Hrun. cbv zeta in Hrun.
  destruct (runChunks_runs ext rt pick (outputFolderOf options) options
              (length pdfFiles)
              (chunksFrom pdfFiles (concurrentOf options) fuel 0)
              (mkLoopState
                 (fsAfter (resolveInput inputPath (outputFolderOf options) fs))
                 [] [] 0
                 (map Pipe (events (resolveInput inputPath (outputFolderOf options) fs)))))
    as (R1 & R2 & R3).
  cbv zeta in R1, R2, R3. cbn [loopFs results errors app] in R1, R2, R3.
  fold (loopEnd ext rt pick fuel inputPath options fs pdfFiles) in R1, R2, R3.
  rewrite R1, R2, R3 in Hrun. clear R1 R2 R3.
  intros fs0 order runs done failed summary w.
  assert (Hperm : order ≡ₚ pdfFiles).
  { unfold order. rewrite runOrder_perm, chunksFrom_concat by lia. by rewrite drop_0. }
  assert (Hlen : (length done + length failed = length pdfFiles)%nat).
  { unfold done, failed. rewrite records_length. unfold runs.
    rewrite pipelineRuns_length. by rewrite Hperm. }
  assert (Hmissing : forall run,
            run ∈ runs ->
            Fs.existsSync (before run) (fullPath (doc run)) = false ->
            failedOf rt run
            = Some (Failed.mk (filename (doc run))
                      ("PDF file not found: " +:+ fullPath (doc run))
                      (elapsed rt (filename (doc run))))).
  { intros run Hin Hm. unfold failedOf.
    by rewrite (pipelineRuns_missing_source ext (outputFolderOf options) options
                  order fs0 run Hin Hm). }
  split; [exact Hperm|]. split.
  { eexists. split; [exact Hrun|]. apply in_or_app. right. by left. }
  split; [exact Hlen|]. split; [apply summary_counts|].
  split; [intros k error Hk; by apply summary_failed_entry|].
  split; [exact Hmissing|].
  intros k bad H3 Hk Hm Hothers.
  assert (Hin : bad ∈ runs) by (by eapply list_elem_of_lookup_2).
  pose proof (Hmissing bad Hin Hm) as Hbad.
  assert (Hfail : isOk (result (outcome bad)) = false).
  { unfold failedOf in Hbad. by destruct (result (outcome bad)). }
  destruct (single_failure rt runs k bad Hk Hfail Hothers) as [S1 S2].
  fold failed in S1. fold done in S2.
  cbn [omap list_omap] in S1. rewrite Hbad in S1.
  assert (Hruns : length runs = 3%nat).
  { unfold runs. rewrite pipelineRuns_length, Hperm. exact H3. }
  assert (H2 : length done = 2%nat) by lia.
  split; [exact H2|]. split; [exact S1|]. split.
  - pose proof (summary_counts rt done failed options) as Hcount.
    unfold countLines in Hcount.
    assert (Hone : length failed = 1%nat) by (by rewrite S1).
    rewrite H2, Hone in Hcount. exact Hcount.
  - assert (Hfirst : failed !! 0%nat
                     = Some (Failed.mk (filename (doc bad))
                               ("PDF file not found: " +:+ fullPath (doc bad))
                               (elapsed rt (filename (doc bad)))))
      by (by rewrite S1).
    exact (summary_failed_entry rt done failed options 0 _ Hfirst).
Qed.

(** C9.  The loop of [batchProcessPdfs] cuts the resolved list into
    consecutive chunks: chunk k is the slice of [concurrent] documents from
    index [k * concurrent] (the last one may be shorter).  The promise
    events of the run are, chunk after chunk, the launches of the whole
    chunk followed by its settlements, in whatever order the promises of the
    chunk settle; no document of the next chunk is launched before all of
    this chunk have settled.  Hence, after any number of these events, at
    most [concurrent] pipelines are launched and not yet settled. *)
Theorem batchProcessPdfs_bounded_chunks
  (fuel : nat) (inputPath : string) (options : BatchOptions.t) (fs : Fs.t)
  (pdfFiles : list PdfFile) :
  result (resolveInput inputPath (outputFolderOf options) fs) = Ok pdfFiles ->
  (1 <= concurrentOf options)%nat ->
  (length pdfFiles < fuel)%nat ->
  exists out chunks,
    batchProcessPdfs ext rt pick fuel inputPath options fs = Some out
    /\ concat chunks = pdfFiles
    /\ (forall k c,
          chunks !! k = Some c ->
          c = slice (k * concurrentOf options)
                (k * concurrentOf options + concurrentOf options) pdfFiles
          /\ (1 <= length c <= concurrentOf options)%nat
          /\ settleOrder pick (length c) c ≡ₚ c)
    /\ schedule (batchLog out) = concat (map (round pick) chunks)
    /\ (forall n,
          (launched (take n (schedule (batchLog out)))
           <= settled (take n (schedule (batchLog out))) + concurrentOf options)%nat).
Proof.
  intros Hres Hc Hf.
  pose proof (batchProcessPdfs_run ext rt pick fuel inputPath options fs pdfFiles
                Hres Hc Hf) as Hrun. cbv zeta in Hrun.
  set (st := loopEnd ext rt pick fuel inputPath options fs pdfFiles) in *.
  set (chunks := chunksFrom pdfFiles (concurrentOf options) fuel 0).
  assert (Hsched : schedule (loopLog st) = concat (map (round pick) chunks)).
  { unfold st, loopEnd. rewrite runChunks_schedule. cbn [loopLog].
    by rewrite schedule_pipes. }
  assert (Hlookup : forall k c,
            chunks !! k = Some c ->
            c = slice (k * concurrentOf options)
                  (k * concurrentOf options + concurrentOf options) pdfFiles
            /\ (1 <= length c <= concurrentOf options)%nat).
  { intros k c Hk. by apply (chunksFrom_lookup pdfFiles _ fuel Hc 0 k c) in Hk. }
  eexists _, chunks. split; [exact Hrun|]. cbn [batchLog].
  assert (Hout : schedule
            (loopLog st
             ++ Pipe (EWriteFile (summaryFileOf options)
                        (generateSummary rt (results st) (errors st) options))
             :: match (Fs.writeFileSync (loopFs st) (summaryFileOf options)
                         (generateSummary rt (results st) (errors st) options)).1 with
                | Ok _ => []
                | Err m => [Pipe (fatalError m)]
                end)
          = concat (map (round pick) chunks)).
  { unfold schedule. rewrite List.filter_app. fold (schedule (loopLog st)).
    rewrite Hsched. cbn [List.filter isPromise].
    destruct ((Fs.writeFileSync _ _ _).1); cbn; by rewrite app_nil_r. }
  rewrite Hout. repeat split.
  - unfold chunks. rewrite chunksFrom_concat by lia. apply drop_0.
  - by apply Hlookup.
  - apply Hlookup in H. lia.
  - apply Hlookup in H. lia.
  - apply settleOrder_perm.
  - intros n. apply rounds_in_flight.
    apply Forall_lookup. intros k c Hk. apply Hlookup in Hk. lia.
Qed.

End Claims.

(** A folder with three PDF files, one of them a link to a missing file. *)
Definition inboxFs : Fs.t :=
  Fs.mk (list_to_map [("in", Fs.Dir);
                      ("in/a.pdf", Fs.File "%PDF a");
                      ("in/b.pdf", Fs.Dangling);
                      ("in/c.PDF", Fs.File "%PDF c");
                      ("in/readme.txt", Fs.File "notes")])
    Pipeline.noFaults.

Definition inboxPdfs : list PdfFile :=
  [mkPdfFile "in/c.PDF" "c.PDF" "c.PDF"; mkPdfFile "in/a.pdf" "a.pdf" "a";
   mkPdfFile "in/b.pdf" "b.pdf" "b"].

(** A rasterizer that writes one page per document, and an engine that
    reads every page. *)
Definition onePage : External :=
  mkExternal
    (fun pdf opts fs =>
       let p := savePath opts +:+ "/page.1.png" in
       (Ok [Some p],
        Fs.mk (<[p := Fs.File ("scan of " +:+ pdf)]> (Fs.nodes fs)) (Fs.faults fs)))
    (fun _ => Ok tt)
    (fun _ _ image => Ok ("text of " +:+ image)).

Definition stopwatch : Runtime :=
  mkRuntime "1/1/2025, 10:00:00 AM" (fun _ => "1.0")
    (fun _ _ => "66.7") (fun _ => "3.0") (fun _ _ => "1.0").

Definition twoAtATime : BatchOptions.t :=
  BatchOptions.mk (Some "out") None None None None None (Some 2%nat).

Definition secondFirst : list PdfFile -> nat := fun _ => 1%nat.

Lemma batchProcessPdfs_isolates_failures_witness :
  exists out,
    batchProcessPdfs onePage stopwatch secondFirst 4 "in" twoAtATime inboxFs
    = Some out.
Proof.
  assert (H1 : result (resolveInput "in" (outputFolderOf twoAtATime) inboxFs)
               = Ok inboxPdfs) by (vm_compute; reflexivity).
  assert (H2 : (1 <= concurrentOf twoAtATime)%nat) by (vm_compute; lia).
  assert (H3 : (length inboxPdfs < 4)%nat) by (vm_compute; lia).
  destruct (batchProcessPdfs_isolates_failures onePage stopwatch secondFirst 4
              "in" twoAtATime inboxFs inboxPdfs H1 H2 H3)
    as (_ & (log & Hrun & _) & _).
  eexists. exact Hrun.
Defined.

Lemma batchProcessPdfs_bounded_chunks_witness :
  exists out,
    batchProcessPdfs onePage stopwatch secondFirst 4 "in" twoAtATime inboxFs
    = Some out.
Proof.
  assert (H1 : result (resolveInput "in" (outputFolderOf twoAtATime) inboxFs)
               = Ok inboxPdfs) by (vm_compute; reflexivity).
  assert (H2 : (1 <= concurrentOf twoAtATime)%nat) by (vm_compute; lia).
  assert (H3 : (length inboxPdfs < 4)%nat) by (vm_compute; lia).
  destruct (batchProcessPdfs_bounded_chunks onePage stopwatch secondFirst 4
              "in" twoAtATime inboxFs inboxPdfs H1 H2 H3)
    as (out & _ & Hrun & _).
  exists out. exact Hrun.
Defined.

(** The batch of three: two documents converted, the missing one reported. *)
Example batch_of_three :
  let out :=
    batchProcessPdfs onePage stopwatch secondFirst 4 "in" twoAtATime inboxFs in
  option_map batchResult out
  = Some (Ok (mkBatchReturn
                [Done.mk "a.pdf" "out/a_ocr.txt" "1.0";
                 Done.mk "c.PDF" "out/c.PDF_ocr.txt" "1.0"]
                [Failed.mk "b.pdf" "PDF file not found: in/b.pdf" "1.0"]
                "out/batch_processing_summary.txt"))
  /\ option_map (fun o => schedule (batchLog o)) out
     = Some [Launch "c.PDF"; Launch "a.pdf"; Settle "a.pdf"; Settle "c.PDF";
             Launch "b.pdf"; Settle "b.pdf"]
  /\ (out ≫= fun o => Fs.nodes (batchFs o) !! "out/batch_processing_summary.txt")
     = Some (Fs.File
               ("BATCH PDF TO TEXT CONVERSION SUMMARY" +:+ LF
                +:+ "=====================================" +:+ LF +:+ LF
                +:+ "Processing Date: 1/1/2025, 10:00:00 AM" +:+ LF
                +:+ "Total Files: 3" +:+ LF
                +:+ "Successful: 2" +:+ LF
                +:+ "Failed: 1" +:+ LF
                +:+ "Success Rate: 66.7%" +:+ LF
                +:+ "Total Duration: 3.0 seconds" +:+ LF
                +:+ "Average per file: 1.0 seconds" +:+ LF +:+ LF
                +:+ "SETTINGS:" +:+ LF
                +:+ "---------" +:+ LF
                +:+ "Language: ara" +:+ LF
                +:+ "Image Format: png" +:+ LF
                +:+ "DPI: 300" +:+ LF
                +:+ "Keep Images: No" +:+ LF
                +:+ "Concurrent: 2" +:+ LF +:+ LF
                +:+ "SUCCESSFUL CONVERSIONS:" +:+ LF
                +:+ "----------------------" +:+ LF
                +:+ "1. a.pdf" +:+ LF
                +:+ "   Output: a_ocr.txt" +:+ LF
                +:+ "   Duration: 1.0s" +:+ LF +:+ LF
                +:+ "2. c.PDF" +:+ LF
                +:+ "   Output: c.PDF_ocr.txt" +:+ LF
                +:+ "   Duration: 1.0s" +:+ LF +:+ LF
                +:+ "FAILED CONVERSIONS:" +:+ LF
                +:+ "------------------" +:+ LF
                +:+ "1. b.pdf" +:+ LF
                +:+ "   Error: PDF file not found: in/b.pdf" +:+ LF
                +:+ "   Duration: 1.0s" +:+ LF +:+ LF)).
Proof. vm_compute. repeat split; reflexivity. Qed.

End BatchFacts.

(** ** [cli/file-cleaner.js] *)

(** The directory tree below [baseDir].  A node carries what [fs.stat]
    reports of it, and the message of the error thrown when the operating
    system refuses to delete it (if it does).  [Broken] is an entry whose
    [stat] fails, such as a symbolic link to a missing file.  The entries of
    a directory come in the order [readdir] lists them.

    A refused deletion leaves the node as it was.  This is what [unlink]
    does to a file.  Of a directory it is a simplification: [rmdir] with
    [recursive] may fail after it has removed some of the entries, and the
    directory that is left is then smaller and has a new modification
    time.  The statements that depend on what a refused directory looks
    like afterwards are made for trees in which no directory is refused
    ([CleanerRuns.directoriesDeletable]). *)
Module Disk.

#[local] Set Warnings "-register-all".

Inductive Node :=
| File (mtimeMs size : Z) (deleteError : option string)
| Dir (mtimeMs : Z) (deleteError : option string) (entries : list (string * Node))
| Broken.

(** The fields of [fs.Stats] that the cleaner reads ([size] is read for
    files only). *)
Record Stats := mkStats { isDirectory : bool; mtime : Z; size : Z }.

Definition stat (n : Node) : option Stats :=
  match n with
  | File m s _ => Some (mkStats false m s)
  | Dir m _ _ => Some (mkStats true m 0)
  | Broken => None
  end.

Definition deleteErrorOf (n : Node) : option string :=
  match n with
  | File _ _ e => e
  | Dir _ e _ => e
  | Broken => None
  end.

(** The state of the world for the cleaner: the entries of [baseDir] by
    name, and the reading of the clock ([Date.now()], taken as constant
    during a run). *)
Record World := mkWorld {
  base : gmap string Node;
  now : Z
}.

End Disk.

Module CleanerOptions.
Record t := mk {
  uploadsRetentionDays : option Z;
  outputRetentionDays : option Z;
  tempRetentionHours : option Z;
  logsRetentionDays : option Z;
  dryRun : option bool;
  verbose : option bool;
  baseDir : option string
}.
Definition none : t := mk None None None None None None None.
End CleanerOptions.

(** [this.options] *)
Record Settings := mkSettings {
  uploadsRetentionDays : Z;
  outputRetentionDays : Z;
  tempRetentionHours : Z;
  logsRetentionDays : Z;
  dryRun : bool;
  verbose : bool
}.

(** [this.stats] *)
Record CleanupStats := mkCleanupStats {
  uploadsCleaned : nat;
  outputsCleaned : nat;
  tempsCleaned : nat;
  logsCleaned : nat;
  totalSizeFreed : Z;
  statsErrors : list string
}.

(** An instance of the class [FileCleaner]. *)
Record FileCleaner := mkFileCleaner {
  settings : Settings;
  cleanerBaseDir : string;
  stats : CleanupStats
}.

(** The object [cleanDirectory] returns. *)
Record Cleaned := mkCleaned { count : nat; cleanedSize : Z }.

Module Cleaner.

Import Disk.

(** [new FileCleaner(options)], in a module whose directory is [dirname].
    Each default applies when the option is absent: the object literal
    spreads [...options] after the defaults, so a given value, zero
    included, is kept. *)
Definition constructor (dirname : string) (options : CleanerOptions.t)
  : FileCleaner :=
  mkFileCleaner
    (mkSettings
       (default 1%Z (CleanerOptions.uploadsRetentionDays options))
       (default 7%Z (CleanerOptions.outputRetentionDays options))
       (default 2%Z (CleanerOptions.tempRetentionHours options))
       (default 30%Z (CleanerOptions.logsRetentionDays options))
       (default false (CleanerOptions.dryRun options))
       (default false (CleanerOptions.verbose options)))
    (Js.orElse (CleanerOptions.baseDir options) (Path.join dirname ".."))
    (mkCleanupStats 0 0 0 0 0 []).

(** [getFileStats]: [null] when [stat] throws. *)
Definition getFileStats (n : option Node) : option Stats := n ≫= stat.

(** [getDirectorySize] of the directory at a node: the sizes of the files
    below it.  When [readdir] throws (the path names no directory) the
    total stays zero. *)
Fixpoint getDirectorySize (n : Node) : Z :=
  match n with
  | Dir _ _ entries =>
      (fix total (files : list (string * Node)) : Z :=
         match files with
         | [] => 0
         | (_, child) :: rest =>
             match stat child with
             | Some stats =>
                 (if isDirectory stats then getDirectorySize child else size stats)
                 + total rest
             | None => total rest
             end
         end) entries
  | _ => 0
  end%Z.

(** The loop of [cleanDirectory] over the entries of the directory.  It
    returns the counters, the entries that are left, and the error list.
    An entry whose deletion is refused is left as it was (see [Disk]). *)
Fixpoint cleanLoop (dryRun : bool) (now maxAgeMs : Z)
  (filePattern : option (string -> bool)) (files : list (string * Node))
  (cleaned : Cleaned) (errors : list string)
  : Cleaned * list (string * Node) * list string :=
  match files with
  | [] => (cleaned, [], errors)
  | (file, node) :: rest =>
      let keep cleaned' errors' :=
        let '(c, kept, e) :=
          cleanLoop dryRun now maxAgeMs filePattern rest cleaned' errors' in
        (c, (file, node) :: kept, e) in
      if String.eqb file ".gitkeep" then keep cleaned errors
      else
        match getFileStats (Some node) with
        | None => keep cleaned errors
        | Some stats =>
            if match filePattern with
               | Some test => negb (test file)
               | None => false
               end
            then keep cleaned errors
            else
              let fileAge := (now - mtime stats)%Z in
              if (fileAge >? maxAgeMs)%Z then
                let fileSize :=
                  if isDirectory stats then getDirectorySize node else size stats in
                let counted :=
                  mkCleaned (count cleaned + 1) (cleanedSize cleaned + fileSize) in
                if negb dryRun then
                  match deleteErrorOf node with
                  | Some message =>
                      keep cleaned (errors ++ [file +:+ ": " +:+ message])%list
                  | None =>
                      cleanLoop dryRun now maxAgeMs filePattern rest counted errors
                  end
                else keep counted errors
              else keep cleaned errors
        end
  end.

Definition pushError (this : FileCleaner) (line : string) : FileCleaner :=
  mkFileCleaner (settings this) (cleanerBaseDir this)
    (mkCleanupStats (uploadsCleaned (stats this)) (outputsCleaned (stats this))
       (tempsCleaned (stats this)) (logsCleaned (stats this))
       (totalSizeFreed (stats this)) (statsErrors (stats this) ++ [line])).

Definition setErrors (this : FileCleaner) (errors : list string) : FileCleaner :=
  mkFileCleaner (settings this) (cleanerBaseDir this)
    (mkCleanupStats (uploadsCleaned (stats this)) (outputsCleaned (stats this))
       (tempsCleaned (stats this)) (logsCleaned (stats this))
       (totalSizeFreed (stats this)) errors).

(** [cleanDirectory(path.join(this.baseDir, name), maxAgeMs, filePattern)]
    for a directory directly below [baseDir]. *)
Definition cleanDirectory (name : string) (maxAgeMs : Z)
  (filePattern : option (string -> bool)) (this : FileCleaner) (w : World)
  : Cleaned * FileCleaner * World :=
  let dirPath := Path.join (cleanerBaseDir this) name in
  match base w !! name with
  | None | Some Broken => (mkCleaned 0 0, this, w)
  | Some (File _ _ _) =>
      (mkCleaned 0 0,
       pushError this
         (dirPath +:+ ": " +:+ "ENOTDIR: not a directory, scandir '" +:+ dirPath
            +:+ "'"),
       w)
  | Some (Dir m e files) =>
      let '(cleaned, kept, errors) :=
        cleanLoop (dryRun (settings this)) (now w) maxAgeMs filePattern files
          (mkCleaned 0 0) (statsErrors (stats this)) in
      (cleaned, setErrors this errors,
       mkWorld (<[name := Dir m e kept]> (base w)) (now w))
  end.

Definition withStats (this : FileCleaner) (s : CleanupStats) : FileCleaner :=
  mkFileCleaner (settings this) (cleanerBaseDir this) s.

Definition cleanUploads (this : FileCleaner) (w : World)
  : Cleaned * FileCleaner * World :=
  let maxAge := (uploadsRetentionDays (settings this) * 24 * 60 * 60 * 1000)%Z in
  let '(result, this, w) := cleanDirectory "uploads" maxAge None this w in
  let s := stats this in
  (result,
   withStats this
     (mkCleanupStats (count result) (outputsCleaned s) (tempsCleaned s)
        (logsCleaned s) (totalSizeFreed s + cleanedSize result) (statsErrors s)),
   w).

Definition cleanOutputs (this : FileCleaner) (w : World)
  : Cleaned * FileCleaner * World :=
  let maxAge := (outputRetentionDays (settings this) * 24 * 60 * 60 * 1000)%Z in
  let '(result, this, w) := cleanDirectory "output" maxAge None this w in
  let s := stats this in
  (result,
   withStats this
     (mkCleanupStats (uploadsCleaned s) (count result) (tempsCleaned s)
        (logsCleaned s) (totalSizeFreed s + cleanedSize result) (statsErrors s)),
   w).

Definition cleanTemp (this : FileCleaner) (w : World)
  : Cleaned * FileCleaner * World :=
  let maxAge := (tempRetentionHours (settings this) * 60 * 60 * 1000)%Z in
  let '(result, this, w) := cleanDirectory "temp" maxAge None this w in
  let s := stats this in
  (result,
   withStats this
     (mkCleanupStats (uploadsCleaned s) (outputsCleaned s) (count result)
        (logsCleaned s) (totalSizeFreed s + cleanedSize result) (statsErrors s)),
   w).

(** [/\.log$/.test(file)] *)
Definition logPattern (file : string) : bool := Js.endsWith file ".log".

Definition cleanLogs (this : FileCleaner) (w : World)
  : Cleaned * FileCleaner * World :=
  let maxAge := (logsRetentionDays (settings this) * 24 * 60 * 60 * 1000)%Z in
  let '(result, this, w) := cleanDirectory "logs" maxAge (Some logPattern) this w in
  let s := stats this in
  (result,
   withStats this
     (mkCleanupStats (uploadsCleaned s) (outputsCleaned s) (tempsCleaned s)
        (count result) (totalSizeFreed s + cleanedSize result) (statsErrors s)),
   w).

(** [runCleanup].  The four areas are different directories and each call
    adds to [this.stats] only when its own directory is done, so the
    [Promise.all] of the four calls is taken as the four calls in a row;
    only the order of the lines in [errors] depends on it.  None of the
    four calls throws, and the value returned is [this.stats] itself: what
    the caller holds is the statistics of the instance. *)
Definition runCleanup (this : FileCleaner) (w : World)
  : CleanupStats * FileCleaner * World :=
  let '(_, this, w) := cleanUploads this w in
  let '(_, this, w) := cleanOutputs this w in
  let '(_, this, w) := cleanTemp this w in
  let '(_, this, w) := cleanLogs this w in
  (stats this, this, w).

(** An entry of the object [getDiskUsage] returns. *)
Record Usage := mkUsage { usageSize : Z; usageExists : bool }.

Definition existsSync (w : World) (name : string) : bool :=
  match base w !! name with
  | Some (File _ _ _) | Some (Dir _ _ _) => true
  | _ => false
  end.

Definition getDiskUsage (w : World) : list (string * Usage) :=
  map (fun dir =>
         (dir,
          mkUsage (from_option getDirectorySize 0%Z (base w !! dir))
            (existsSync w dir)))
    ["uploads"; "output"; "temp"; "logs"].

End Cleaner.

(** * Facts about the cleaner *)

Module CleanerFacts.
Import Disk Cleaner.
#[local] Open Scope list_scope.

Definition matches (filePattern : option (string -> bool)) (file : string) : bool :=
  match filePattern with
  | Some test => test file
  | None => true
  end.

(** The age of the node exceeds [maxAgeMs] (false when it has no stats). *)
Definition tooOld (now maxAgeMs : Z) (n : Node) : bool :=
  match stat n with
  | Some stats => (now - mtime stats >? maxAgeMs)%Z
  | None => false
  end.

(** The conditions under which [cleanDirectory] wants an entry gone. *)
Definition eligible (now maxAgeMs : Z) (filePattern : option (string -> bool))
  (entry : string * Node) : bool :=
  negb (String.eqb entry.1 ".gitkeep")
  && matches filePattern entry.1
  && tooOld now maxAgeMs entry.2.

(** The delete call, if made, succeeds. *)
Definition deletable (n : Node) : bool :=
  match deleteErrorOf n with
  | Some _ => false
  | None => true
  end.

(** The entries [cleanDirectory] counts. *)
Definition counted (dryRun : bool) (now maxAgeMs : Z)
  (filePattern : option (string -> bool)) (entry : string * Node) : bool :=
  eligible now maxAgeMs filePattern entry && (dryRun || deletable entry.2).

Definition entrySize (n : Node) : Z :=
  match stat n with
  | Some stats => if isDirectory stats then getDirectorySize n else size stats
  | None => 0
  end.

Definition sizeOf (entries : list (string * Node)) : Z :=
  foldr (fun entry total => (entrySize entry.2 + total)%Z) 0%Z entries.

(** The error line of an entry whose deletion is refused. *)
Definition deletionError (dryRun : bool) (now maxAgeMs : Z)
  (filePattern : option (string -> bool)) (entry : string * Node)
  : option string :=
  if eligible now maxAgeMs filePattern entry && negb dryRun
  then (fun message => entry.1 +:+ ": " +:+ message) <$> deleteErrorOf entry.2
  else None.

Definition keepEntry (entry : string * Node)
  (r : Cleaned * list (string * Node) * list string)
  : Cleaned * list (string * Node) * list string :=
  let '(c, kept, e) := r in (c, entry :: kept, e).

Lemma cleanLoop_cons dryRun now maxAgeMs filePattern file node rest cleaned errors :
  cleanLoop dryRun now maxAgeMs filePattern ((file, node) :: rest) cleaned errors
  = if eligible now maxAgeMs filePattern (file, node) then
      let counted' :=
        mkCleaned (count cleaned + 1) (cleanedSize cleaned + entrySize node) in
      if dryRun then
        keepEntry (file, node)
          (cleanLoop dryRun now maxAgeMs filePattern rest counted' errors)
      else
        match deleteErrorOf node with
        | Some message =>
            keepEntry (file, node)
              (cleanLoop dryRun now maxAgeMs filePattern rest cleaned
                 (errors ++ [file +:+ ": " +:+ message]))
        | None => cleanLoop dryRun now maxAgeMs filePattern rest counted' errors
        end
    else
      keepEntry (file, node)
        (cleanLoop dryRun now maxAgeMs filePattern rest cleaned errors).
Proof.
  cbn [cleanLoop]. unfold eligible, matches, tooOld, entrySize, getFileStats, keepEntry.
  cbn [fst snd mbind option_bind].
  destruct (String.eqb file ".gitkeep"); cbn [negb andb]; [reflexivity|].
  destruct (stat node) as [stats|]; [|by rewrite andb_false_r].
  destruct filePattern as [test|]; [destruct (test file)|]; cbn [negb andb];
    try reflexivity;
    destruct (now - mtime stats >? maxAgeMs)%Z; cbn [andb]; try reflexivity;
    destruct dryRun; reflexivity.
Qed.

Lemma sizeOf_cons entry entries :
  sizeOf (entry :: entries) = (entrySize entry.2 + sizeOf entries)%Z.
Proof. reflexivity. Qed.

Lemma counted_head dryRun now maxAgeMs filePattern file node :
  counted dryRun now maxAgeMs filePattern (file, node)
  = eligible now maxAgeMs filePattern (file, node) && (dryRun || deletable node).
Proof. reflexivity. Qed.

Lemma deletionError_head dryRun now maxAgeMs filePattern file node :
  deletionError dryRun now maxAgeMs filePattern (file, node)
  = if eligible now maxAgeMs filePattern (file, node) && negb dryRun
    then (fun message => file +:+ ": " +:+ message) <$> deleteErrorOf node
    else None.
Proof. reflexivity. Qed.

Lemma cleanLoop_spec dryRun now maxAgeMs filePattern files :
  forall cleaned errors,
    cleanLoop dryRun now maxAgeMs filePattern files cleaned errors
    = (mkCleaned
         (count cleaned
          + length (List.filter (counted dryRun now maxAgeMs filePattern) files))
         (cleanedSize cleaned
          + sizeOf (List.filter (counted dryRun now maxAgeMs filePattern) files)),
       if dryRun then files
       else List.filter
              (fun entry => negb (counted dryRun now maxAgeMs filePattern entry))
              files,
       errors ++ omap (deletionError dryRun now maxAgeMs filePattern) files).
Proof.
  induction files as [|[file node] rest IH]; intros cleaned errors.
  - cbn. destruct cleaned, dryRun; cbn;
      rewrite ?Nat.add_0_r, ?Z.add_0_r, ?app_nil_r; done.
  - rewrite cleanLoop_cons. cbn [List.filter omap list_omap].
    rewrite !counted_head, deletionError_head. unfold deletable.
    destruct (eligible now maxAgeMs filePattern (file, node)); cbn [andb negb].
    2:{ rewrite IH. unfold keepEntry. destruct dryRun; reflexivity. }
    destruct dryRun; cbn [negb orb andb].
    + rewrite IH. unfold keepEntry. cbn [count cleanedSize length]. rewrite sizeOf_cons. cbn [snd].
      f_equal. f_equal. f_equal; lia.
    + destruct (deleteErrorOf node) as [message|];
        cbn [fmap option_fmap option_map negb].
      * rewrite IH. unfold keepEntry. rewrite <- app_assoc. reflexivity.
      * rewrite IH. cbn [count cleanedSize length]. rewrite sizeOf_cons. cbn [snd].
        f_equal. f_equal. f_equal; lia.
Qed.

(** What [cleanDirectory] finds in the world, does to it, and the error
    lines it adds, apart from the instance. *)
Definition sweep (dryRun : bool) (baseDir name : string) (maxAgeMs : Z)
  (filePattern : option (string -> bool)) (w : World)
  : Cleaned * list string * World :=
  match base w !! name with
  | None | Some Broken => (mkCleaned 0 0, [], w)
  | Some (File _ _ _) =>
      (mkCleaned 0 0,
       [Path.join baseDir name +:+ ": " +:+ "ENOTDIR: not a directory, scandir '"
          +:+ Path.join baseDir name +:+ "'"],
       w)
  | Some (Dir m e files) =>
      (mkCleaned
         (length (List.filter (counted dryRun (now w) maxAgeMs filePattern) files))
         (sizeOf (List.filter (counted dryRun (now w) maxAgeMs filePattern) files)),
       omap (deletionError dryRun (now w) maxAgeMs filePattern) files,
       mkWorld
         (<[name := Dir m e
                      (if dryRun then files
                       else List.filter
                              (fun entry =>
                                 negb (counted dryRun (now w) maxAgeMs filePattern entry))
                              files)]> (base w))
         (now w))
  end.

Definition addErrors (this : FileCleaner) (lines : list string) : FileCleaner :=
  setErrors this (statsErrors (stats this) ++ lines).

Lemma addErrors_nil this : addErrors this [] = this.
Proof.
  destruct this as [s b [u o t l z e]]. unfold addErrors, setErrors. cbn.
  by rewrite app_nil_r.
Qed.

Lemma cleanDirectory_sweep name maxAgeMs filePattern this w :
  cleanDirectory name maxAgeMs filePattern this w
  = let '(c, lines, w') :=
      sweep (dryRun (settings this)) (cleanerBaseDir this) name maxAgeMs
        filePattern w in
    (c, addErrors this lines, w').
Proof.
  unfold cleanDirectory, sweep.
  destruct (base w !! name) as [[m s e|m e files|]|]; cbn;
    rewrite ?addErrors_nil; try reflexivity.
  rewrite cleanLoop_spec. cbn. reflexivity.
Qed.

Lemma sweep_dry_world baseDir name maxAgeMs filePattern w :
  (sweep true baseDir name maxAgeMs filePattern w).2 = w.
Proof.
  unfold sweep. destruct (base w !! name) as [[m s e|m e files|]|] eqn:E;
    cbn; try reflexivity.
  rewrite insert_id by done. by destruct w.
Qed.

(** The four storage areas. *)
Inductive Area := Uploads | Outputs | Temp | Logs.

Definition areaName (a : Area) : string :=
  match a with
  | Uploads => "uploads"
  | Outputs => "output"
  | Temp => "temp"
  | Logs => "logs"
  end.

Definition cleanArea (a : Area) : FileCleaner -> World -> Cleaned * FileCleaner * World :=
  match a with
  | Uploads => cleanUploads
  | Outputs => cleanOutputs
  | Temp => cleanTemp
  | Logs => cleanLogs
  end.

(** The age limit of an area, in milliseconds. *)
Definition threshold (s : Settings) (a : Area) : Z :=
  match a with
  | Uploads => uploadsRetentionDays s * 24 * 60 * 60 * 1000
  | Outputs => outputRetentionDays s * 24 * 60 * 60 * 1000
  | Temp => tempRetentionHours s * 60 * 60 * 1000
  | Logs => logsRetentionDays s * 24 * 60 * 60 * 1000
  end%Z.

Definition areaPattern (a : Area) : option (string -> bool) :=
  match a with
  | Logs => Some logPattern
  | _ => None
  end.

(** [this.stats] after an area reported [n] entries and [bytes] bytes. *)
Definition record (a : Area) (n : nat) (bytes : Z) (s : CleanupStats) : CleanupStats :=
  mkCleanupStats
    (match a with Uploads => n | _ => uploadsCleaned s end)
    (match a with Outputs => n | _ => outputsCleaned s end)
    (match a with Temp => n | _ => tempsCleaned s end)
    (match a with Logs => n | _ => logsCleaned s end)
    (totalSizeFreed s + bytes)
    (statsErrors s).

Lemma cleanArea_sweep a this w :
  cleanArea a this w
  = let '(c, lines, w') :=
      sweep (dryRun (settings this)) (cleanerBaseDir this) (areaName a)
        (threshold (settings this) a) (areaPattern a) w in
    (c,
     withStats this (record a (count c) (cleanedSize c) (stats (addErrors this lines))),
     w').
Proof.
  destruct a; cbn [cleanArea areaName threshold areaPattern];
    unfold cleanUploads, cleanOutputs, cleanTemp, cleanLogs;
    rewrite cleanDirectory_sweep;
    destruct (sweep _ _ _ _ _ _) as [[c lines] w']; reflexivity.
Qed.

(** The statistics of one run alone (a run that starts from zero), and the
    world it leaves. *)
Definition zeroStats : CleanupStats := mkCleanupStats 0 0 0 0 0 [].

Definition tally (s : Settings) (baseDir : string) (w : World) : CleanupStats * World :=
  let '(c1, l1, w) :=
    sweep (dryRun s) baseDir "uploads" (threshold s Uploads) None w in
  let '(c2, l2, w) :=
    sweep (dryRun s) baseDir "output" (threshold s Outputs) None w in
  let '(c3, l3, w) :=
    sweep (dryRun s) baseDir "temp" (threshold s Temp) None w in
  let '(c4, l4, w) :=
    sweep (dryRun s) baseDir "logs" (threshold s Logs) (Some logPattern) w in
  (mkCleanupStats (count c1) (count c2) (count c3) (count c4)
     (cleanedSize c1 + cleanedSize c2 + cleanedSize c3 + cleanedSize c4)
     (l1 ++ l2 ++ l3 ++ l4),
   w).

(** [this.stats] after a run that found [t]: the counts are replaced, the
    bytes and the error lines are added. *)
Definition accumulate (s t : CleanupStats) : CleanupStats :=
  mkCleanupStats (uploadsCleaned t) (outputsCleaned t) (tempsCleaned t)
    (logsCleaned t) (totalSizeFreed s + totalSizeFreed t)
    (statsErrors s ++ statsErrors t).

Lemma runCleanup_tally this w :
  runCleanup this w
  = let '(t, w') := tally (settings this) (cleanerBaseDir this) w in
    (accumulate (stats this) t, withStats this (accumulate (stats this) t), w').
Proof.
  destruct this as [s b [u o t l z e]].
  unfold runCleanup, tally. cbn [settings cleanerBaseDir stats threshold].
  unfold cleanUploads. rewrite cleanDirectory_sweep.
  cbn [settings cleanerBaseDir].
  destruct (sweep _ _ "uploads" _ _ _) as [[c1 l1] w1].
  cbn [addErrors setErrors withStats stats settings cleanerBaseDir
       uploadsCleaned outputsCleaned tempsCleaned logsCleaned totalSizeFreed
       statsErrors].
  unfold cleanOutputs. rewrite cleanDirectory_sweep.
  cbn [settings cleanerBaseDir].
  destruct (sweep _ _ "output" _ _ _) as [[c2 l2] w2].
  cbn [addErrors setErrors withStats stats settings cleanerBaseDir
       uploadsCleaned outputsCleaned tempsCleaned logsCleaned totalSizeFreed
       statsErrors].
  unfold cleanTemp. rewrite cleanDirectory_sweep.
  cbn [settings cleanerBaseDir].
  destruct (sweep _ _ "temp" _ _ _) as [[c3 l3] w3].
  cbn [addErrors setErrors withStats stats settings cleanerBaseDir
       uploadsCleaned outputsCleaned tempsCleaned logsCleaned totalSizeFreed
       statsErrors].
  unfold cleanLogs. rewrite cleanDirectory_sweep.
  cbn [settings cleanerBaseDir].
  destruct (sweep _ _ "logs" _ _ _) as [[c4 l4] w4].
  cbn [addErrors setErrors withStats stats settings cleanerBaseDir
       uploadsCleaned outputsCleaned tempsCleaned logsCleaned totalSizeFreed
       statsErrors accumulate].
  rewrite <- !app_assoc.
  replace (z + cleanedSize c1 + cleanedSize c2 + cleanedSize c3 + cleanedSize c4)%Z
    with (z + (cleanedSize c1 + cleanedSize c2 + cleanedSize c3 + cleanedSize c4))%Z
    by lia.
  reflexivity.
Qed.

Lemma tally_dry_world s baseDir w :
  dryRun s = true -> (tally s baseDir w).2 = w.
Proof.
  intros Hd. unfold tally. rewrite Hd.
  pose proof (sweep_dry_world baseDir "uploads" (threshold s Uploads) None w) as H1.
  destruct (sweep true baseDir "uploads" _ _ w) as [[c1 l1] w1]. cbn in H1. subst w1.
  pose proof (sweep_dry_world baseDir "output" (threshold s Outputs) None w) as H2.
  destruct (sweep true baseDir "output" _ _ w) as [[c2 l2] w2]. cbn in H2. subst w2.
  pose proof (sweep_dry_world baseDir "temp" (threshold s Temp) None w) as H3.
  destruct (sweep true baseDir "temp" _ _ w) as [[c3 l3] w3]. cbn in H3. subst w3.
  pose proof (sweep_dry_world baseDir "logs" (threshold s Logs) (Some logPattern) w) as H4.
  destruct (sweep true baseDir "logs" _ _ w) as [[c4 l4] w4]. cbn in H4. subst w4.
  reflexivity.
Qed.

Lemma counted_iff dryRun now maxAgeMs filePattern entry :
  counted dryRun now maxAgeMs filePattern entry = true
  <-> entry.1 <> ".gitkeep"
      /\ matches filePattern entry.1 = true
      /\ (exists stats,
            stat entry.2 = Some stats /\ (now - mtime stats > maxAgeMs)%Z)
      /\ (dryRun = true \/ deleteErrorOf entry.2 = None).
Proof.
  unfold counted, eligible, tooOld, deletable.
  rewrite !andb_true_iff, orb_true_iff, negb_true_iff, String.eqb_neq.
  split.
  - intros [[[H1 H2] H3] H4]. repeat split; try done.
    + destruct (stat entry.2) as [stats|]; [|done].
      exists stats. split; [done|]. by apply Z.gtb_gt.
    + destruct H4 as [H4|H4]; [by left|right].
      destruct (deleteErrorOf entry.2); done.
  - intros (H1 & H2 & (stats & Hs & Hage) & H4). repeat split; try done.
    + rewrite Hs. by apply Z.gtb_gt.
    + destruct H4 as [H4|H4]; [by left|right]. by rewrite H4.
Qed.

(** C5, with the condition the code adds.  In an area whose directory can
    be listed, [cleanDirectory] (through [cleanUploads], [cleanOutputs],
    [cleanTemp] or [cleanLogs]) counts exactly the wanted entries, adds
    their sizes, and in a real run leaves exactly the others in the
    directory; the lines it adds to [errors] are those of the refused
    deletions.  An entry is wanted if and only if its name is not
    [.gitkeep], it ends in [.log] when the area is the logs, its stats
    can be read and its age strictly exceeds the threshold of the area,
    and, in a real run, its deletion does not throw.  The threshold is
    the retention in days times 86400000 ms for uploads, outputs and
    logs, and in hours times 3600000 ms for temp. *)
Theorem cleanArea_counts_and_deletes
  (a : Area) (this : FileCleaner) (w : World)
  (m : Z) (e : option string) (files : list (string * Node)) :
  base w !! areaName a = Some (Dir m e files) ->
  let wanted :=
    counted (dryRun (settings this)) (now w) (threshold (settings this) a)
      (areaPattern a) in
  let o := cleanArea a this w in
  count o.1.1 = length (List.filter wanted files)
  /\ cleanedSize o.1.1 = sizeOf (List.filter wanted files)
  /\ base o.2 !! areaName a
     = Some (Dir m e
               (if dryRun (settings this) then files
                else List.filter (fun entry => negb (wanted entry)) files))
  /\ statsErrors (stats o.1.2)
     = statsErrors (stats this)
       ++ omap (deletionError (dryRun (settings this)) (now w)
                  (threshold (settings this) a) (areaPattern a)) files
  /\ (forall entry,
        wanted entry = true
        <-> entry.1 <> ".gitkeep"
            /\ (a = Logs -> Js.endsWith entry.1 ".log" = true)
            /\ (exists stats,
                  stat entry.2 = Some stats
                  /\ (now w - mtime stats > threshold (settings this) a)%Z)
            /\ (dryRun (settings this) = true \/ deleteErrorOf entry.2 = None))
  /\ threshold (settings this) a
     = match a with
       | Uploads => uploadsRetentionDays (settings this) * 86400000
       | Outputs => outputRetentionDays (settings this) * 86400000
       | Temp => tempRetentionHours (settings this) * 3600000
       | Logs => logsRetentionDays (settings this) * 86400000
       end%Z.
Proof.
  intros Hdir wanted o. subst o. rewrite cleanArea_sweep.
  unfold sweep. rewrite Hdir. cbn [fst snd base]. fold wanted.
  split; [reflexivity|]. split; [reflexivity|].
  split; [apply lookup_insert_eq|].
  split; [by destruct this as [s b [u o t l z errs]], a|].
  split.
  - intros entry. unfold wanted. rewrite counted_iff. split.
    + intros (H1 & H2 & H3 & H4). repeat split; try done. intros ->. exact H2.
    + intros (H1 & H2 & H3 & H4). repeat split; try done.
      destruct a; try reflexivity. by apply H2.
  - destruct a; cbn [threshold]; lia.
Qed.

Definition day : Z := 86400000.

(** An uploads folder with an old upload that cannot be deleted. *)
Definition lockedWorld : World :=
  mkWorld
    {[ "uploads" :=
         Dir 0 None
           [(".gitkeep", File 0 0 None);
            ("old.pdf", File 0 10 (Some "EPERM: operation not permitted, unlink"));
            ("new.pdf", File (10 * day) 20 None)] ]}
    (10 * day).

(** An uploads folder with an old and a recent upload. *)
Definition plainWorld : World :=
  mkWorld
    {[ "uploads" :=
         Dir 0 None
           [(".gitkeep", File 0 0 None);
            ("old.pdf", File 0 10 None);
            ("new.pdf", File (10 * day) 20 None)] ]}
    (10 * day).

Definition appCleaner : FileCleaner := constructor "/app/cli" CleanerOptions.none.

(** The default cleaner over an uploads folder with one old and one recent
    upload. *)
Lemma cleanArea_counts_and_deletes_witness :
  count (cleanArea Uploads appCleaner plainWorld).1.1
  = length
      (List.filter
         (counted (dryRun (settings appCleaner)) (now plainWorld)
            (threshold (settings appCleaner) Uploads) (areaPattern Uploads))
         [(".gitkeep", File 0 0 None); ("old.pdf", File 0 10 None);
          ("new.pdf", File (10 * day) 20 None)]).
Proof.
  refine (proj1 (cleanArea_counts_and_deletes Uploads appCleaner plainWorld 0 None
                   _ _)).
  vm_compute. reflexivity.
Defined.

(** C5 as the specification states it: an entry is counted exactly when it
    is not the placeholder, matches the pattern of its area and is older
    than the threshold. *)
Definition CountsEveryOldEntry : Prop :=
  forall a this w m e files,
    base w !! areaName a = Some (Dir m e files) ->
    count (cleanArea a this w).1.1
    = length
        (List.filter
           (eligible (now w) (threshold (settings this) a) (areaPattern a))
           files).

(** An upload ten days old, not the placeholder, in an area without a
    pattern, whose deletion is refused: the real run counts nothing,
    leaves the folder as it was and records the refusal. *)
Lemma locked_old_upload_is_not_counted :
  let o := cleanArea Uploads appCleaner lockedWorld in
  eligible (now lockedWorld) (threshold (settings appCleaner) Uploads)
    (areaPattern Uploads)
    ("old.pdf", File 0 10 (Some "EPERM: operation not permitted, unlink"))
  = true
  /\ count o.1.1 = 0%nat
  /\ base o.2 = base lockedWorld
  /\ statsErrors (stats o.1.2)
     = ["old.pdf: EPERM: operation not permitted, unlink"]
  /\ ~ CountsEveryOldEntry.
Proof.
  assert (H : count (cleanArea Uploads appCleaner lockedWorld).1.1 = 0%nat)
    by (vm_compute; reflexivity).
  split; [vm_compute; reflexivity|]. split; [exact H|].
  split; [vm_compute; reflexivity|]. split; [vm_compute; reflexivity|].
  intros G.
  specialize (G Uploads appCleaner lockedWorld 0%Z None _ eq_refl).
  rewrite H in G. vm_compute in G. discriminate.
Qed.

(** The instance with its statistics as the constructor sets them. *)
Definition fresh (this : FileCleaner) : FileCleaner := withStats this zeroStats.

(** C10.  Two [runCleanup] calls in a row on one instance: the bytes and
    the error lines the second call returns are those the instance started
    with plus those of each run alone (a run alone is the same run from
    the statistics the constructor sets), the four counts are those of
    the second run alone, and what is returned is the statistics of the
    instance.  So from a fresh instance whose first run reported bytes,
    the second call returns the sum over both runs and not the bytes of
    the second run. *)
Theorem runCleanup_accumulates (this : FileCleaner) (w : World) :
  let first := runCleanup this w in
  let second := runCleanup first.1.2 first.2 in
  let alone1 := (runCleanup (fresh this) w).1.1 in
  let alone2 := (runCleanup (fresh first.1.2) first.2).1.1 in
  totalSizeFreed first.1.1
  = (totalSizeFreed (stats this) + totalSizeFreed alone1)%Z
  /\ totalSizeFreed second.1.1
     = (totalSizeFreed (stats this) + totalSizeFreed alone1
        + totalSizeFreed alone2)%Z
  /\ statsErrors second.1.1
     = statsErrors (stats this) ++ statsErrors alone1 ++ statsErrors alone2
  /\ uploadsCleaned second.1.1 = uploadsCleaned alone2
  /\ outputsCleaned second.1.1 = outputsCleaned alone2
  /\ tempsCleaned second.1.1 = tempsCleaned alone2
  /\ logsCleaned second.1.1 = logsCleaned alone2
  /\ stats second.1.2 = second.1.1
  /\ (forall dirname options, stats (constructor dirname options) = zeroStats)
  /\ (stats this = zeroStats ->
      totalSizeFreed alone1 <> 0%Z ->
      totalSizeFreed second.1.1 <> totalSizeFreed alone2).
Proof.
  cbv zeta. unfold fresh. rewrite !runCleanup_tally.
  cbn [settings cleanerBaseDir withStats stats].
  destruct (tally (settings this) (cleanerBaseDir this) w) as [t1 w1].
  cbn [fst snd settings cleanerBaseDir withStats stats].
  destruct (tally (settings this) (cleanerBaseDir this) w1) as [t2 w2].
  cbn [fst snd accumulate totalSizeFreed statsErrors uploadsCleaned
       outputsCleaned tempsCleaned logsCleaned zeroStats stats withStats].
  rewrite <- !app_assoc.
  repeat split; try reflexivity; try lia.
  intros Hz Hne. rewrite Hz. cbn. lia.
Qed.

(** C6, for the statistics each run starts from.  With [dryRun] set, a
    [runCleanup] leaves the tree as it was.  A second dry run by a new
    cleaner with the same options returns the same [CleanupStats] as the
    first; a second dry run by the same cleaner returns the same four
    counts, but twice the bytes and the error lines twice. *)
Theorem dry_run_deletes_nothing
  (dirname : string) (options : CleanerOptions.t) (w : World) :
  CleanerOptions.dryRun options = Some true ->
  let first := runCleanup (constructor dirname options) w in
  let again := runCleanup first.1.2 first.2 in
  first.2 = w
  /\ (runCleanup (constructor dirname options) first.2).1.1 = first.1.1
  /\ again.2 = w
  /\ uploadsCleaned again.1.1 = uploadsCleaned first.1.1
  /\ outputsCleaned again.1.1 = outputsCleaned first.1.1
  /\ tempsCleaned again.1.1 = tempsCleaned first.1.1
  /\ logsCleaned again.1.1 = logsCleaned first.1.1
  /\ totalSizeFreed again.1.1 = (2 * totalSizeFreed first.1.1)%Z
  /\ statsErrors again.1.1 = statsErrors first.1.1 ++ statsErrors first.1.1.
Proof.
  intros Hdry. cbv zeta.
  set (this := constructor dirname options).
  assert (Hd : dryRun (settings this) = true).
  { unfold this, constructor. cbn. by rewrite Hdry. }
  assert (Hs : stats this = zeroStats) by reflexivity.
  pose proof (tally_dry_world (settings this) (cleanerBaseDir this) w Hd) as Hw.
  destruct (tally (settings this) (cleanerBaseDir this) w) as [t1 w1] eqn:E.
  cbn in Hw. subst w1.
  rewrite (runCleanup_tally this w), E. cbn [fst snd].
  rewrite ?runCleanup_tally. cbn [settings cleanerBaseDir withStats stats].
  rewrite !E, Hs.
  cbn [fst snd accumulate totalSizeFreed statsErrors uploadsCleaned
       outputsCleaned tempsCleaned logsCleaned zeroStats].
  repeat split; try reflexivity; lia.
Qed.

Definition dryOptions : CleanerOptions.t :=
  CleanerOptions.mk None None None None (Some true) None None.

(** A dry run over the uploads folder with one old upload. *)
Lemma dry_run_deletes_nothing_witness :
  (runCleanup (constructor "/app/cli" dryOptions) plainWorld).2 = plainWorld.
Proof.
  refine (proj1 (dry_run_deletes_nothing "/app/cli" dryOptions plainWorld _)).
  vm_compute. reflexivity.
Defined.

(** C6 as the specification states it, for one cleaner used twice. *)
Definition DryRunStatsRepeat : Prop :=
  forall this w,
    dryRun (settings this) = true ->
    (runCleanup (runCleanup this w).1.2 (runCleanup this w).2).1.1
    = (runCleanup this w).1.1.

(** One cleaner, two dry runs in a row over the same tree: 10 bytes, then
    20. *)
Lemma second_dry_run_reports_twice_the_bytes :
  let this := constructor "/app/cli" dryOptions in
  let first := runCleanup this plainWorld in
  let again := runCleanup first.1.2 first.2 in
  dryRun (settings this) = true
  /\ first.1.1 = mkCleanupStats 1 0 0 0 10 []
  /\ again.1.1 = mkCleanupStats 1 0 0 0 20 []
  /\ ~ DryRunStatsRepeat.
Proof.
  assert (H1 : (runCleanup (constructor "/app/cli" dryOptions) plainWorld).1.1
               = mkCleanupStats 1 0 0 0 10 []) by (vm_compute; reflexivity).
  assert (H2 : (runCleanup
                  (runCleanup (constructor "/app/cli" dryOptions) plainWorld).1.2
                  (runCleanup (constructor "/app/cli" dryOptions) plainWorld).2).1.1
               = mkCleanupStats 1 0 0 0 20 []) by (vm_compute; reflexivity).
  split; [reflexivity|]. split; [exact H1|]. split; [exact H2|].
  intros G.
  specialize (G (constructor "/app/cli" dryOptions) plainWorld eq_refl).
  rewrite H1, H2 in G. discriminate.
Qed.

End CleanerFacts.

(** * More of the code *)

(** ** Strings: reversal, prefixes and suffixes *)

Module StringFacts.

#[local] Open Scope list_scope.

Lemma rev_app_append (s t : string) : String.rev_app s t = String.rev s +:+ t.
Proof.
  revert t. induction s as [|a s IH]; intros t; [done|].
  unfold String.rev. cbn [String.rev_app]. rewrite (IH (String a t)), (IH (String a "")).
  by rewrite <- Js.app_assoc.
Qed.

Lemma rev_cons (a : ascii) (s : string) :
  String.rev (String a s) = String.rev s +:+ String a "".
Proof. unfold String.rev at 1. cbn [String.rev_app]. apply rev_app_append. Qed.

Lemma rev_append (s t : string) :
  String.rev (s +:+ t) = String.rev t +:+ String.rev s.
Proof.
  induction s as [|a s IH].
  - cbn. by rewrite Js.app_empty_r.
  - change (String a s +:+ t) with (String a (s +:+ t)).
    by rewrite !rev_cons, IH, Js.app_assoc.
Qed.

Lemma rev_involutive (s : string) : String.rev (String.rev s) = s.
Proof.
  induction s as [|a s IH]; [done|].
  by rewrite rev_cons, rev_append, IH.
Qed.

Lemma prefix_split (p s : string) :
  String.prefix p s = true -> exists r, s = p +:+ r.
Proof.
  revert s. induction p as [|a p IH]; intros s H.
  - by exists s.
  - destruct s as [|b s]; [done|]. cbn in H.
    destruct (ascii_dec a b) as [->|]; [|done].
    destruct (IH s H) as [r ->]. by exists r.
Qed.

Lemma endsWith_split (s suffix : string) :
  Js.endsWith s suffix = true -> exists r, s = r +:+ suffix.
Proof.
  intros H. apply prefix_split in H as [r Hr]. exists (String.rev r).
  by rewrite <- (rev_involutive s), Hr, rev_append, rev_involutive.
Qed.

Lemma length_append (s t : string) :
  String.length (s +:+ t) = (String.length s + String.length t)%nat.
Proof. induction s as [|a s IH]; [done|]. cbn. by rewrite <- IH. Qed.

Lemma substring_append (s t : string) :
  String.substring 0 (String.length s) (s +:+ t) = s.
Proof.
  induction s as [|a s IH]; [by destruct t|].
  change (String a s +:+ t) with (String a (s +:+ t)). cbn. by rewrite IH.
Qed.

Lemma append_inj_r (s t u : string) : s +:+ u = t +:+ u -> s = t.
Proof.
  intros H. apply (f_equal String.rev) in H. rewrite !rev_append in H.
  apply String.app_inj in H.
  by rewrite <- (rev_involutive s), H, rev_involutive.
Qed.

(** ** Names without a separator *)

Fixpoint slashFree (s : string) : Prop :=
  match s with
  | "" => True
  | String c s' => c <> "/"%char /\ slashFree s'
  end.

Lemma slashFree_append s t : slashFree (s +:+ t) <-> slashFree s /\ slashFree t.
Proof.
  induction s as [|a s IH]; [cbn; tauto|].
  change (String a s +:+ t) with (String a (s +:+ t)). cbn. tauto.
Qed.

Lemma slashFree_rev s : slashFree s -> slashFree (String.rev s).
Proof.
  induction s as [|a s IH]; [done|]. intros [Ha Hs].
  rewrite rev_cons. apply slashFree_append. cbn. auto.
Qed.

Lemma index_slashFree s : String.index 0 "/" s = None -> slashFree s.
Proof.
  intros H.
  assert (forall m, String.substring m 1 s <> "/") as Hsub.
  { intros m. apply (String.index_correct3 0 m "/" s H); [done|lia]. }
  clear H. induction s as [|a s IH]; [done|]. split.
  - intros ->. apply (Hsub 0%nat). by destruct s.
  - apply IH. intros m. apply (Hsub (S m)).
Qed.

Lemma lastPortion_slashFree s : slashFree s -> Path.lastPortion s = s.
Proof.
  intros H. apply slashFree_rev in H. unfold Path.lastPortion.
  rewrite <- (rev_involutive s) at 2. f_equal.
  destruct (String.rev s) as [|a r]; [done|].
  assert (Path.dropTrailingSlashesRev (String a r) = String a r) as ->.
  { destruct H as [Ha _]. cbn.
    destruct a as [[] [] [] [] [] [] [] []]; try reflexivity. done. }
  revert H. generalize (String a r). clear. intros r.
  induction r as [|a r IH]; [done|]. intros [Ha Hr]. cbn.
  rewrite (IH Hr).
  destruct a as [[] [] [] [] [] [] [] []]; try reflexivity. done.
Qed.

(** [path.basename(name, ".pdf")] drops the suffix of a name that ends in
    it. *)
Lemma basename_suffix name suffix :
  slashFree name ->
  suffix <> "" ->
  Js.endsWith name suffix = true ->
  Path.basename name suffix +:+ suffix = name.
Proof.
  intros Hfree Hne Hends. unfold Path.basename.
  rewrite (lastPortion_slashFree name Hfree).
  destruct (String.eqb_spec suffix "") as [|_]; [done|].
  destruct (String.eqb_spec suffix name) as [->|Hdiff]; [done|].
  rewrite Hends. cbn [andb].
  destruct (String.eqb_spec name suffix) as [->|_]; [done|]. cbn [negb].
  destruct (endsWith_split name suffix Hends) as [r ->].
  rewrite length_append.
  replace (String.length r + String.length suffix - String.length suffix)%nat
    with (String.length r) by lia.
  by rewrite substring_append.
Qed.

Lemma join_inj dir a b : a <> "" -> b <> "" -> Path.join dir a = Path.join dir b -> a = b.
Proof.
  intros Ha Hb. unfold Path.join.
  destruct (String.eqb dir ""); [done|].
  destruct (String.eqb_spec a "") as [|_]; [done|].
  destruct (String.eqb_spec b "") as [|_]; [done|].
  destruct (Js.endsWith dir "/").
  - apply String.app_inj.
  - intros H. apply String.app_inj in H. by apply (String.app_inj "/") in H.
Qed.

Lemma prefix_append (s t u : string) :
  String.prefix (s +:+ t) (s +:+ u) = String.prefix t u.
Proof.
  induction s as [|a s IH]; [done|].
  change (String.prefix (String a (s +:+ t)) (String a (s +:+ u)) = String.prefix t u).
  cbn [String.prefix]. by destruct (ascii_dec a a).
Qed.

Lemma append_nonempty s t : t <> "" -> s +:+ t <> "".
Proof. destruct s; [done|]. done. Qed.

End StringFacts.

(** ** More about [cli/pdf-to-text.js] and [cli/ocr-images.js] *)

Module PipelineRuns.

Import Pipeline StringFacts.
#[local] Open Scope list_scope.

Section Converting.

Variable ext : External.

(** The folder of page images that [convertPdfToImages] uses. *)
Definition imagesFolderOf (pdfPath : string) (outputFolder : option string) : string :=
  Js.orElse outputFolder
    (Path.basename pdfPath (Path.extname pdfPath) +:+ "_images").

(** [convertPdfToText] on a path that names no file: the error of
    [convertPdfToImages] leaves the call, one error line is written, and
    nothing else happens: no folder is created, neither the rasterizer nor
    the OCR engine is called, no file is written. *)
Theorem convertPdfToText_missing_pdf
  (pdfPath : string) (options : TextOptions.t) (fs : Fs.t) :
  Fs.existsSync fs pdfPath = false ->
  convertPdfToText ext pdfPath options fs
  = mkOutcome (Err ("PDF file not found: " +:+ pdfPath)) fs
      [EError ("Error in PDF to text conversion: "
                 +:+ ("PDF file not found: " +:+ pdfPath))].
Proof.
  intros H. rewrite convertPdfToText_unfold, tryCatch_run, bind_run.
  unfold convertPdfToImages. rewrite bind_run. unfold existsSync at 1.
  rewrite H. reflexivity.
Qed.

Lemma ocrImages_effect imagesFolder options fs :
  let o := ocrImages ext imagesFolder options fs in
  (isOk (result o) = false /\ fsAfter o = fs)
  \/ (result o = Ok (outputFileOf options)
      /\ exists text,
           fsAfter o
           = Fs.mk (<[outputFileOf options := Fs.File text]> (Fs.nodes fs))
               (Fs.faults fs)).
Proof.
  cbv zeta.
  destruct (Fs.existsSync fs imagesFolder) eqn:Hex;
    [|left; by rewrite ocrImages_missing_folder].
  destruct (Fs.readdirSync fs imagesFolder) as [names|message] eqn:Hdir;
    [|left; by rewrite (ocrImages_readdir_fails _ _ _ _ message)].
  destruct (decide (imageFiles (pagePrefixOf options) names = [])) as [He|Hne];
    [left; by rewrite (ocrImages_no_images _ _ _ _ names)|].
  destruct (createWorker ext (languageOf options)) as [[]|message] eqn:Hworker;
    [|left; by rewrite (ocrImages_worker_fails _ _ _ _ names message)].
  rewrite (ocrImages_pages _ _ _ _ names Hex Hdir Hne Hworker).
  cbn [result fsAfter]. unfold Fs.writeFileSync.
  destruct (Fs.faults fs Fs.WriteFile (outputFileOf options)); [by left|].
  destruct (Fs.nodes fs !! outputFileOf options) as [[| |]|]; cbn [fst snd];
    try (by left); right; split; try done; by eexists.
Qed.

(** [ocrImages] changes nothing in the file system but its output file,
    and that only when it returns; what it returns is the output path, and
    this path then names a file. *)
Theorem ocrImages_writes_only_the_output_file
  (imagesFolder : string) (options : OcrOptions.t) (fs : Fs.t) :
  let o := ocrImages ext imagesFolder options fs in
  match result o with
  | Err _ => fsAfter o = fs
  | Ok file =>
      file = outputFileOf options
      /\ exists text,
           fsAfter o
           = Fs.mk (<[outputFileOf options := Fs.File text]> (Fs.nodes fs))
               (Fs.faults fs)
  end.
Proof.
  cbv zeta.
  destruct (ocrImages_effect imagesFolder options fs) as [[H1 H2]|[H1 H2]];
    cbv zeta in *.
  - by destruct (result (ocrImages ext imagesFolder options fs)).
  - by rewrite H1.
Qed.

(** The name [convertPdfToImages] gives to the image of page [n]. *)
Definition pageFile (imageFormat : string) (n : nat) : string :=
  "page_" +:+ Js.padStart (Js.toString n) 3 "0" +:+ "." +:+ Js.toLowerCase imageFormat.

Definition isWarning (e : Event) : bool :=
  match e with EWarn _ => true | _ => false end.

Definition warnings (evs : list Event) : list Event := List.filter isWarning evs.

(** The file system once [folder] has been seen to. *)
Definition ensureFolder (fs : Fs.t) (folder : string) : Fs.t :=
  if Fs.existsSync fs folder then fs else (Fs.mkdirSync fs folder).2.

(** The options [convertPdfToImages] hands to the rasterizer. *)
Definition rasterOptionsOf (pdfPath : string) (options : ImagesOptions.t)
  : RasterOptions :=
  mkRasterOptions (default 300%Z (ImagesOptions.density options)) "page"
    (imagesFolderOf pdfPath (ImagesOptions.outputFolder options))
    (Js.toLowerCase (default "png" (ImagesOptions.imageFormat options)))
    2000 2000 (default 100%Z (ImagesOptions.quality options)).

Lemma renameLoop_pages folder imageFormat results :
  forall i saved fs images,
    result (renameLoop folder imageFormat results i saved fs) = Ok images ->
    exists pages,
      images = saved ++ map (fun n => Path.join folder (pageFile imageFormat n)) pages
      /\ pages `sublist_of` seq (i + 1) (length results)
      /\ (length (warnings (events (renameLoop folder imageFormat results i saved fs)))
          + length pages = length results)%nat.
Proof.
  induction results as [|r rest IH]; intros i saved fs images.
  - cbn. intros [= <-]. exists []. by rewrite app_nil_r.
  - cbn [renameLoop length]. rewrite bind_run.
    set (originalPath := Js.orElse r "").
    assert (exists found,
              (if String.eqb originalPath "" then ret false
               else existsSync originalPath) fs
              = mkOutcome (Ok found) fs []) as [found ->].
    { destruct (String.eqb originalPath ""); by eexists. }
    rewrite bind_run. destruct found.
    + rewrite bind_run.
      destruct (when _ _ fs) as [[[]|e] fs1 ev1] eqn:Hwhen; [|done].
      assert (warnings ev1 = []) as Hev.
      { revert Hwhen. unfold when, renameSync, liftWrite, ret.
        destruct (negb _); [|by intros [= <- <-]].
        destruct (Fs.renameSync _ _ _). by intros [= _ _ <-]. }
      cbv beta iota delta [ret].
      fold (pageFile imageFormat (i + 1)).
      specialize (IH (i + 1)%nat
                    (saved ++ [Path.join folder (pageFile imageFormat (i + 1))]) fs1).
      destruct (renameLoop folder imageFormat rest (i + 1) _ fs1)
        as [r2 fs2 ev2]. cbn [result events] in *.
      intros Hr. destruct (IH images Hr) as (pages & -> & Hsub & Hlen).
      exists ((i + 1)%nat :: pages). split; [by rewrite <- app_assoc|]. split.
      * cbn [seq]. replace (S (i + 1)) with (i + 1 + 1)%nat by lia.
        by constructor.
      * unfold warnings in *. rewrite !List.filter_app.
        rewrite Hev. cbn [app length List.filter]. lia.
    + rewrite bind_run. cbv beta iota delta [ret emit consoleWarn].
      specialize (IH (i + 1)%nat saved fs).
      destruct (renameLoop folder imageFormat rest (i + 1) saved fs)
        as [r2 fs2 ev2]. cbn [result events] in *.
      intros Hr. destruct (IH images Hr) as (pages & -> & Hsub & Hlen).
      exists pages. split; [done|]. split.
      * cbn [seq]. replace (S (i + 1)) with (i + 1 + 1)%nat by lia.
        by constructor.
      * unfold warnings in *. cbn [app List.filter isWarning length]. lia.
Qed.

Lemma existsSync_run p fs :
  existsSync p fs = mkOutcome (Ok (Fs.existsSync fs p)) fs [].
Proof. reflexivity. Qed.

(** What [convertPdfToImages] returns when it returns: the folder is the
    one asked for, or [<pdf name>_images]; the images are the files
    [page_NNN.<format>] of that folder, for increasing page numbers among
    those of the pages the rasterizer reported; every page without an
    image was answered by one warning line. *)
Theorem convertPdfToImages_names_pages
  (pdfPath : string) (options : ImagesOptions.t) (fs : Fs.t)
  (images : list string) (folder : string) :
  let o := convertPdfToImages ext pdfPath options fs in
  result o = Ok (images, folder) ->
  folder = imagesFolderOf pdfPath (ImagesOptions.outputFolder options)
  /\ exists results pages,
       (bulk ext pdfPath (rasterOptionsOf pdfPath options)
          (ensureFolder fs folder)).1 = Ok results
       /\ images
          = map (fun n =>
                   Path.join folder
                     (pageFile (default "png" (ImagesOptions.imageFormat options)) n))
              pages
       /\ pages `sublist_of` seq 1 (length results)
       /\ (length (warnings (events o)) + length pages = length results)%nat.
Proof.
  cbv zeta. unfold convertPdfToImages.
  fold (imagesFolderOf pdfPath (ImagesOptions.outputFolder options)).
  fold (rasterOptionsOf pdfPath options).
  set (dir := imagesFolderOf pdfPath (ImagesOptions.outputFolder options)).
  rewrite bind_run, existsSync_run.
  destruct (Fs.existsSync fs pdfPath); cbn [negb]; [|done].
  rewrite bind_run, existsSync_run, bind_run. unfold ensureFolder.
  assert (exists r ev,
            when (negb (Fs.existsSync fs dir)) (mkdirSync dir) fs
            = mkOutcome r (if Fs.existsSync fs dir then fs
                           else (Fs.mkdirSync fs dir).2) ev
            /\ warnings ev = []) as (r0 & ev0 & -> & Hev0).
  { destruct (Fs.existsSync fs dir); cbn [negb when].
    - by eexists _, _.
    - unfold mkdirSync, liftWrite. destruct (Fs.mkdirSync fs dir).
      by eexists _, _. }
  destruct r0 as [[]|e]; [|done].
  set (fs1 := if Fs.existsSync fs dir then fs else (Fs.mkdirSync fs dir).2).
  rewrite tryCatch_run, bind_run. unfold convertBulk.
  destruct (bulk ext pdfPath (rasterOptionsOf pdfPath options) fs1)
    as [[results|e] fs2] eqn:Hbulk; [|done].
  rewrite bind_run.
  pose proof (renameLoop_pages dir
                (default "png" (ImagesOptions.imageFormat options)) results 0 []
                fs2) as Hloop.
  destruct (renameLoop dir _ results 0 [] fs2) as [[saved|e] fs3 ev3]; [|done].
  cbn [result events] in *. unfold ret. cbn [result events].
  intros [= <- <-]. split; [done|].
  destruct (Hloop saved eq_refl) as (pages & -> & Hsub & Hlen).
  exists results, pages.
  split; [fold fs1; by rewrite Hbulk|]. split; [done|]. split; [done|].
  unfold warnings in *. rewrite !List.filter_app. rewrite Hev0.
  cbn [app List.filter isWarning]. rewrite ?app_nil_r. exact Hlen.
Qed.

Lemma convertPdfToImages_folder pdfPath options fs images folder :
  result (convertPdfToImages ext pdfPath options fs) = Ok (images, folder) ->
  folder = imagesFolderOf pdfPath (ImagesOptions.outputFolder options).
Proof.
  unfold convertPdfToImages.
  fold (imagesFolderOf pdfPath (ImagesOptions.outputFolder options)).
  set (dir := imagesFolderOf pdfPath (ImagesOptions.outputFolder options)).
  rewrite bind_run, existsSync_run.
  destruct (Fs.existsSync fs pdfPath); cbn [negb]; [|done].
  rewrite bind_run, existsSync_run, bind_run.
  destruct (when _ _ fs) as [[[]|e] fs1 ev1]; [|done].
  rewrite tryCatch_run, bind_run.
  destruct (convertBulk ext pdfPath _ fs1) as [[results|e] fs2 ev2]; [|done].
  rewrite bind_run.
  destruct (renameLoop dir _ results 0 [] fs2) as [[saved|e] fs3 ev3]; [|done].
  unfold ret. cbn [result]. by intros [= _ <-].
Qed.

Lemma convertPdfToText_result pdfPath options fs resultFile :
  result (convertPdfToText ext pdfPath options fs) = Ok resultFile ->
  resultFile
  = Js.orElse (TextOptions.outputText options)
      (Path.basename pdfPath (Path.extname pdfPath) +:+ "_ocr_results.txt").
Proof.
  rewrite convertPdfToText_unfold, tryCatch_run, bind_run.
  destruct (convertPdfToImages ext pdfPath (imagesOptionsOf options) fs)
    as [[[images folder]|e] fs1 ev1]; [|done].
  rewrite bind_run.
  destruct (ocrImages_effect folder (ocrOptionsOf pdfPath options) fs1)
    as [[H1 H2]|[H1 _]]; cbv zeta in *;
    destruct (ocrImages ext folder (ocrOptionsOf pdfPath options) fs1)
      as [r2 fs2 ev2]; cbn [result fsAfter] in *; subst r2 || (destruct r2; done).
  rewrite bind_run.
  destruct (negb (default false (TextOptions.keepImages options))).
  - rewrite tryCatch_run.
    destruct (rmSync folder fs2) as [[[]|m] fs3 ev3];
      cbv beta iota delta [ret emit]; cbn [result]; by intros [= <-].
  - cbv beta iota delta [ret]. cbn [result]. by intros [= <-].
Qed.

(** The default names of the text file and of the images folder are two
    names side by side: the text file does not lie in the folder. *)
Lemma default_names_apart (name : string) :
  Fs.isUnder (name +:+ "_images") (name +:+ "_ocr_results.txt") = false.
Proof.
  unfold Fs.isUnder. apply orb_false_iff. split.
  - apply String.eqb_neq. intros E. by apply String.app_inj in E.
  - rewrite <- Js.app_assoc, prefix_append. reflexivity.
Qed.

(** When [convertPdfToText] returns, it returns the path asked for (or
    [<pdf name>_ocr_results.txt]).  This path then names a file when the
    images are kept, and also when the text file and the images folder
    both have their default names, [<pdf name>_ocr_results.txt] beside
    [<pdf name>_images].  (For other paths it depends on whether the text
    file lies inside the images folder, under whatever spelling of its
    path.) *)
Theorem convertPdfToText_returns_the_text_file
  (pdfPath : string) (options : TextOptions.t) (fs : Fs.t) (resultFile : string) :
  let o := convertPdfToText ext pdfPath options fs in
  result o = Ok resultFile ->
  resultFile
  = Js.orElse (TextOptions.outputText options)
      (Path.basename pdfPath (Path.extname pdfPath) +:+ "_ocr_results.txt")
  /\ (default false (TextOptions.keepImages options) = true
      \/ (TextOptions.outputText options = None
          /\ TextOptions.tempImagesFolder options = None) ->
      exists text, Fs.nodes (fsAfter o) !! resultFile = Some (Fs.File text)).
Proof.
  cbv zeta. rewrite convertPdfToText_unfold, tryCatch_run, bind_run.
  pose proof (convertPdfToImages_folder pdfPath (imagesOptionsOf options) fs) as Hfolder.
  destruct (convertPdfToImages ext pdfPath (imagesOptionsOf options) fs)
    as [[[images folder]|e] fs1 ev1]; cbn [result] in *; [|done].
  rewrite (Hfolder images folder eq_refl). cbn [imagesOptionsOf ImagesOptions.outputFolder].
  set (dir := imagesFolderOf pdfPath (TextOptions.tempImagesFolder options)).
  rewrite bind_run.
  destruct (ocrImages_effect dir (ocrOptionsOf pdfPath options) fs1)
    as [[H1 H2]|[H1 (text & H2)]]; cbv zeta in *;
    destruct (ocrImages ext dir (ocrOptionsOf pdfPath options) fs1)
      as [r2 fs2 ev2]; cbn [result fsAfter] in *; subst r2 || (destruct r2; done).
  change (outputFileOf (ocrOptionsOf pdfPath options))
    with (Js.orElse (TextOptions.outputText options)
            (Path.basename pdfPath (Path.extname pdfPath) +:+ "_ocr_results.txt"))
    in *.
  set (file := Js.orElse _ _) in *.
  rewrite bind_run.
  destruct (default false (TextOptions.keepImages options)); cbn [negb].
  - unfold ret. cbn [result fsAfter]. intros [= <-]. split; [done|]. intros _.
    exists text. subst fs2. apply lookup_insert_eq.
  - rewrite tryCatch_run. unfold rmSync, liftWrite, Fs.rmSync.
    destruct (Fs.faults fs2 Fs.Rm dir) as [message|].
    + cbv beta iota delta [emit ret]. cbn [result fsAfter]. intros [= <-].
      split; [done|]. intros _. exists text. subst fs2. apply lookup_insert_eq.
    + cbv beta iota delta [ret]. cbn [result fsAfter Fs.nodes]. intros [= <-].
      split; [done|]. intros [?|[Hout Htemp]]; [done|]. exists text.
      apply map_lookup_filter_Some. split; [subst fs2; apply lookup_insert_eq|].
      cbn [fst]. unfold file, dir, imagesFolderOf. rewrite Hout, Htemp.
      apply default_names_apart.
Qed.

End Converting.

Lemma convertPdfToText_missing_pdf_witness :
  convertPdfToText emptyRasterizer "lost.pdf" TextOptions.none freshFs
  = mkOutcome (Err ("PDF file not found: " +:+ "lost.pdf")) freshFs
      [EError ("Error in PDF to text conversion: "
                 +:+ ("PDF file not found: " +:+ "lost.pdf"))].
Proof.
  refine (convertPdfToText_missing_pdf emptyRasterizer "lost.pdf" TextOptions.none
            freshFs _).
  vm_compute. reflexivity.
Defined.

(** A rasterizer that reports three pages and writes the files of the
    first and of the last. *)
Definition gapRasterizer : External :=
  mkExternal
    (fun pdf opts fs =>
       (Ok [Some (savePath opts +:+ "/page.1.png");
            Some (savePath opts +:+ "/page.2.png");
            Some (savePath opts +:+ "/page.3.png")],
        Fs.mk (<[savePath opts +:+ "/page.1.png" := Fs.File "scan 1"]>
                 (<[savePath opts +:+ "/page.3.png" := Fs.File "scan 3"]>
                    (Fs.nodes fs)))
          (Fs.faults fs)))
    (fun _ => Ok tt)
    (fun _ _ image => Ok ("text of " +:+ image)).

Definition noImagesOptions : ImagesOptions.t := ImagesOptions.mk None None None None.

Lemma convertPdfToImages_names_pages_witness :
  "doc_images" = imagesFolderOf "doc.pdf" (ImagesOptions.outputFolder noImagesOptions).
Proof.
  refine (proj1 (convertPdfToImages_names_pages gapRasterizer "doc.pdf"
                   noImagesOptions freshFs
                   ["doc_images/page_001.png"; "doc_images/page_003.png"]
                   "doc_images" _)).
  vm_compute. reflexivity.
Defined.

Example gap_run :
  let o := convertPdfToImages gapRasterizer "doc.pdf" noImagesOptions freshFs in
  result o = Ok (["doc_images/page_001.png"; "doc_images/page_003.png"], "doc_images")
  /\ warnings (events o) = [EWarn "⚠ Warning: Could not find file for page 2"].
Proof. vm_compute. split; reflexivity. Qed.

Definition onePageRasterizer : External :=
  mkExternal
    (fun pdf opts fs =>
       (Ok [Some (savePath opts +:+ "/page.1.png")],
        Fs.mk (<[savePath opts +:+ "/page.1.png" := Fs.File "scan 1"]> (Fs.nodes fs))
          (Fs.faults fs)))
    (fun _ => Ok tt)
    (fun _ _ image => Ok ("text of " +:+ image)).

Lemma convertPdfToText_returns_the_text_file_witness :
  "doc_ocr_results.txt"
  = Js.orElse (TextOptions.outputText TextOptions.none)
      (Path.basename "doc.pdf" (Path.extname "doc.pdf") +:+ "_ocr_results.txt").
Proof.
  refine (proj1 (convertPdfToText_returns_the_text_file onePageRasterizer "doc.pdf"
                   TextOptions.none freshFs "doc_ocr_results.txt" _)).
  vm_compute. reflexivity.
Defined.

(** A text file asked for inside the images folder is removed with it. *)
Example text_file_inside_the_images_folder :
  let options :=
    TextOptions.mk (Some "doc_images/text.txt") None None None None None in
  let o := convertPdfToText onePageRasterizer "doc.pdf" options freshFs in
  result o = Ok "doc_images/text.txt"
  /\ Fs.nodes (fsAfter o) !! "doc_images/text.txt" = None.
Proof. vm_compute. split; reflexivity. Qed.

(** *** The order of the pages *)

(** The two filters of [ocrImages], for the default prefix. *)
Definition accepted (name : string) : bool :=
  Js.includes imageExtensions (Js.toLowerCase (Path.extname name))
  && Js.startsWith name "page_".

Fixpoint ascending (l : list string) : bool :=
  match l with
  | x :: rest =>
      match rest with
      | y :: _ => String.leb x y && ascending rest
      | [] => true
      end
  | [] => true
  end.

Lemma ascending_Sorted l : ascending l = true -> Sorted String.le l.
Proof.
  induction l as [|x [|y l] IH]; intros H.
  - constructor.
  - by repeat constructor.
  - cbn [ascending] in H. apply andb_true_iff in H as [Hxy Hrest].
    constructor; [by apply IH|]. constructor. unfold String.le. by rewrite Hxy.
Qed.

Lemma ascending_take n l : ascending l = true -> ascending (take n l) = true.
Proof.
  revert n. induction l as [|x [|y l] IH]; intros n H.
  - by destruct n.
  - by destruct n as [|[|n]].
  - cbn [ascending] in H. apply andb_true_iff in H as [Hxy Hrest].
    destruct n as [|[|n]]; [done..|].
    specialize (IH (S n) Hrest).
    change (String.leb x y && ascending (take (S n) (y :: l)) = true).
    by rewrite Hxy, IH.
Qed.

Lemma filter_all {A} (f : A -> bool) (l : list A) :
  forallb f l = true -> List.filter f l = l.
Proof.
  induction l as [|x l IH]; [done|]. cbn. intros H.
  apply andb_true_iff in H as [-> H]. by rewrite IH.
Qed.

Lemma forallb_take {A} (f : A -> bool) n (l : list A) :
  forallb f l = true -> forallb f (take n l) = true.
Proof.
  revert n. induction l as [|x l IH]; intros [|n] H; try done.
  cbn in *. apply andb_true_iff in H as [-> H]. by apply IH.
Qed.

Lemma forallb_Permutation {A} (f : A -> bool) (l1 l2 : list A) :
  l1 ≡ₚ l2 -> forallb f l2 = true -> forallb f l1 = true.
Proof.
  intros Hp H. apply forallb_forall. intros x Hx.
  rewrite forallb_forall in H. apply H.
  apply list_elem_of_In. rewrite <- Hp. by apply list_elem_of_In.
Qed.

(** The page files of a document of 999 pages, for one format. *)
Definition pageFiles (imageFormat : string) (pages : nat) : list string :=
  map (pageFile imageFormat) (seq 1 pages).

Lemma pageFiles_take imageFormat pages :
  (pages <= 999)%nat ->
  pageFiles imageFormat pages = take pages (pageFiles imageFormat 999).
Proof.
  intros H. unfold pageFiles. rewrite <- fmap_take, take_seq. do 2 f_equal. lia.
Qed.

Lemma pageFiles_lower imageFormat pages :
  pageFiles imageFormat pages = pageFiles (Js.toLowerCase imageFormat) pages.
Proof.
  unfold pageFiles. apply map_ext. intros n. unfold pageFile. do 3 f_equal.
  induction imageFormat as [|c s IH]; [done|]. cbn [Js.toLowerCase]. rewrite <- IH.
  f_equal. unfold Js.lowerAscii.
  destruct c as [[] [] [] [] [] [] [] []]; reflexivity.
Qed.

Lemma pageFiles_checked imageFormat :
  imageFormat ∈ ["png"; "jpg"; "jpeg"; "tiff"; "bmp"] ->
  forallb accepted (pageFiles imageFormat 999) = true
  /\ ascending (pageFiles imageFormat 999) = true.
Proof.
  intros H. repeat (apply elem_of_cons in H as [->|H]); [..|by apply elem_of_nil in H];
    vm_compute; done.
Qed.

(** [convertPdfToImages] and [ocrImages] agree on the order of the pages of
    a document of at most 999 pages: when the folder lists exactly the
    images [page_001] to [page_P] in a format whose extension [ocrImages]
    accepts, in whatever order the directory lists them, the files
    [ocrImages] works through are these images in page order. *)
Theorem pages_are_read_in_page_order
  (imageFormat : string) (pages : nat) (names : list string) :
  Js.toLowerCase imageFormat ∈ ["png"; "jpg"; "jpeg"; "tiff"; "bmp"] ->
  (pages <= 999)%nat ->
  names ≡ₚ map (pageFile imageFormat) (seq 1 pages) ->
  imageFiles "page_" names = map (pageFile imageFormat) (seq 1 pages).
Proof.
  intros Hformat Hpages Hnames. fold (pageFiles imageFormat pages) in *.
  rewrite pageFiles_lower in *.
  destruct (pageFiles_checked _ Hformat) as [Hacc Hasc].
  rewrite (pageFiles_take _ _ Hpages) in *.
  set (target := take pages (pageFiles (Js.toLowerCase imageFormat) 999)) in *.
  assert (forallb accepted names = true) as Hall.
  { apply (forallb_Permutation _ _ target Hnames).
    exact (forallb_take accepted pages _ Hacc). }
  assert (forallb (fun file =>
                     Js.includes imageExtensions (Js.toLowerCase (Path.extname file)))
            names = true) as H1.
  { apply forallb_forall. intros x Hx. rewrite forallb_forall in Hall.
    apply Hall, andb_true_iff in Hx. exact (proj1 Hx). }
  assert (forallb (fun file => Js.startsWith file "page_") names = true) as H2.
  { apply forallb_forall. intros x Hx. rewrite forallb_forall in Hall.
    apply Hall, andb_true_iff in Hx. exact (proj2 Hx). }
  unfold imageFiles. rewrite (filter_all _ names H1), (filter_all _ names H2).
  apply (Sorted_unique String.le).
  - apply (Sorted_merge_sort String.le).
  - apply ascending_Sorted. exact (ascending_take pages _ Hasc).
  - unfold Js.sort. by rewrite merge_sort_Permutation.
Qed.

Lemma pages_are_read_in_page_order_witness :
  imageFiles "page_" ["page_003.png"; "page_001.png"; "page_002.png"]
  = map (pageFile "PNG") (seq 1 3).
Proof.
  refine (pages_are_read_in_page_order "PNG" 3
            ["page_003.png"; "page_001.png"; "page_002.png"] _ _ _).
  - vm_compute. set_solver.
  - lia.
  - vm_compute.
    apply (Permutation_cons_app ["page_001.png"; "page_002.png"] []). reflexivity.
Defined.

(** From page 1000 on the names have four digits and the order of the
    names is no longer the order of the pages. *)
Example page_1000_is_read_before_page_101 :
  imageFiles "page_" (map (pageFile "png") [100; 101; 1000]%nat)
  = ["page_100.png"; "page_1000.png"; "page_101.png"].
Proof. vm_compute. reflexivity. Qed.

End PipelineRuns.

(** ** [cli/pdf-to-images.js] *)

Module PdfToImages.

(** A descriptor of [convert.bulk(-1)]: the properties [path] and [base64]
    it may carry. *)
Record PageResult := mkPageResult {
  path : option string;
  base64 : option string
}.

(** The options handed to [pdf2pic.fromPath] ([width] and [height] are
    [undefined] here). *)
Record RasterSettings := mkRasterSettings {
  density : Z;
  saveFilename : string;
  savePath : string;
  format : string;
  quality : Z
}.

(** The external collaborators: the rasterizer, and the bytes
    [Buffer.from(data, "base64")] decodes from a string. *)
Record Rasterizer := mkRasterizer {
  bulk : string -> RasterSettings -> Fs.t -> Result (list PageResult) * Fs.t;
  fromBase64 : string -> string
}.

(** The message of the [TypeError] thrown by [Buffer.from(undefined,
    "base64")]. *)
Definition notAString : string :=
  "The first argument must be of type string or an instance of Buffer, ArrayBuffer, or Array or an Array-like Object. Received undefined".

Fixpoint untilComma (s : string) : string :=
  match s with
  | "" => ""
  | String "," _ => ""
  | String c s' => String c (untilComma s')
  end.

Fixpoint afterComma (s : string) : option string :=
  match s with
  | "" => None
  | String "," s' => Some s'
  | String _ s' => afterComma s'
  end.

(** [s.split(",")[1]]: [undefined] when [s] has no comma. *)
Definition secondField (s : string) : option string :=
  untilComma <$> afterComma s.

Section WithRasterizer.

Variable ext : Rasterizer.

Definition convertBulk (pdfPath : string) (settings : RasterSettings)
  : M (list PageResult) :=
  fun fs =>
    let '(r, fs') := bulk ext pdfPath settings fs in
    mkOutcome r fs' [EBulk pdfPath (savePath settings)].

(** [if (savedPath) savedImages.push(savedPath)] *)
Definition pushSaved (savedImages : list string) (savedPath : option string)
  : list string :=
  match savedPath with
  | Some p => if String.eqb p "" then savedImages else savedImages ++ [p]
  | None => savedImages
  end.

(** The loop over the descriptors.  In the first branch [savedPath] is
    assigned [result.path] when the rename throws, and [newPath] right
    after the [if], whether or not the rename was tried or succeeded. *)
Fixpoint saveLoop (finalOutputFolder imageFormat : string)
  (results : list PageResult) (i : nat) (savedImages : list string)
  : M (list string) :=
  match results with
  | [] => ret savedImages
  | result :: rest =>
      let pageNumber := (i + 1)%nat in
      let paddedNumber := Js.padStart (Js.toString pageNumber) 3 "0" in
      let resultPath := Js.orElse (path result) "" in
      let newFilename :=
        "page_" +:+ paddedNumber +:+ "." +:+ Js.toLowerCase imageFormat in
      let newPath := Path.join finalOutputFolder newFilename in
      let* found :=
        (if String.eqb resultPath "" then ret false else existsSync resultPath) in
      let* savedImages' :=
        (if found : bool then
           let* savedPath :=
             (if negb (String.eqb resultPath newPath) then
                tryCatch
                  (renameSync resultPath newPath ;; ret None)
                  (fun message =>
                     consoleError ("Error renaming file: " +:+ message) ;;
                     ret (Some resultPath))
              else ret None) in
           let savedPath : option string := Some newPath in
           ret (pushSaved savedImages savedPath)
         else if negb (String.eqb (Js.orElse (base64 result) "") "") then
           let base64Data := Js.orElse (base64 result) "" in
           tryCatch
             (let* data :=
                (if Js.startsWith base64Data "data:" then
                   match secondField base64Data with
                   | Some d => ret d
                   | None => throw notAString
                   end
                 else ret base64Data) in
              writeFileSync newPath (fromBase64 ext data) ;;
              ret (pushSaved savedImages (Some newPath)))
             (fun message =>
                consoleError ("Error saving base64 data for page "
                                +:+ Js.toString pageNumber +:+ ": " +:+ message) ;;
                ret savedImages)
         else
           consoleError ("No valid data found for page " +:+ Js.toString pageNumber) ;;
           ret savedImages) in
      saveLoop finalOutputFolder imageFormat rest (i + 1) savedImages'
  end.

Definition convertPdfToImages (pdfPath : string) (options : ImagesOptions.t)
  : M (list string) :=
  let outputFolder := ImagesOptions.outputFolder options in
  let imageFormat := default "png" (ImagesOptions.imageFormat options) in
  let density := default 300%Z (ImagesOptions.density options) in
  let quality := default 100%Z (ImagesOptions.quality options) in
  let* pdfExists := existsSync pdfPath in
  if negb pdfExists then throw ("PDF file not found: " +:+ pdfPath)
  else
    let pdfName := Path.basename pdfPath (Path.extname pdfPath) in
    let finalOutputFolder := Js.orElse outputFolder (pdfName +:+ "_images") in
    let* folderExists := existsSync finalOutputFolder in
    when (negb folderExists) (mkdirSync finalOutputFolder) ;;
    tryCatch
      (let* results :=
         convertBulk pdfPath
           (mkRasterSettings density "page" finalOutputFolder
              (Js.toLowerCase imageFormat) quality) in
       saveLoop finalOutputFolder imageFormat results 0 [])
      (fun message =>
         consoleError ("Error during conversion: " +:+ message) ;;
         ret []).

End WithRasterizer.

End PdfToImages.

(** *** Runs of the stand-alone [convertPdfToImages] *)

Module PdfToImagesFacts.

Import Pipeline StringFacts PipelineRuns PdfToImages.
#[local] Open Scope list_scope.

Definition isErrorLine (e : Event) : bool :=
  match e with EError _ => true | _ => false end.

Definition errorLines (evs : list Event) : list Event := List.filter isErrorLine evs.

Lemma join_nonempty a b : b <> "" -> Path.join a b <> "".
Proof.
  intros Hb. unfold Path.join.
  destruct (String.eqb_spec a "") as [|Ha]; [done|].
  destruct (String.eqb_spec b "") as [|_]; [done|].
  destruct (Js.endsWith a "/"); by destruct a.
Qed.

Lemma pushSaved_page saved folder imageFormat n :
  pushSaved saved (Some (Path.join folder (pageFile imageFormat n)))
  = saved ++ [Path.join folder (pageFile imageFormat n)].
Proof.
  unfold pushSaved.
  destruct (String.eqb_spec (Path.join folder (pageFile imageFormat n)) "") as [E|_];
    [|done].
  by apply join_nonempty in E.
Qed.

Section Saving.

Variable ext : Rasterizer.

(** The loop never throws: a page adds its new name to the list, or an
    error line to the log. *)
Lemma saveLoop_pages folder imageFormat results :
  forall i saved fs,
    exists pages,
      result (saveLoop ext folder imageFormat results i saved fs)
      = Ok (saved ++ map (fun n => Path.join folder (pageFile imageFormat n)) pages)
      /\ pages `sublist_of` seq (i + 1) (length results)
      /\ (length results
          <= length pages
             + length (errorLines
                         (events (saveLoop ext folder imageFormat results i saved fs))))%nat.
Proof.
  induction results as [|r rest IH]; intros i saved fs.
  - exists []. cbn. by rewrite app_nil_r.
  - cbn [saveLoop length]. rewrite bind_run.
    fold (pageFile imageFormat (i + 1)).
    set (newPath := Path.join folder (pageFile imageFormat (i + 1))).
    set (resultPath := Js.orElse (path r) "").
    assert (exists found,
              (if String.eqb resultPath "" then ret false
               else existsSync resultPath) fs
              = mkOutcome (Ok found) fs []) as [found ->].
    { destruct (String.eqb resultPath ""); by eexists. }
    rewrite bind_run. destruct found.
    + rewrite bind_run.
      assert (exists sp fs1 ev1,
                (if negb (String.eqb resultPath newPath)
                 then tryCatch (renameSync resultPath newPath;; ret None)
                        (fun message =>
                           consoleError ("Error renaming file: " +:+ message);;
                           ret (Some resultPath))
                 else ret None) fs
                = mkOutcome (Ok sp) fs1 ev1) as (sp & fs1 & ev1 & ->).
      { destruct (negb _); [|by eexists _, _, _].
        rewrite tryCatch_run, bind_run. unfold renameSync, liftWrite.
        destruct (Fs.renameSync fs resultPath newPath) as [[[]|m] fs1];
          by eexists _, _, _. }
      cbv beta iota delta [ret]. unfold newPath. rewrite !pushSaved_page.
      fold newPath.
      destruct (IH (i + 1)%nat (saved ++ [newPath]) fs1) as (pages & Hr & Hsub & Hlen).
      destruct (saveLoop ext folder imageFormat rest (i + 1) _ fs1) as [r2 fs2 ev2].
      cbn [result events] in *. subst r2.
      exists ((i + 1)%nat :: pages). split; [by rewrite <- app_assoc|]. split.
      * cbn [seq]. replace (S (i + 1)) with (i + 1 + 1)%nat by lia. by constructor.
      * unfold errorLines in *. rewrite !List.filter_app, !length_app.
        cbn [length]. lia.
    + destruct (negb (String.eqb (Js.orElse (base64 r) "") "")).
      * rewrite tryCatch_run, bind_run.
        set (base64Data := Js.orElse (base64 r) "").
        assert (exists rd,
                  (if Js.startsWith base64Data "data:"
                   then match secondField base64Data with
                        | Some d => ret d
                        | None => throw notAString
                        end
                   else ret base64Data) fs
                  = mkOutcome rd fs []) as [rd ->].
        { destruct (Js.startsWith base64Data "data:"); [|by eexists].
          destruct (secondField base64Data); by eexists. }
        destruct rd as [data|message].
        -- rewrite bind_run. unfold writeFileSync, liftWrite.
           destruct (Fs.writeFileSync fs newPath (fromBase64 ext data))
             as [[[]|m] fs1].
           ++ cbv beta iota delta [ret]. unfold newPath.
              rewrite !pushSaved_page. fold newPath.
              destruct (IH (i + 1)%nat (saved ++ [newPath]) fs1)
                as (pages & Hr & Hsub & Hlen).
              destruct (saveLoop ext folder imageFormat rest (i + 1) _ fs1)
                as [r2 fs2 ev2].
              cbn [result events] in *. subst r2.
              exists ((i + 1)%nat :: pages). split; [by rewrite <- app_assoc|]. split.
              ** cbn [seq]. replace (S (i + 1)) with (i + 1 + 1)%nat by lia.
                 by constructor.
              ** unfold errorLines in *. rewrite !List.filter_app, !length_app.
                 cbn [length]. lia.
           ++ rewrite bind_run. cbv beta iota delta [ret emit consoleError].
              destruct (IH (i + 1)%nat saved fs1) as (pages & Hr & Hsub & Hlen).
              destruct (saveLoop ext folder imageFormat rest (i + 1) saved fs1)
                as [r2 fs2 ev2].
              cbn [result events] in *. subst r2.
              exists pages. split; [done|]. split.
              ** cbn [seq]. replace (S (i + 1)) with (i + 1 + 1)%nat by lia.
                 by constructor.
              ** unfold errorLines in *. rewrite !List.filter_app, !length_app.
                 cbn [length List.filter isErrorLine app]. lia.
        -- rewrite bind_run. cbv beta iota delta [ret emit consoleError].
           destruct (IH (i + 1)%nat saved fs) as (pages & Hr & Hsub & Hlen).
           destruct (saveLoop ext folder imageFormat rest (i + 1) saved fs)
             as [r2 fs2 ev2].
           cbn [result events] in *. subst r2.
           exists pages. split; [done|]. split.
           ++ cbn [seq]. replace (S (i + 1)) with (i + 1 + 1)%nat by lia.
              by constructor.
           ++ unfold errorLines in *. rewrite !List.filter_app, !length_app.
              cbn [length List.filter isErrorLine app]. lia.
      * rewrite bind_run. cbv beta iota delta [ret emit consoleError].
        destruct (IH (i + 1)%nat saved fs) as (pages & Hr & Hsub & Hlen).
        destruct (saveLoop ext folder imageFormat rest (i + 1) saved fs)
          as [r2 fs2 ev2].
        cbn [result events] in *. subst r2.
        exists pages. split; [done|]. split.
        -- cbn [seq]. replace (S (i + 1)) with (i + 1 + 1)%nat by lia.
           by constructor.
        -- unfold errorLines in *. rewrite ?List.filter_app, ?length_app.
           cbn [length List.filter isErrorLine app]. lia.
Qed.

(** The options [convertPdfToImages] hands to the rasterizer. *)
Definition settingsOf (pdfPath : string) (options : ImagesOptions.t)
  : RasterSettings :=
  mkRasterSettings (default 300%Z (ImagesOptions.density options)) "page"
    (imagesFolderOf pdfPath (ImagesOptions.outputFolder options))
    (Js.toLowerCase (default "png" (ImagesOptions.imageFormat options)))
    (default 100%Z (ImagesOptions.quality options)).

(** The stand-alone [convertPdfToImages] throws in two cases only: the PDF
    is missing, or the output folder cannot be created.  Past these, it
    always returns a list: the empty list, after one error line, when the
    rasterizer fails; otherwise the files [page_NNN.<format>] of the
    output folder for increasing page numbers among the pages reported,
    every page left out being answered by an error line. *)
Theorem convertPdfToImages_outcomes
  (pdfPath : string) (options : ImagesOptions.t) (fs : Fs.t) :
  let folder := imagesFolderOf pdfPath (ImagesOptions.outputFolder options) in
  let imageFormat := default "png" (ImagesOptions.imageFormat options) in
  let o := convertPdfToImages ext pdfPath options fs in
  if negb (Fs.existsSync fs pdfPath) then
    o = mkOutcome (Err ("PDF file not found: " +:+ pdfPath)) fs []
  else
    match (if Fs.existsSync fs folder then Ok tt else (Fs.mkdirSync fs folder).1) with
    | Err message =>
        result o = Err message /\ events o = [EMkdir folder]
    | Ok _ =>
        match (bulk ext pdfPath (settingsOf pdfPath options)
                 (ensureFolder fs folder)).1 with
        | Err message =>
            result o = Ok []
            /\ last (events o)
               = Some (EError ("Error during conversion: " +:+ message))
        | Ok results =>
            exists pages,
              result o
              = Ok (map (fun n => Path.join folder (pageFile imageFormat n)) pages)
              /\ pages `sublist_of` seq 1 (length results)
              /\ (length results
                  <= length pages + length (errorLines (events o)))%nat
        end
    end.
Proof.
  cbv zeta. unfold convertPdfToImages.
  fold (imagesFolderOf pdfPath (ImagesOptions.outputFolder options)).
  fold (settingsOf pdfPath options).
  set (dir := imagesFolderOf pdfPath (ImagesOptions.outputFolder options)).
  rewrite bind_run, existsSync_run.
  destruct (Fs.existsSync fs pdfPath); cbn [negb]; [|done].
  rewrite bind_run, existsSync_run, bind_run. unfold ensureFolder.
  destruct (Fs.existsSync fs dir); cbn [negb when].
  - cbv beta iota delta [ret]. rewrite tryCatch_run, bind_run. unfold convertBulk.
    destruct (bulk ext pdfPath (settingsOf pdfPath options) fs)
      as [[results|message] fs1]; cbn [fst].
    + destruct (saveLoop_pages dir
                  (default "png" (ImagesOptions.imageFormat options)) results 0 []
                  fs1) as (pages & Hr & Hsub & Hlen).
      destruct (saveLoop ext dir _ results 0 [] fs1) as [r2 fs2 ev2].
      cbn [result events app] in *. subst r2. cbn [result events app].
      exists pages. split; [done|]. split; [done|].
      revert Hlen. unfold errorLines. cbn [List.filter isErrorLine app]. lia.
    + rewrite bind_run. cbv beta iota delta [ret emit consoleError].
      by cbn [result events app last].
  - unfold mkdirSync, liftWrite.
    destruct (Fs.mkdirSync fs dir) as [[[]|message] fs0]; cbn [fst snd]; [|done].
    rewrite tryCatch_run, bind_run. unfold convertBulk.
    destruct (bulk ext pdfPath (settingsOf pdfPath options) fs0)
      as [[results|message] fs1]; cbn [fst].
    + destruct (saveLoop_pages dir
                  (default "png" (ImagesOptions.imageFormat options)) results 0 []
                  fs1) as (pages & Hr & Hsub & Hlen).
      destruct (saveLoop ext dir _ results 0 [] fs1) as [r2 fs2 ev2].
      cbn [result events app] in *. subst r2. cbn [result events app].
      exists pages. split; [done|]. split; [done|].
      revert Hlen. unfold errorLines. cbn [List.filter isErrorLine app]. lia.
    + rewrite bind_run. cbv beta iota delta [ret emit consoleError].
      by cbn [result events app last].
Qed.

End Saving.

(** A rasterizer that reports a page file which cannot be renamed, a page
    as base64 data, a page as a data URL without data and a page without
    anything. *)
Definition mixedRasterizer : Rasterizer :=
  mkRasterizer
    (fun pdf settings fs =>
       (Ok [mkPageResult (Some (savePath settings +:+ "/page.1.png")) None;
            mkPageResult None (Some "c2NhbiAy");
            mkPageResult None (Some "data:image/png;base64");
            mkPageResult None None],
        Fs.mk (<[savePath settings +:+ "/page.1.png" := Fs.File "scan 1"]>
                 (Fs.nodes fs))
          (fun op p =>
             match op with
             | Fs.Rename => Some "EPERM: operation not permitted, rename"
             | _ => None
             end)))
    (fun data => "decoded " +:+ data).

(** The page whose rename failed is still listed under its new name,
    which names no file. *)
Example failed_rename_is_listed_under_the_new_name :
  let o := convertPdfToImages mixedRasterizer "doc.pdf" noImagesOptions freshFs in
  result o = Ok ["doc_images/page_001.png"; "doc_images/page_002.png"]
  /\ Fs.nodes (fsAfter o) !! "doc_images/page_001.png" = None
  /\ Fs.nodes (fsAfter o) !! "doc_images/page.1.png" = Some (Fs.File "scan 1")
  /\ Fs.nodes (fsAfter o) !! "doc_images/page_002.png"
     = Some (Fs.File "decoded c2NhbiAy")
  /\ errorLines (events o)
     = [EError "Error renaming file: EPERM: operation not permitted, rename";
        EError ("Error saving base64 data for page 3: " +:+ notAString);
        EError "No valid data found for page 4"].
Proof. vm_compute. repeat split; reflexivity. Qed.

End PdfToImagesFacts.

(** ** More about [cli/batch-pdf-to-text.js] *)

Module BatchInputs.

Import Batch BatchFacts StringFacts.
#[local] Open Scope list_scope.

Definition isPdfName (file : string) : bool :=
  String.eqb (Js.toLowerCase (Path.extname file)) ".pdf".

(** The element of [pdfFiles] made for an entry [file] of the input
    directory. *)
Definition pdfOf (inputPath file : string) : PdfFile :=
  mkPdfFile (Path.join inputPath file) file (Path.basename file ".pdf").

(** The file system once the output folder has been seen to. *)
Definition withOutputFolder (fs : Fs.t) (outputFolder : string) : Fs.t :=
  if Fs.existsSync fs outputFolder then fs else (Fs.mkdirSync fs outputFolder).2.

Definition outputFolderEvents (fs : Fs.t) (outputFolder : string) : list Event :=
  if Fs.existsSync fs outputFolder then [] else [EMkdir outputFolder].

Definition outputFolderReady (fs : Fs.t) (outputFolder : string) : Prop :=
  Fs.existsSync fs outputFolder = true \/ (Fs.mkdirSync fs outputFolder).1 = Ok tt.

Lemma resolveInput_outcome inputPath outputFolder fs :
  outputFolderReady fs outputFolder ->
  let fs1 := withOutputFolder fs outputFolder in
  resolveInput inputPath outputFolder fs
  = mkOutcome
      (match Fs.statIsDirectory fs1 inputPath with
       | Err message => Err message
       | Ok true =>
           match Fs.readdirSync fs1 inputPath with
           | Err message => Err message
           | Ok files =>
               if (length (List.filter isPdfName files) =? 0)%nat
               then Err "No PDF files found in the specified location"
               else Ok (map (pdfOf inputPath) (List.filter isPdfName files))
           end
       | Ok false =>
           if isPdfName inputPath
           then Ok [mkPdfFile inputPath (Path.basename inputPath "")
                      (Path.basename inputPath ".pdf")]
           else Err "Input must be a PDF file or directory containing PDF files"
       end)
      fs1 (outputFolderEvents fs outputFolder).
Proof.
  intros Hready. cbv zeta.
  unfold resolveInput, withOutputFolder, outputFolderEvents, outputFolderReady in *.
  rewrite Pipeline.bind_run. unfold existsSync at 1.
  destruct (Fs.existsSync fs outputFolder) eqn:Hex; cbn [negb when].
  - rewrite Pipeline.bind_run. unfold ret at 1. rewrite Pipeline.bind_run.
    unfold statIsDirectory, liftRead.
    destruct (Fs.statIsDirectory fs inputPath) as [[|]|message]; [| |done].
    + rewrite Pipeline.bind_run, Pipeline.bind_run. unfold readdirSync, liftRead.
      destruct (Fs.readdirSync fs inputPath) as [files|message]; [|done].
      unfold ret at 1. rewrite length_map. fold isPdfName.
      by destruct (length (List.filter isPdfName files) =? 0)%nat.
    + rewrite Pipeline.bind_run. fold (isPdfName inputPath).
      by destruct (isPdfName inputPath).
  - destruct Hready as [?|Hmk]; [done|].
    rewrite Pipeline.bind_run. unfold mkdirSync, liftWrite.
    destruct (Fs.mkdirSync fs outputFolder) as [r fs1]. cbn [fst snd] in *. subst r.
    rewrite Pipeline.bind_run. unfold statIsDirectory, liftRead.
    destruct (Fs.statIsDirectory fs1 inputPath) as [[|]|message]; [| |done].
    + rewrite Pipeline.bind_run, Pipeline.bind_run. unfold readdirSync, liftRead.
      destruct (Fs.readdirSync fs1 inputPath) as [files|message]; [|done].
      unfold ret at 1. rewrite length_map. fold isPdfName.
      by destruct (length (List.filter isPdfName files) =? 0)%nat.
    + rewrite Pipeline.bind_run. fold (isPdfName inputPath).
      by destruct (isPdfName inputPath).
Qed.

Section Inputs.

Variable ext : External.
Variable rt : Runtime.
Variable pick : list PdfFile -> nat.

Lemma batchProcessPdfs_unresolved fuel inputPath options fs message :
  result (resolveInput inputPath (outputFolderOf options) fs) = Err message ->
  batchProcessPdfs ext rt pick fuel inputPath options fs
  = Some (mkBatchOutcome (Err message)
            (fsAfter (resolveInput inputPath (outputFolderOf options) fs))
            (map Pipe
               (events (resolveInput inputPath (outputFolderOf options) fs)
                  ++ [fatalError message]))).
Proof.
  intros H. unfold batchProcessPdfs. fold (outputFolderOf options).
  by rewrite H.
Qed.

(** An input that is neither a directory nor a path with the extension
    [.pdf] (in any case of letters): [batchProcessPdfs] has created the
    output folder when it was missing, and then throws; it writes the
    error line, starts no document and writes no summary. *)
Theorem batchProcessPdfs_rejects_other_files
  (fuel : nat) (inputPath : string) (options : BatchOptions.t) (fs : Fs.t) :
  outputFolderReady fs (outputFolderOf options) ->
  Fs.statIsDirectory (withOutputFolder fs (outputFolderOf options)) inputPath
  = Ok false ->
  Js.toLowerCase (Path.extname inputPath) <> ".pdf" ->
  batchProcessPdfs ext rt pick fuel inputPath options fs
  = Some (mkBatchOutcome
            (Err "Input must be a PDF file or directory containing PDF files")
            (withOutputFolder fs (outputFolderOf options))
            (map Pipe
               (outputFolderEvents fs (outputFolderOf options)
                  ++ [EError
                        ("Fatal error in batch processing: "
                           +:+ "Input must be a PDF file or directory containing PDF files")]))).
Proof.
  intros Hready Hstat Hext.
  pose proof (resolveInput_outcome inputPath _ fs Hready) as Hres.
  cbv zeta in Hres. rewrite Hstat in Hres.
  assert (isPdfName inputPath = false) as Hno by (by apply String.eqb_neq).
  rewrite Hno in Hres.
  rewrite (batchProcessPdfs_unresolved fuel inputPath options fs
             "Input must be a PDF file or directory containing PDF files");
    by rewrite Hres.
Qed.

(** A directory that lists no name with the extension [.pdf]: the batch
    throws [No PDF files found in the specified location], again without
    starting a document or writing a summary. *)
Theorem batchProcessPdfs_rejects_folder_without_pdf
  (fuel : nat) (inputPath : string) (options : BatchOptions.t) (fs : Fs.t)
  (files : list string) :
  outputFolderReady fs (outputFolderOf options) ->
  Fs.statIsDirectory (withOutputFolder fs (outputFolderOf options)) inputPath
  = Ok true ->
  Fs.readdirSync (withOutputFolder fs (outputFolderOf options)) inputPath
  = Ok files ->
  (forall file,
     file ∈ files -> Js.toLowerCase (Path.extname file) <> ".pdf") ->
  batchProcessPdfs ext rt pick fuel inputPath options fs
  = Some (mkBatchOutcome
            (Err "No PDF files found in the specified location")
            (withOutputFolder fs (outputFolderOf options))
            (map Pipe
               (outputFolderEvents fs (outputFolderOf options)
                  ++ [EError
                        ("Fatal error in batch processing: "
                           +:+ "No PDF files found in the specified location")]))).
Proof.
  intros Hready Hstat Hdir Hnone.
  pose proof (resolveInput_outcome inputPath _ fs Hready) as Hres.
  cbv zeta in Hres. rewrite Hstat, Hdir in Hres.
  assert (List.filter isPdfName files = []) as Hno.
  { clear -Hnone. induction files as [|file files IH]; [done|]. cbn.
    assert (isPdfName file = false) as ->.
    { apply String.eqb_neq, Hnone. by left. }
    apply IH. intros f Hf. apply Hnone. by right. }
  rewrite Hno in Hres. cbn [length Nat.eqb] in Hres.
  rewrite (batchProcessPdfs_unresolved fuel inputPath options fs
             "No PDF files found in the specified location");
    by rewrite Hres.
Qed.

Lemma resolveInput_nonempty inputPath outputFolder fs pdfFiles :
  result (resolveInput inputPath outputFolder fs) = Ok pdfFiles -> pdfFiles <> [].
Proof.
  unfold resolveInput. rewrite Pipeline.bind_run.
  destruct (existsSync outputFolder fs) as [[exists_|e] fs0 ev0]; [|done].
  rewrite Pipeline.bind_run.
  destruct (when (negb exists_) (mkdirSync outputFolder) fs0) as [[[]|e] fs1 ev1];
    [|done].
  rewrite Pipeline.bind_run.
  destruct (statIsDirectory inputPath fs1) as [[isDirectory|e] fs2 ev2]; [|done].
  rewrite Pipeline.bind_run.
  match goal with
  | |- context [match ?m fs2 with _ => _ end] =>
      destruct (m fs2) as [[l|e] fs3 ev3]; [|done]
  end.
  destruct l as [|pdf l]; cbn; [done|]. by intros [= <-].
Qed.

(** With [concurrent: 0] the loop of [batchProcessPdfs] does not advance:
    once the input has resolved to its PDF files the call never returns,
    whatever number of loop steps it is given. *)
Theorem batchProcessPdfs_zero_concurrency_never_returns
  (fuel : nat) (inputPath : string) (options : BatchOptions.t) (fs : Fs.t)
  (pdfFiles : list PdfFile) :
  result (resolveInput inputPath (outputFolderOf options) fs) = Ok pdfFiles ->
  BatchOptions.concurrent options = Some 0%nat ->
  batchProcessPdfs ext rt pick fuel inputPath options fs = None.
Proof.
  intros Hres Hzero. unfold batchProcessPdfs. fold (outputFolderOf options).
  rewrite Hres, Hzero. cbn [default from_option].
  rewrite chunkLoop_zero; [done|].
  by apply (resolveInput_nonempty inputPath (outputFolderOf options) fs).
Qed.

End Inputs.

(** A folder of notes, without any PDF file. *)
Definition notesFs : Fs.t :=
  Fs.mk (list_to_map [("notes", Fs.Dir);
                      ("notes/readme.txt", Fs.File "notes");
                      ("notes/pdf", Fs.File "not a PDF name")])
    Pipeline.noFaults.

Definition noneAtATime : BatchOptions.t :=
  BatchOptions.mk (Some "out") None None None None None (Some 0%nat).

Lemma batchProcessPdfs_rejects_other_files_witness :
  batchProcessPdfs onePage stopwatch secondFirst 4 "in/readme.txt" twoAtATime inboxFs
  = Some (mkBatchOutcome
            (Err "Input must be a PDF file or directory containing PDF files")
            (withOutputFolder inboxFs (outputFolderOf twoAtATime))
            (map Pipe
               (outputFolderEvents inboxFs (outputFolderOf twoAtATime)
                  ++ [EError
                        ("Fatal error in batch processing: "
                           +:+ "Input must be a PDF file or directory containing PDF files")]))).
Proof.
  refine (batchProcessPdfs_rejects_other_files onePage stopwatch secondFirst 4
            "in/readme.txt" twoAtATime inboxFs _ _ _).
  - right. vm_compute. reflexivity.
  - vm_compute. reflexivity.
  - vm_compute. discriminate.
Defined.

Lemma batchProcessPdfs_rejects_folder_without_pdf_witness :
  batchProcessPdfs onePage stopwatch secondFirst 4 "notes" twoAtATime notesFs
  = Some (mkBatchOutcome
            (Err "No PDF files found in the specified location")
            (withOutputFolder notesFs (outputFolderOf twoAtATime))
            (map Pipe
               (outputFolderEvents notesFs (outputFolderOf twoAtATime)
                  ++ [EError
                        ("Fatal error in batch processing: "
                           +:+ "No PDF files found in the specified location")]))).
Proof.
  refine (batchProcessPdfs_rejects_folder_without_pdf onePage stopwatch secondFirst
            4 "notes" twoAtATime notesFs ["readme.txt"; "pdf"] _ _ _ _).
  - right. vm_compute. reflexivity.
  - vm_compute. reflexivity.
  - vm_compute. reflexivity.
  - intros file Hin. apply list_elem_of_In in Hin.
    destruct Hin as [<-|[<-|[]]]; vm_compute; discriminate.
Defined.

Lemma batchProcessPdfs_zero_concurrency_never_returns_witness :
  batchProcessPdfs onePage stopwatch secondFirst 1000 "in" noneAtATime inboxFs = None.
Proof.
  refine (batchProcessPdfs_zero_concurrency_never_returns onePage stopwatch
            secondFirst 1000 "in" noneAtATime inboxFs inboxPdfs _ _).
  - vm_compute. reflexivity.
  - reflexivity.
Defined.

(** ** The files of a document *)

(** Two different entries of the input directory whose names end in
    [.pdf], in lower case, get different text files and different folders
    of page images. *)
Theorem lower_case_pdf_names_get_files_of_their_own
  (inputPath outputFolder : string) (options : BatchOptions.t)
  (file1 file2 : string) :
  String.index 0 "/" file1 = None ->
  String.index 0 "/" file2 = None ->
  Js.endsWith file1 ".pdf" = true ->
  Js.endsWith file2 ".pdf" = true ->
  file1 <> file2 ->
  let o1 := textOptionsFor outputFolder options (pdfOf inputPath file1) in
  let o2 := textOptionsFor outputFolder options (pdfOf inputPath file2) in
  TextOptions.outputText o1 <> TextOptions.outputText o2
  /\ TextOptions.tempImagesFolder o1 <> TextOptions.tempImagesFolder o2.
Proof.
  intros H1 H2 E1 E2 Hdiff. cbv zeta.
  apply index_slashFree in H1, H2.
  pose proof (basename_suffix file1 ".pdf" H1 ltac:(done) E1) as B1.
  pose proof (basename_suffix file2 ".pdf" H2 ltac:(done) E2) as B2.
  assert (Path.basename file1 ".pdf" <> Path.basename file2 ".pdf") as Hb.
  { intros E. apply Hdiff. rewrite <- B1, <- B2. by rewrite E. }
  unfold textOptionsFor, pdfOf.
  cbn [TextOptions.outputText TextOptions.tempImagesFolder basename].
  split; intros [= E]; apply Hb.
  - apply join_inj in E; [|by apply append_nonempty..].
    by apply append_inj_r in E.
  - apply join_inj in E; [|by apply append_nonempty..].
    by apply append_inj_r in E.
Qed.

Lemma lower_case_pdf_names_get_files_of_their_own_witness :
  TextOptions.outputText (textOptionsFor "out" twoAtATime (pdfOf "in" "a.pdf"))
  <> TextOptions.outputText (textOptionsFor "out" twoAtATime (pdfOf "in" "b.pdf")).
Proof.
  refine (proj1 (lower_case_pdf_names_get_files_of_their_own "in" "out" twoAtATime
                   "a.pdf" "b.pdf" _ _ _ _ _)).
  - vm_compute. reflexivity.
  - vm_compute. reflexivity.
  - vm_compute. reflexivity.
  - vm_compute. reflexivity.
  - discriminate.
Defined.

(** Without the lower case it fails: both names below pass the filter of
    the directory scan and are given the same text file. *)
Example mixed_case_names_share_a_text_file :
  isPdfName "x.PDF" = true
  /\ isPdfName "x.PDF.pdf" = true
  /\ TextOptions.outputText (textOptionsFor "out" twoAtATime (pdfOf "in" "x.PDF"))
     = Some "out/x.PDF_ocr.txt"
  /\ TextOptions.outputText (textOptionsFor "out" twoAtATime (pdfOf "in" "x.PDF.pdf"))
     = Some "out/x.PDF_ocr.txt".
Proof. vm_compute. repeat split; reflexivity. Qed.

End BatchInputs.

(** ** More about [cli/file-cleaner.js] *)

Module CleanerRuns.

Import Disk Cleaner CleanerFacts.
#[local] Open Scope list_scope.

(** What one area alone would report and leave, from the tree [w]. *)
Definition sweepArea (s : Settings) (baseDir : string) (a : Area) (w : World)
  : Cleaned * list string * World :=
  sweep (dryRun s) baseDir (areaName a) (threshold s a) (areaPattern a) w.

Definition areaCount (a : Area) (t : CleanupStats) : nat :=
  match a with
  | Uploads => uploadsCleaned t
  | Outputs => outputsCleaned t
  | Temp => tempsCleaned t
  | Logs => logsCleaned t
  end.

(** The total of the sizes [getDiskUsage] reports. *)
Definition usageTotal (w : World) : Z :=
  foldr (fun entry total => (usageSize entry.2 + total)%Z) 0%Z (getDiskUsage w).

Definition usageOf (a : Area) (w : World) : Z :=
  from_option getDirectorySize 0%Z (base w !! areaName a).

Lemma sweep_now dry baseDir name maxAgeMs filePattern w :
  now (sweep dry baseDir name maxAgeMs filePattern w).2 = now w.
Proof.
  unfold sweep. by destruct (base w !! name) as [[| |]|].
Qed.

Lemma sweep_lookup_ne dry baseDir name maxAgeMs filePattern w name' :
  name' <> name ->
  base (sweep dry baseDir name maxAgeMs filePattern w).2 !! name' = base w !! name'.
Proof.
  intros Hne. unfold sweep.
  destruct (base w !! name) as [[| |]|]; cbn [snd base]; try done.
  by rewrite lookup_insert_ne.
Qed.

(** A sweep reads its own directory and the clock, nothing else. *)
Lemma sweep_ext dry baseDir name maxAgeMs filePattern w1 w2 :
  base w1 !! name = base w2 !! name ->
  now w1 = now w2 ->
  (sweep dry baseDir name maxAgeMs filePattern w1).1
  = (sweep dry baseDir name maxAgeMs filePattern w2).1
  /\ base (sweep dry baseDir name maxAgeMs filePattern w1).2 !! name
     = base (sweep dry baseDir name maxAgeMs filePattern w2).2 !! name.
Proof.
  intros Hl Hn. unfold sweep. rewrite <- Hl, <- Hn.
  destruct (base w1 !! name) as [[| |]|] eqn:E; cbn [fst snd base];
    rewrite ?lookup_insert_eq; try done.
  all: by rewrite <- Hl.
Qed.

Lemma areaName_inj a a' : areaName a = areaName a' -> a = a'.
Proof. by destruct a, a'. Qed.

(** The four sweeps of a run do not see each other. *)
Lemma tally_independent s baseDir w :
  let t := (tally s baseDir w).1 in
  let w' := (tally s baseDir w).2 in
  (forall a, areaCount a t = count (sweepArea s baseDir a w).1.1)
  /\ totalSizeFreed t
     = (cleanedSize (sweepArea s baseDir Uploads w).1.1
        + cleanedSize (sweepArea s baseDir Outputs w).1.1
        + cleanedSize (sweepArea s baseDir Temp w).1.1
        + cleanedSize (sweepArea s baseDir Logs w).1.1)%Z
  /\ statsErrors t
     = (sweepArea s baseDir Uploads w).1.2 ++ (sweepArea s baseDir Outputs w).1.2
       ++ (sweepArea s baseDir Temp w).1.2 ++ (sweepArea s baseDir Logs w).1.2
  /\ now w' = now w
  /\ (forall a, base w' !! areaName a = base (sweepArea s baseDir a w).2 !! areaName a)
  /\ (forall name, (forall a, name <> areaName a) -> base w' !! name = base w !! name).
Proof.
  cbv zeta. unfold tally, sweepArea. cbn [areaPattern areaName].
  set (r1 := sweep (dryRun s) baseDir "uploads" (threshold s Uploads) None w).
  pose proof (sweep_now (dryRun s) baseDir "uploads" (threshold s Uploads) None w) as N1.
  pose proof (fun n => sweep_lookup_ne (dryRun s) baseDir "uploads"
                         (threshold s Uploads) None w n) as L1.
  fold r1 in N1, L1. destruct r1 as [[c1 l1] w1] eqn:E1. cbn [fst snd] in *.
  destruct (sweep_ext (dryRun s) baseDir "output" (threshold s Outputs) None w1 w)
    as [X2 Y2]; [by apply L1|done|].
  set (r2 := sweep (dryRun s) baseDir "output" (threshold s Outputs) None w1) in *.
  pose proof (sweep_now (dryRun s) baseDir "output" (threshold s Outputs) None w1) as N2.
  pose proof (fun n => sweep_lookup_ne (dryRun s) baseDir "output"
                         (threshold s Outputs) None w1 n) as L2.
  fold r2 in N2, L2. destruct r2 as [[c2 l2] w2] eqn:E2. cbn [fst snd] in *.
  destruct (sweep_ext (dryRun s) baseDir "temp" (threshold s Temp) None w2 w)
    as [X3 Y3]; [by rewrite L2, L1|congruence|].
  set (r3 := sweep (dryRun s) baseDir "temp" (threshold s Temp) None w2) in *.
  pose proof (sweep_now (dryRun s) baseDir "temp" (threshold s Temp) None w2) as N3.
  pose proof (fun n => sweep_lookup_ne (dryRun s) baseDir "temp"
                         (threshold s Temp) None w2 n) as L3.
  fold r3 in N3, L3. destruct r3 as [[c3 l3] w3] eqn:E3. cbn [fst snd] in *.
  destruct (sweep_ext (dryRun s) baseDir "logs" (threshold s Logs) (Some logPattern) w3 w)
    as [X4 Y4]; [by rewrite L3, L2, L1|congruence|].
  set (r4 := sweep (dryRun s) baseDir "logs" (threshold s Logs) (Some logPattern) w3) in *.
  pose proof (sweep_now (dryRun s) baseDir "logs" (threshold s Logs) (Some logPattern) w3) as N4.
  pose proof (fun n => sweep_lookup_ne (dryRun s) baseDir "logs"
                         (threshold s Logs) (Some logPattern) w3 n) as L4.
  fold r4 in N4, L4. destruct r4 as [[c4 l4] w4] eqn:E4. cbn [fst snd] in *.
  destruct (sweep (dryRun s) baseDir "output" (threshold s Outputs) None w)
    as [[c2' l2'] w2'] eqn:F2.
  destruct (sweep (dryRun s) baseDir "temp" (threshold s Temp) None w)
    as [[c3' l3'] w3'] eqn:F3.
  destruct (sweep (dryRun s) baseDir "logs" (threshold s Logs) (Some logPattern) w)
    as [[c4' l4'] w4'] eqn:F4.
  cbn [fst snd] in *. simplify_eq.
  split.
  { intros []; cbn [areaName areaPattern areaCount uploadsCleaned outputsCleaned
                    tempsCleaned logsCleaned];
      rewrite ?E1, ?F2, ?F3, ?F4; reflexivity. }
  split; [done|]. split; [done|].
  split; [congruence|]. split.
  - intros []; cbn [areaName areaPattern]; rewrite ?E1, ?F2, ?F3, ?F4; cbn [snd].
    + by rewrite L4, L3, L2.
    + by rewrite L4, L3.
    + by rewrite L4.
    + done.
  - intros name Hn. rewrite L4, L3, L2, L1; [done|..].
    + apply (Hn Uploads). + apply (Hn Outputs). + apply (Hn Temp). + apply (Hn Logs).
Qed.

Lemma filter_sublist {A} (f : A -> bool) (l : list A) : List.filter f l `sublist_of` l.
Proof.
  induction l as [|x l IH]; cbn; [constructor|].
  destruct (f x); by constructor.
Qed.

Lemma filter_keeps {A} (f : A -> bool) (l : list A) x :
  x ∈ l -> f x = true -> x ∈ List.filter f l.
Proof.
  intros Hin Hf. apply list_elem_of_In, List.filter_In. split; [|done].
  by apply list_elem_of_In.
Qed.

Lemma filter_twice_none {A} (f : A -> bool) (l : list A) :
  List.filter f (List.filter (fun x => negb (f x)) l) = [].
Proof.
  induction l as [|x l IH]; [done|]. cbn.
  destruct (f x) eqn:E; cbn; [done|]. by rewrite E.
Qed.

Lemma filter_twice_same {A} (f : A -> bool) (l : list A) :
  List.filter f (List.filter f l) = List.filter f l.
Proof.
  induction l as [|x l IH]; [done|]. cbn.
  destruct (f x) eqn:E; cbn; [|done]. by rewrite E, IH.
Qed.

Lemma sizeOf_split (f : string * Node -> bool) files :
  sizeOf files
  = (sizeOf (List.filter f files)
     + sizeOf (List.filter (fun entry => negb (f entry)) files))%Z.
Proof.
  induction files as [|entry files IH]; [done|]. cbn [List.filter].
  destruct (f entry); cbn [negb]; rewrite !sizeOf_cons; lia.
Qed.

Lemma getDirectorySize_entries m e files :
  getDirectorySize (Dir m e files) = sizeOf files.
Proof.
  induction files as [|[file node] files IH]; [done|].
  rewrite sizeOf_cons, <- IH. cbn [snd]. unfold entrySize.
  cbn [getDirectorySize]. by destruct (stat node).
Qed.

(** A counted entry of a real run has no refused deletion. *)
Lemma counted_no_error now maxAgeMs filePattern entry :
  counted false now maxAgeMs filePattern entry = true ->
  deletionError false now maxAgeMs filePattern entry = None.
Proof.
  unfold counted, deletionError, deletable.
  destruct (eligible now maxAgeMs filePattern entry); [|done]. cbn.
  by destruct (deleteErrorOf entry.2).
Qed.

Lemma omap_filter_kept now maxAgeMs filePattern files :
  omap (deletionError false now maxAgeMs filePattern)
    (List.filter (fun entry => negb (counted false now maxAgeMs filePattern entry))
       files)
  = omap (deletionError false now maxAgeMs filePattern) files.
Proof.
  induction files as [|entry files IH]; [done|]. cbn [List.filter].
  destruct (counted false now maxAgeMs filePattern entry) eqn:E; cbn [negb].
  - cbn [omap list_omap]. by rewrite (counted_no_error _ _ _ _ E).
  - cbn [omap list_omap]. by rewrite IH.
Qed.

(** A real sweep of a swept directory finds nothing more to delete. *)
Lemma sweep_again baseDir name maxAgeMs filePattern w :
  let r := sweep false baseDir name maxAgeMs filePattern w in
  sweep false baseDir name maxAgeMs filePattern r.2 = (mkCleaned 0 0, r.1.2, r.2).
Proof.
  cbv zeta. unfold sweep at 2 3 4.
  destruct (base w !! name) as [[m s e|m e files|]|] eqn:E; cbn [fst snd].
  - unfold sweep. by rewrite E.
  - unfold sweep. cbn [base now]. rewrite lookup_insert_eq.
    rewrite filter_twice_none, omap_filter_kept. cbn [length sizeOf foldr].
    rewrite insert_insert_eq.
    by rewrite (filter_twice_same
                  (fun entry => negb (counted false (now w) maxAgeMs filePattern entry))).
  - unfold sweep. by rewrite E.
  - unfold sweep. by rewrite E.
Qed.

Lemma sweep_usage dry baseDir name maxAgeMs filePattern w :
  (from_option getDirectorySize 0 (base w !! name)
   - from_option getDirectorySize 0
       (base (sweep dry baseDir name maxAgeMs filePattern w).2 !! name))%Z
  = if dry then 0%Z
    else cleanedSize (sweep dry baseDir name maxAgeMs filePattern w).1.1.
Proof.
  unfold sweep.
  destruct (base w !! name) as [[m s e|m e files|]|] eqn:E;
    cbn [fst snd base cleanedSize]; rewrite ?E; try (destruct dry; cbn; lia).
  rewrite lookup_insert_eq. cbn [from_option]. rewrite !getDirectorySize_entries.
  destruct dry; [lia|].
  rewrite (sizeOf_split (counted false (now w) maxAgeMs filePattern) files). lia.
Qed.

Lemma usageTotal_areas w :
  usageTotal w
  = (usageOf Uploads w + usageOf Outputs w + usageOf Temp w + usageOf Logs w)%Z.
Proof. unfold usageTotal, getDiskUsage, usageOf. cbn. lia. Qed.

Lemma area_cases name :
  (exists a, name = areaName a) \/ (forall a, name <> areaName a).
Proof.
  destruct (decide (name = "uploads")) as [->|H1]; [left; by exists Uploads|].
  destruct (decide (name = "output")) as [->|H2]; [left; by exists Outputs|].
  destruct (decide (name = "temp")) as [->|H3]; [left; by exists Temp|].
  destruct (decide (name = "logs")) as [->|H4]; [left; by exists Logs|].
  right. by intros [].
Qed.

Lemma world_eq w1 w2 :
  now w1 = now w2 -> (forall name, base w1 !! name = base w2 !! name) -> w1 = w2.
Proof.
  destruct w1, w2. cbn. intros -> H. f_equal. by apply map_eq.
Qed.

(** ** What a run leaves on disk *)

(** The entries of an area whose deletion a real run can leave half done:
    the directories that the operating system refuses to delete. *)
Definition refusedDirectory (entry : string * Node) : bool :=
  match entry.2 with
  | Dir _ (Some _) _ => true
  | _ => false
  end.

(** No directory directly below one of the four areas refuses its
    deletion.  On such a tree a refused deletion is that of a file, which
    [unlink] leaves as it was. *)
Definition directoriesDeletable (w : World) : bool :=
  forallb
    (fun a =>
       match base w !! areaName a with
       | Some (Dir _ _ files) => negb (existsb refusedDirectory files)
       | _ => true
       end)
    [Uploads; Outputs; Temp; Logs].

Lemma filter_names_sublist {A B} (f : A -> bool) (g : A -> B) (l : list A) :
  map g (List.filter f l) `sublist_of` map g l.
Proof.
  induction l as [|x l IH]; cbn; [constructor|].
  destruct (f x); cbn; by constructor.
Qed.

(** Outside the four areas nothing changes; in an area a run brings no new
    name (the names left are names that were there, in the same order),
    and it leaves as they were the placeholder, a file of the logs area
    that is not a log, an entry whose stats cannot be read, and an entry
    that is not older than the threshold of the area. *)
Theorem runCleanup_spares_protected_entries (this : FileCleaner) (w : World) :
  let w' := (runCleanup this w).2 in
  (forall name,
     name ∉ ["uploads"; "output"; "temp"; "logs"] ->
     base w' !! name = base w !! name)
  /\ (forall a,
        match base w !! areaName a with
        | Some (Dir m e files) =>
            exists m' e' files',
              base w' !! areaName a = Some (Dir m' e' files')
              /\ map fst files' `sublist_of` map fst files
              /\ (forall entry,
                    entry ∈ files ->
                    (entry.1 = ".gitkeep"
                     \/ (a = Logs /\ Js.endsWith entry.1 ".log" = false)
                     \/ stat entry.2 = None
                     \/ (exists stats,
                           stat entry.2 = Some stats
                           /\ (now w - mtime stats
                               <= threshold (settings this) a)%Z)) ->
                    entry ∈ files')
        | other => base w' !! areaName a = other
        end).
Proof.
  cbv zeta. rewrite runCleanup_tally.
  destruct (tally_independent (settings this) (cleanerBaseDir this) w)
    as (_ & _ & _ & _ & Harea & Hother).
  destruct (tally (settings this) (cleanerBaseDir this) w) as [t w'].
  cbn [fst snd] in *.
  split.
  - intros name Hname. apply Hother. intros a ->. apply Hname.
    destruct a; cbn; set_solver.
  - intros a. rewrite Harea. unfold sweepArea, sweep.
    destruct (base w !! areaName a) as [[m s e|m e files|]|] eqn:E;
      cbn [snd base]; try done.
    eexists _, _, _. split; [apply lookup_insert_eq|].
    destruct (dryRun (settings this)); [split; [done|tauto]|].
    split; [apply filter_names_sublist|].
    intros entry Hin Hwhy. apply filter_keeps; [done|].
    apply negb_true_iff, not_true_iff_false. rewrite counted_iff.
    intros (H1 & H2 & (stats & Hs & Hage) & _).
    destruct Hwhy as [Hk|[[-> Hlog]|[Hnone|(stats' & Hs' & Hage')]]].
    + done.
    + change (Js.endsWith entry.1 ".log" = true) in H2. congruence.
    + congruence.
    + rewrite Hs in Hs'. injection Hs' as <-. lia.
Qed.

(** ** A real run is thorough *)

(** On a tree in which no directory refuses its deletion: after a real
    run, a second cleaner with the same options, run on the tree the first
    one left and at the same clock reading, deletes nothing and counts
    nothing: whatever was old enough is gone, except the files that cannot
    be deleted, which are reported again.  (A directory that refuses its
    deletion may be left half deleted and with a new modification time, so
    that the second run would pass it over without an error.) *)
Theorem second_real_run_finds_nothing (this : FileCleaner) (w : World) :
  dryRun (settings this) = false ->
  directoriesDeletable w = true ->
  let first := runCleanup (fresh this) w in
  let second := runCleanup (fresh this) first.2 in
  second.2 = first.2
  /\ uploadsCleaned second.1.1 = 0%nat
  /\ outputsCleaned second.1.1 = 0%nat
  /\ tempsCleaned second.1.1 = 0%nat
  /\ logsCleaned second.1.1 = 0%nat
  /\ totalSizeFreed second.1.1 = 0%Z
  /\ statsErrors second.1.1 = statsErrors first.1.1.
Proof.
  intros Hreal _. cbv zeta. unfold fresh. rewrite (runCleanup_tally _ w).
  cbn [settings cleanerBaseDir withStats stats].
  set (s := settings this) in *. set (b := cleanerBaseDir this).
  destruct (tally_independent s b w) as (_ & _ & He1 & Hn1 & Ha1 & Ho1).
  destruct (tally s b w) as [t1 w1]. cbn [fst snd] in *.
  rewrite runCleanup_tally. cbn [settings cleanerBaseDir withStats stats].
  fold s b.
  destruct (tally_independent s b w1) as (Hc2 & Hz2 & He2 & Hn2 & Ha2 & Ho2).
  destruct (tally s b w1) as [t2 w2]. cbn [fst snd] in *.
  assert (Hsw : forall a,
            (sweepArea s b a w1).1 = (mkCleaned 0 0, (sweepArea s b a w).1.2)
            /\ base (sweepArea s b a w1).2 !! areaName a = base w1 !! areaName a).
  { intros a. specialize (Ha1 a). unfold sweepArea in *.
    rewrite Hreal in Ha1 |- *.
    destruct (sweep_ext false b (areaName a) (threshold s a) (areaPattern a) w1
                (sweep false b (areaName a) (threshold s a) (areaPattern a) w).2)
      as [X Y].
    - exact Ha1.
    - by rewrite sweep_now.
    - rewrite X, Y, sweep_again. cbn [fst snd]. by rewrite Ha1. }
  split.
  { apply world_eq; [congruence|]. intros name.
    destruct (area_cases name) as [[a ->]|Hname].
    - rewrite Ha2. apply Hsw.
    - by apply Ho2. }
  pose proof (Hc2 Uploads) as U. pose proof (Hc2 Outputs) as O.
  pose proof (Hc2 Temp) as T. pose proof (Hc2 Logs) as L.
  cbn [areaCount] in U, O, T, L.
  rewrite (proj1 (Hsw Uploads)) in U, Hz2, He2.
  rewrite (proj1 (Hsw Outputs)) in O, Hz2, He2.
  rewrite (proj1 (Hsw Temp)) in T, Hz2, He2.
  rewrite (proj1 (Hsw Logs)) in L, Hz2, He2.
  cbn [fst snd count cleanedSize] in *.
  cbn [accumulate zeroStats uploadsCleaned outputsCleaned tempsCleaned logsCleaned
       totalSizeFreed statsErrors].
  repeat split; try done.
  - cbn [app]. by rewrite He2, He1.
Qed.

(** An uploads folder after the old upload of [plainWorld] could not be
    deleted, and a temp folder with an old directory of page images. *)
Definition busyWorld : World :=
  mkWorld
    {[ "uploads" :=
         Dir 0 None
           [(".gitkeep", File 0 0 None);
            ("old.pdf", File 0 10 (Some "EBUSY: resource busy or locked, unlink"));
            ("new.pdf", File (10 * day) 20 None)];
       "temp" :=
         Dir 0 None
           [("a_images",
             Dir 0 None [("page_001.png", File (10 * day) 300 None);
                         ("page_002.png", File (10 * day) 400 None)])] ]}
    (10 * day).

Lemma second_real_run_finds_nothing_witness :
  (runCleanup (fresh appCleaner) (runCleanup (fresh appCleaner) busyWorld).2).2
  = (runCleanup (fresh appCleaner) busyWorld).2.
Proof.
  refine (proj1 (second_real_run_finds_nothing appCleaner busyWorld _ _)).
  - vm_compute. reflexivity.
  - vm_compute. reflexivity.
Defined.

Example busy_first_run :
  (runCleanup appCleaner busyWorld).1.1
  = mkCleanupStats 0 0 1 0 700 ["old.pdf: EBUSY: resource busy or locked, unlink"].
Proof. vm_compute. reflexivity. Qed.

(** ** Dry runs and real runs *)

Definition setDryRun (options : CleanerOptions.t) (dryRun : bool)
  : CleanerOptions.t :=
  CleanerOptions.mk (CleanerOptions.uploadsRetentionDays options)
    (CleanerOptions.outputRetentionDays options)
    (CleanerOptions.tempRetentionHours options)
    (CleanerOptions.logsRetentionDays options)
    (Some dryRun)
    (CleanerOptions.verbose options)
    (CleanerOptions.baseDir options).

Lemma constructor_setDryRun dirname options dry :
  exists s,
    settings (constructor dirname (setDryRun options true))
    = mkSettings (uploadsRetentionDays s) (outputRetentionDays s)
        (tempRetentionHours s) (logsRetentionDays s) true (verbose s)
    /\ settings (constructor dirname (setDryRun options dry))
       = mkSettings (uploadsRetentionDays s) (outputRetentionDays s)
           (tempRetentionHours s) (logsRetentionDays s) dry (verbose s)
    /\ cleanerBaseDir (constructor dirname (setDryRun options true))
       = cleanerBaseDir (constructor dirname (setDryRun options dry)).
Proof. by exists (settings (constructor dirname options)). Qed.

Lemma filter_length_le {A} (f g : A -> bool) (l : list A) :
  (forall x, f x = true -> g x = true) ->
  (length (List.filter f l) <= length (List.filter g l))%nat.
Proof.
  intros H. induction l as [|x l IH]; [done|]. cbn.
  destruct (f x) eqn:E.
  - rewrite (H x E). cbn. lia.
  - destruct (g x); cbn; lia.
Qed.

Lemma sweep_dry_count_le baseDir name maxAgeMs filePattern w :
  (count (sweep false baseDir name maxAgeMs filePattern w).1.1
   <= count (sweep true baseDir name maxAgeMs filePattern w).1.1)%nat.
Proof.
  unfold sweep. destruct (base w !! name) as [[| |]|]; cbn [fst count]; try lia.
  apply filter_length_le. intros x. unfold counted.
  rewrite !andb_true_iff. tauto.
Qed.

(** A dry run counts, in every area, at least the entries that the real
    run with the same options deletes from the same tree. *)
Theorem dry_run_counts_at_least_the_real_run
  (dirname : string) (options : CleanerOptions.t) (w : World) (a : Area) :
  let real := runCleanup (constructor dirname (setDryRun options false)) w in
  let dry := runCleanup (constructor dirname (setDryRun options true)) w in
  (areaCount a real.1.1 <= areaCount a dry.1.1)%nat.
Proof.
  cbv zeta. rewrite !runCleanup_tally.
  destruct (constructor_setDryRun dirname options false) as (s & -> & -> & ->).
  set (b := cleanerBaseDir _). set (sr := mkSettings _ _ _ _ false _).
  set (sd := mkSettings _ _ _ _ true _).
  destruct (tally_independent sr b w) as (Hr & _).
  destruct (tally_independent sd b w) as (Hd & _).
  destruct (tally sr b w) as [tr wr], (tally sd b w) as [td wd].
  cbn [fst snd] in *.
  assert (forall t, areaCount a (accumulate zeroStats t) = areaCount a t) as ->
    by (intros t; by destruct a).
  assert (forall t, areaCount a (accumulate zeroStats t) = areaCount a t) as ->
    by (intros t; by destruct a).
  rewrite Hr, Hd. unfold sweepArea. cbn [dryRun sr sd].
  change (threshold sd a) with (threshold sr a).
  apply sweep_dry_count_le.
Qed.

Lemma deletionError_dry now maxAgeMs filePattern files :
  omap (deletionError true now maxAgeMs filePattern) files = [].
Proof.
  induction files as [|entry files IH]; [done|]. cbn [omap list_omap].
  unfold deletionError at 1. by rewrite andb_false_r.
Qed.

Lemma counted_without_refusal now maxAgeMs filePattern files :
  omap (deletionError false now maxAgeMs filePattern) files = [] ->
  List.filter (counted true now maxAgeMs filePattern) files
  = List.filter (counted false now maxAgeMs filePattern) files.
Proof.
  induction files as [|[file node] files IH]; [done|].
  cbn [omap list_omap List.filter].
  rewrite !counted_head, deletionError_head. unfold deletable.
  destruct (eligible now maxAgeMs filePattern (file, node)); cbn [andb negb orb].
  - destruct (deleteErrorOf node); cbn; [done|]. intros H. by rewrite IH.
  - intros H. by rewrite IH.
Qed.

Lemma sweep_dry_eq baseDir name maxAgeMs filePattern w :
  (sweep false baseDir name maxAgeMs filePattern w).1.2 = [] ->
  (sweep true baseDir name maxAgeMs filePattern w).1
  = (sweep false baseDir name maxAgeMs filePattern w).1.
Proof.
  unfold sweep. destruct (base w !! name) as [[| |]|]; cbn [fst snd]; try done.
  intros H. by rewrite deletionError_dry, H, (counted_without_refusal _ _ _ _ H).
Qed.

(** When the real run meets no error, the dry run with the same options
    on the same tree reports exactly the same [CleanupStats]. *)
Theorem dry_run_predicts_clean_real_run
  (dirname : string) (options : CleanerOptions.t) (w : World) :
  let real := runCleanup (constructor dirname (setDryRun options false)) w in
  let dry := runCleanup (constructor dirname (setDryRun options true)) w in
  statsErrors real.1.1 = [] ->
  dry.1.1 = real.1.1.
Proof.
  cbv zeta. rewrite !runCleanup_tally.
  destruct (constructor_setDryRun dirname options false) as (s & -> & -> & ->).
  set (b := cleanerBaseDir _). set (sr := mkSettings _ _ _ _ false _).
  set (sd := mkSettings _ _ _ _ true _).
  destruct (tally_independent sr b w) as (Hr & Hzr & Her & _).
  destruct (tally_independent sd b w) as (Hd & Hzd & Hed & _).
  destruct (tally sr b w) as [tr wr], (tally sd b w) as [td wd].
  cbn [fst snd] in *.
  change (stats (constructor dirname (setDryRun options false))) with zeroStats.
  change (stats (constructor dirname (setDryRun options true))) with zeroStats.
  cbn [accumulate zeroStats statsErrors app]. intros Hnone.
  rewrite Hnone in Her. symmetry in Her.
  apply app_eq_nil in Her as [E1 Her]. apply app_eq_nil in Her as [E2 Her].
  apply app_eq_nil in Her as [E3 E4].
  assert (Hsame : forall a, (sweepArea sr b a w).1.2 = [] ->
                            (sweepArea sd b a w).1 = (sweepArea sr b a w).1).
  { intros a. unfold sweepArea. cbn [dryRun sr sd].
    change (threshold sd a) with (threshold sr a). apply sweep_dry_eq. }
  pose proof (Hr Uploads) as U. pose proof (Hr Outputs) as O.
  pose proof (Hr Temp) as T. pose proof (Hr Logs) as L.
  pose proof (Hd Uploads) as U'. pose proof (Hd Outputs) as O'.
  pose proof (Hd Temp) as T'. pose proof (Hd Logs) as L'.
  rewrite (Hsame Uploads E1) in U', Hzd, Hed.
  rewrite (Hsame Outputs E2) in O', Hzd, Hed.
  rewrite (Hsame Temp E3) in T', Hzd, Hed.
  rewrite (Hsame Logs E4) in L', Hzd, Hed.
  cbn [areaCount] in *.
  rewrite E1, E2, E3, E4 in Hed. cbn [app] in Hed.
  destruct tr, td. cbn in *. f_equal; congruence.
Qed.

Lemma dry_run_predicts_clean_real_run_witness :
  (runCleanup (constructor "/app/cli" (setDryRun CleanerOptions.none true))
     plainWorld).1.1
  = (runCleanup (constructor "/app/cli" (setDryRun CleanerOptions.none false))
       plainWorld).1.1.
Proof.
  refine (dry_run_predicts_clean_real_run "/app/cli" CleanerOptions.none
            plainWorld _).
  vm_compute. reflexivity.
Defined.

(** ** Bytes reported and bytes on disk *)

(** On a tree in which no directory refuses its deletion, the bytes a real
    run adds to [totalSizeFreed] are exactly the bytes by which the sizes
    reported by [getDiskUsage] go down; after a dry run these sizes are
    what they were, on any tree.  (A directory that refuses its deletion
    may have lost entries all the same, which [totalSizeFreed] does not
    count.) *)
Theorem real_run_frees_what_it_reports (this : FileCleaner) (w : World) :
  dryRun (settings this) || directoriesDeletable w = true ->
  let run := runCleanup this w in
  (usageTotal w - usageTotal run.2)%Z
  = if dryRun (settings this) then 0%Z
    else (totalSizeFreed run.1.1 - totalSizeFreed (stats this))%Z.
Proof.
  intros _. cbv zeta. rewrite runCleanup_tally.
  set (s := settings this). set (b := cleanerBaseDir this).
  destruct (tally_independent s b w) as (_ & Hz & _ & _ & Ha & _).
  destruct (tally s b w) as [t w']. cbn [fst snd] in *.
  rewrite !usageTotal_areas. unfold usageOf. rewrite !Ha.
  cbn [accumulate totalSizeFreed]. rewrite Hz. unfold sweepArea.
  pose proof (sweep_usage (dryRun s) b (areaName Uploads) (threshold s Uploads)
                (areaPattern Uploads) w) as U.
  pose proof (sweep_usage (dryRun s) b (areaName Outputs) (threshold s Outputs)
                (areaPattern Outputs) w) as O.
  pose proof (sweep_usage (dryRun s) b (areaName Temp) (threshold s Temp)
                (areaPattern Temp) w) as T.
  pose proof (sweep_usage (dryRun s) b (areaName Logs) (threshold s Logs)
                (areaPattern Logs) w) as L.
  destruct (dryRun s); lia.
Qed.

Lemma real_run_frees_what_it_reports_witness :
  (usageTotal busyWorld - usageTotal (runCleanup appCleaner busyWorld).2)%Z
  = (totalSizeFreed (runCleanup appCleaner busyWorld).1.1 - 0)%Z.
Proof.
  refine (real_run_frees_what_it_reports appCleaner busyWorld _).
  vm_compute. reflexivity.
Defined.

(** ** One cleaner run again and again *)

(** The runs of one cleaner, as the server schedules them: [trees] are the
    trees (and clock readings) found by the successive runs. *)
Fixpoint scheduledRuns (this : FileCleaner) (trees : list World) : FileCleaner :=
  match trees with
  | [] => this
  | w :: rest => scheduledRuns (runCleanup this w).1.2 rest
  end.

Definition sumZ (l : list Z) : Z := foldr Z.add 0%Z l.

Lemma fresh_runCleanup this w : fresh (runCleanup this w).1.2 = fresh this.
Proof.
  rewrite runCleanup_tally.
  by destruct (tally (settings this) (cleanerBaseDir this) w).
Qed.

(** The statistics of a cleaner that is run repeatedly are never reset:
    after any number of runs, [totalSizeFreed] is the sum of the bytes of
    every run so far and [errors] holds the error lines of every run so
    far, in order; the options and the base directory do not change. *)
Theorem scheduledRuns_never_reset (this : FileCleaner) (trees : list World) :
  let alone w := (runCleanup (fresh this) w).1.1 in
  let final := scheduledRuns this trees in
  settings final = settings this
  /\ cleanerBaseDir final = cleanerBaseDir this
  /\ totalSizeFreed (stats final)
     = (totalSizeFreed (stats this)
        + sumZ (map (fun w => totalSizeFreed (alone w)) trees))%Z
  /\ statsErrors (stats final)
     = statsErrors (stats this)
       ++ concat (map (fun w => statsErrors (alone w)) trees).
Proof.
  cbv zeta. revert this. induction trees as [|w trees IH]; intros this.
  - cbn. split; [done|]. split; [done|]. split; [lia|]. by rewrite app_nil_r.
  - cbn [scheduledRuns map concat].
    change (sumZ (?x :: ?l)) with (x + sumZ l)%Z.
    destruct (IH (runCleanup this w).1.2) as (I1 & I2 & I3 & I4).
    rewrite fresh_runCleanup in I3, I4. rewrite I1, I2, I3, I4.
    generalize (sumZ (map (fun w0 => totalSizeFreed (runCleanup (fresh this) w0).1.1)
                        trees)).
    generalize (concat (map (fun w0 => statsErrors (runCleanup (fresh this) w0).1.1)
                          trees)).
    intros lines total. unfold fresh. rewrite !runCleanup_tally.
    cbn [settings cleanerBaseDir withStats stats].
    destruct (tally (settings this) (cleanerBaseDir this) w) as [t w'].
    cbn [fst snd settings cleanerBaseDir withStats stats accumulate
         totalSizeFreed statsErrors zeroStats app].
    rewrite <- app_assoc.
    repeat split; try done. lia.
Qed.

End CleanerRuns.

(** ** [server.js]: the upload route and its clean-up *)

Module Server.

#[local] Open Scope list_scope.

(** [fs.unlinkSync(p)]; the refusals of the operating system are those of
    the removals ([Fs.Rm]). *)
Definition unlink (fs : Fs.t) (p : string) : Result unit * Fs.t :=
  match Fs.faults fs Fs.Rm p with
  | Some msg => (Err msg, fs)
  | None =>
      match Fs.nodes fs !! p with
      | Some Fs.Dir =>
          (Err ("EISDIR: illegal operation on a directory, unlink '" +:+ p +:+ "'"),
           fs)
      | Some _ => (Ok tt, Fs.mk (delete p (Fs.nodes fs)) (Fs.faults fs))
      | None =>
          (Err ("ENOENT: no such file or directory, unlink '" +:+ p +:+ "'"), fs)
      end
  end.

(** The call is recorded as a removal. *)
Definition unlinkSync (p : string) : M unit :=
  liftWrite (ERm p) (fun fs => unlink fs p).

(** [fs.readFileSync(p, "utf8")] *)
Definition readFileSync (p : string) : M string :=
  liftRead (fun fs =>
              match Fs.nodes fs !! p with
              | Some (Fs.File content) => Ok content
              | Some Fs.Dir => Err "EISDIR: illegal operation on a directory, read"
              | _ => Err ("ENOENT: no such file or directory, open '" +:+ p +:+ "'")
              end).

(** [console.error(`Error cleaning up ${file}:`, error.message)] *)
Definition cleanUpError (file message : string) : Event :=
  EError ("Error cleaning up " +:+ file +:+ ":" +:+ " " +:+ message).

Fixpoint cleanUpFiles (files : list string) : M unit :=
  match files with
  | [] => ret tt
  | file :: rest =>
      let* found := existsSync file in
      when found
        (tryCatch
           (let* isDirectory := Batch.statIsDirectory file in
            if isDirectory : bool then rmSync file else unlinkSync file)
           (fun message => emit (cleanUpError file message))) ;;
      cleanUpFiles rest
  end.

(** [req.file], as multer fills it. *)
Record UploadedFile := mkUploadedFile {
  filePath : string;
  fileName : string;
  originalname : string
}.

(** An entry of [global.results]. *)
Record Session := mkSession {
  sessionText : string;
  sessionFilename : string;
  timestamp : Z
}.

(** A call of [setTimeout] made by the route: the delay and what the
    callback will clean up. *)
Record Timer := mkTimer {
  delay : Z;
  timerFiles : list string;
  timerSession : string
}.

(** The response, without the preview of the text. *)
Inductive Response :=
| Processed (sessionId originalFilename : string)
| BadRequest (error : string)
| ServerError (error details : string).

Record Reply := mkReply {
  response : Response;
  sessions : gmap string Session;
  timers : list Timer
}.

Section WithExternal.

Variable ext : External.

(** The directory of [server.js], [NODE_ENV === "production"],
    the reading of the clock and the identifier [uuidv4()] returns. *)
Variable dirname : string.
Variable isProduction : bool.
Variable now : Z.
Variable uuid : string.

Definition tempDir : string := Path.join dirname "temp".
Definition outputDir : string := Path.join dirname "output".

(** The handler of [POST /upload].  (The line that [console.error] writes
    outside production, the error object with its stack, is not
    modelled.) *)
Definition upload (file : option UploadedFile) (language : option string)
  (results : gmap string Session) : M Reply :=
  match file with
  | None => ret (mkReply (BadRequest "No file uploaded") results [])
  | Some file =>
      let pdfPath := filePath file in
      let filename := Path.basename (fileName file) (Path.extname (fileName file)) in
      let tempImagesFolder := Path.join tempDir (filename +:+ "_images") in
      let outputTextFile := Path.join outputDir (filename +:+ "_ocr.txt") in
      let filesToCleanup := [pdfPath; tempImagesFolder] in
      tryCatch
        (let* resultFile :=
           Pipeline.convertPdfToText ext pdfPath
             (TextOptions.mk (Some outputTextFile) (Some tempImagesFolder)
                (Some false) (Some "png") (Some 300%Z)
                (Some (Js.orElse language "ara"))) in
         let* ocrText := readFileSync resultFile in
         let sessionId := uuid in
         ret (mkReply (Processed sessionId (originalname file))
                (<[sessionId := mkSession ocrText filename now]> results)
                [mkTimer (10 * 60 * 1000) (filesToCleanup ++ [resultFile])
                   sessionId]))
        (fun message =>
           cleanUpFiles filesToCleanup ;;
           ret (mkReply
                  (ServerError "Failed to process PDF"
                     (if isProduction then "Processing failed" else message))
                  results []))
  end.

(** The callback of the timer. *)
Definition timeout (timer : Timer) (results : gmap string Session)
  : M (gmap string Session) :=
  cleanUpFiles (timerFiles timer) ;;
  ret (delete (timerSession timer) results).

End WithExternal.

End Server.

(** *** Runs of the upload route *)

Module ServerFacts.

Import Pipeline StringFacts PipelineRuns PdfToImagesFacts Server.
#[local] Open Scope list_scope.

(** The clean-up of one path, when it exists. *)
Definition cleanUpOne (file : string) : M unit :=
  tryCatch
    (let* isDirectory := Batch.statIsDirectory file in
     if isDirectory : bool then rmSync file else unlinkSync file)
    (fun message => emit (cleanUpError file message)).

(** What a step of the clean-up may do to the file system: nothing, or
    remove what lies at or under a path. *)
Definition onlyRemoves (fs fs' : Fs.t) : Prop :=
  Fs.faults fs' = Fs.faults fs
  /\ forall p n, Fs.nodes fs' !! p = Some n -> Fs.nodes fs !! p = Some n.

Lemma onlyRemoves_refl fs : onlyRemoves fs fs.
Proof. by split. Qed.

Lemma onlyRemoves_trans fs1 fs2 fs3 :
  onlyRemoves fs1 fs2 -> onlyRemoves fs2 fs3 -> onlyRemoves fs1 fs3.
Proof. intros [F1 N1] [F2 N2]. split; [congruence|]. intros p n H. auto. Qed.

Lemma onlyRemoves_exists fs fs' p :
  onlyRemoves fs fs' -> Fs.existsSync fs p = false -> Fs.existsSync fs' p = false.
Proof.
  intros [_ N]. unfold Fs.existsSync.
  destruct (Fs.nodes fs' !! p) as [n|] eqn:E; [|done].
  by rewrite (N p n E).
Qed.

Definition reported (file : string) (evs : list Event) : Prop :=
  exists message, cleanUpError file message ∈ evs.

Lemma cleanUpOne_outcome file fs :
  Fs.existsSync fs file = true ->
  let o := cleanUpOne file fs in
  result o = Ok tt
  /\ onlyRemoves fs (fsAfter o)
  /\ (forall p, Fs.isUnder file p = false ->
                Fs.nodes (fsAfter o) !! p = Fs.nodes fs !! p)
  /\ (Fs.existsSync (fsAfter o) file = false \/ reported file (events o)).
Proof.
  intros Hex. cbv zeta. unfold cleanUpOne. rewrite tryCatch_run, bind_run.
  unfold Batch.statIsDirectory, liftRead, Fs.statIsDirectory.
  destruct (Fs.faults fs Fs.Stat file) as [message|].
  { cbn. split; [done|]. split; [apply onlyRemoves_refl|]. split; [done|].
    right. exists message. set_solver. }
  unfold Fs.existsSync in Hex.
  destruct (Fs.nodes fs !! file) as [[content| |]|] eqn:Hnode; try done.
  - unfold unlinkSync, liftWrite, unlink. rewrite Hnode.
    destruct (Fs.faults fs Fs.Rm file) as [message|]; cbn.
    + split; [done|]. split; [apply onlyRemoves_refl|]. split; [done|].
      right. exists message. set_solver.
    + split; [done|]. split.
      { split; [done|]. intros p n H. cbn [Fs.nodes] in H.
        by apply lookup_delete_Some in H as [_ ?]. }
      split.
      { intros p Hp. cbn [Fs.nodes]. apply lookup_delete_ne. intros <-.
        unfold Fs.isUnder in Hp. by rewrite String.eqb_refl in Hp. }
      left. unfold Fs.existsSync. cbn. by rewrite lookup_delete_eq.
  - unfold rmSync, liftWrite, Fs.rmSync.
    destruct (Fs.faults fs Fs.Rm file) as [message|]; cbn.
    + split; [done|]. split; [apply onlyRemoves_refl|]. split; [done|].
      right. exists message. set_solver.
    + split; [done|]. split.
      { split; [done|]. intros p n H. cbn [Fs.nodes] in H.
        by apply map_lookup_filter_Some in H as [? _]. }
      split.
      { intros p Hp. cbn [Fs.nodes]. destruct (Fs.nodes fs !! p) as [n|] eqn:E.
        - by apply map_lookup_filter_Some.
        - apply map_lookup_filter_None. left. done. }
      left. unfold Fs.existsSync. cbn.
      rewrite map_lookup_filter_None_2; [done|]. right. intros n _.
      unfold Fs.isUnder. cbn. by rewrite String.eqb_refl.
Qed.

Lemma cleanUpFiles_outcome files :
  forall fs,
    let o := cleanUpFiles files fs in
    result o = Ok tt
    /\ onlyRemoves fs (fsAfter o)
    /\ (forall p, (forall file, file ∈ files -> Fs.isUnder file p = false) ->
                  Fs.nodes (fsAfter o) !! p = Fs.nodes fs !! p)
    /\ (forall file, file ∈ files ->
                     Fs.existsSync (fsAfter o) file = false \/ reported file (events o)).
Proof.
  induction files as [|file rest IH]; intros fs; cbv zeta.
  - cbn. split; [done|]. split; [apply onlyRemoves_refl|]. split; [done|].
    intros file H. by apply elem_of_nil in H.
  - cbn [cleanUpFiles]. rewrite bind_run, existsSync_run, bind_run.
    destruct (Fs.existsSync fs file) eqn:Hex; cbn [when].
    + fold (cleanUpOne file).
      destruct (cleanUpOne_outcome file fs Hex) as (R1 & O1 & F1 & G1).
      destruct (cleanUpOne file fs) as [r1 fs1 ev1]. cbn [result fsAfter events] in *.
      subst r1.
      destruct (IH fs1) as (R2 & O2 & F2 & G2).
      destruct (cleanUpFiles rest fs1) as [r2 fs2 ev2].
      cbn [result fsAfter events app] in *. subst r2.
      split; [done|]. split; [by eapply onlyRemoves_trans|]. split.
      * intros p Hp. rewrite F2, F1; [done|..].
        -- apply Hp. by left.
        -- intros f Hf. apply Hp. by right.
      * intros f Hf. apply elem_of_cons in Hf as [->|Hf].
        -- destruct G1 as [G|[m G]].
           ++ left. by eapply onlyRemoves_exists.
           ++ right. exists m. apply elem_of_app. by left.
        -- destruct (G2 f Hf) as [G|[m G]]; [by left|].
           right. exists m. apply elem_of_app. by right.
    + cbv beta iota delta [ret].
      destruct (IH fs) as (R2 & O2 & F2 & G2).
      destruct (cleanUpFiles rest fs) as [r2 fs2 ev2].
      cbn [result fsAfter events app] in *. subst r2.
      split; [done|]. split; [done|]. split.
      * intros p Hp. apply F2. intros f Hf. apply Hp. by right.
      * intros f Hf. apply elem_of_cons in Hf as [->|Hf].
        -- left. by eapply onlyRemoves_exists.
        -- by apply G2.
Qed.

(** [cleanUpFiles] never throws.  It only removes: what is left was there
    before, and what lies at or under none of the listed paths is left as
    it was.  Afterwards each listed path is gone, unless its clean-up
    failed, and then the failure is in the error log. *)
Theorem cleanUpFiles_removes_or_reports (files : list string) (fs : Fs.t) :
  let o := cleanUpFiles files fs in
  result o = Ok tt
  /\ (forall p n, Fs.nodes (fsAfter o) !! p = Some n -> Fs.nodes fs !! p = Some n)
  /\ (forall p,
        (forall file, file ∈ files -> Fs.isUnder file p = false) ->
        Fs.nodes (fsAfter o) !! p = Fs.nodes fs !! p)
  /\ (forall file,
        file ∈ files ->
        Fs.existsSync (fsAfter o) file = false
        \/ exists message,
             EError ("Error cleaning up " +:+ file +:+ ":" +:+ " " +:+ message)
             ∈ events o).
Proof.
  destruct (cleanUpFiles_outcome files fs) as (R & [_ O] & F & G).
  cbv zeta in *. by repeat split.
Qed.

Section Uploads.

Variable ext : External.
Variable dirname : string.
Variable isProduction : bool.
Variable now : Z.
Variable uuid : string.

(** The paths the route derives from the uploaded file. *)
Definition stem (file : UploadedFile) : string :=
  Path.basename (fileName file) (Path.extname (fileName file)).
Definition imagesFolderFor (file : UploadedFile) : string :=
  Path.join (tempDir dirname) (stem file +:+ "_images").
Definition textFileFor (file : UploadedFile) : string :=
  Path.join (outputDir dirname) (stem file +:+ "_ocr.txt").

(** The options the route hands to [convertPdfToText]. *)
Definition uploadOptions (file : UploadedFile) (language : option string)
  : TextOptions.t :=
  TextOptions.mk (Some (textFileFor file)) (Some (imagesFolderFor file))
    (Some false) (Some "png") (Some 300%Z) (Some (Js.orElse language "ara")).

(** When the conversion of an upload throws, the route answers with the
    status 500, stores no session and sets no timer, and it has cleaned up
    at once: the uploaded PDF and the folder of page images are gone, or
    the failure to remove them is in the error log.  (The pipeline itself
    removes nothing on its error paths.) *)
Theorem upload_failure_cleans_up
  (file : UploadedFile) (language : option string)
  (results : gmap string Session) (fs : Fs.t) (message : string) :
  let conversion :=
    convertPdfToText ext (filePath file) (uploadOptions file language) fs in
  let o := upload ext dirname isProduction now uuid (Some file) language results fs in
  result conversion = Err message ->
  result o
  = Ok (mkReply
          (ServerError "Failed to process PDF"
             (if isProduction then "Processing failed" else message))
          results [])
  /\ (forall path,
        path ∈ [filePath file; imagesFolderFor file] ->
        Fs.existsSync (fsAfter o) path = false
        \/ exists reason,
             EError ("Error cleaning up " +:+ path +:+ ":" +:+ " " +:+ reason)
             ∈ events o)
  /\ (forall p n,
        Fs.nodes (fsAfter o) !! p = Some n ->
        Fs.nodes (fsAfter conversion) !! p = Some n).
Proof.
  cbv zeta. intros Hfail. unfold upload.
  fold (stem file) (imagesFolderFor file) (textFileFor file).
  fold (uploadOptions file language).
  rewrite tryCatch_run, bind_run.
  destruct (convertPdfToText ext (filePath file) (uploadOptions file language) fs)
    as [r1 fs1 ev1]. cbn [result fsAfter] in *. subst r1.
  rewrite bind_run.
  destruct (cleanUpFiles_outcome [filePath file; imagesFolderFor file] fs1)
    as (R & [_ O] & _ & G).
  destruct (cleanUpFiles [filePath file; imagesFolderFor file] fs1) as [r2 fs2 ev2].
  cbn [result fsAfter events] in *. subst r2.
  cbv beta iota delta [ret]. cbn [result fsAfter events].
  split; [done|]. split; [|done].
  intros path Hpath. destruct (G path Hpath) as [?|[reason Hr]]; [by left|].
  right. exists reason. rewrite app_nil_r. apply elem_of_app. right.
  exact Hr.
Qed.

(** When the route has processed an upload, it has stored the text of the
    result file under the new session identifier and has set one timer of
    ten minutes; when that timer fires, the session is deleted and the
    uploaded PDF, the folder of page images and the text file are gone, or
    the failure to remove them is in the error log. *)
Theorem upload_is_cleaned_up_after_ten_minutes
  (file : UploadedFile) (language : option string)
  (results : gmap string Session) (fs : Fs.t) :
  let o := upload ext dirname isProduction now uuid (Some file) language results fs in
  match result o with
  | Err _ => False
  | Ok reply =>
      (exists details, response reply = ServerError "Failed to process PDF" details)
      \/ (response reply = Processed uuid (originalname file)
          /\ (exists text,
                Fs.nodes (fsAfter o) !! textFileFor file = Some (Fs.File text)
                /\ sessions reply
                   = <[uuid := mkSession text (stem file) now]> results)
          /\ exists timer,
               timers reply = [timer]
               /\ delay timer = 600000%Z
               /\ forall later later',
                    let t := timeout timer later' later in
                    result t = Ok (delete uuid later')
                    /\ forall path,
                         path ∈ [filePath file; imagesFolderFor file;
                                 textFileFor file] ->
                         Fs.existsSync (fsAfter t) path = false
                         \/ exists reason,
                              EError ("Error cleaning up " +:+ path +:+ ":" +:+ " "
                                        +:+ reason)
                              ∈ events t)
  end.
Proof.
  cbv zeta. unfold upload.
  fold (stem file) (imagesFolderFor file) (textFileFor file).
  fold (uploadOptions file language).
  rewrite tryCatch_run, bind_run.
  pose proof (convertPdfToText_result ext (filePath file)
                (uploadOptions file language) fs) as Hret.
  destruct (convertPdfToText ext (filePath file) (uploadOptions file language) fs)
    as [[resultFile|e] fs1 ev1]; cbn [result fsAfter] in *.
  2:{ rewrite bind_run.
      destruct (cleanUpFiles_outcome [filePath file; imagesFolderFor file] fs1)
        as (R & _).
      destruct (cleanUpFiles [filePath file; imagesFolderFor file] fs1)
        as [r2 fs2 ev2]. cbn [result] in *. subst r2.
      cbv beta iota delta [ret]. cbn [result response]. left. by eexists. }
  specialize (Hret resultFile eq_refl). cbn [uploadOptions TextOptions.outputText] in Hret.
  rewrite bind_run. unfold readFileSync, liftRead.
  destruct (Fs.nodes fs1 !! resultFile) as [[text| |]|] eqn:Hnode.
  - cbv beta iota delta [ret]. cbn [result fsAfter]. right.
    cbn [response sessions timers].
    assert (resultFile = textFileFor file) as ->.
    { rewrite Hret. unfold Js.orElse.
      destruct (String.eqb_spec (textFileFor file) "") as [E|_]; [|done].
      unfold textFileFor in E. apply join_nonempty in E; [done|].
      by apply append_nonempty. }
    split; [done|]. split; [by exists text|].
    eexists. split; [done|]. split; [done|].
    intros later later'. cbv zeta. unfold timeout. cbn [timerFiles timerSession app].
    rewrite bind_run.
    destruct (cleanUpFiles_outcome
                [filePath file; imagesFolderFor file; textFileFor file] later)
      as (R & _ & _ & G).
    destruct (cleanUpFiles _ later) as [r2 fs2 ev2].
    cbn [result fsAfter events] in *. subst r2.
    cbv beta iota delta [ret]. cbn [result fsAfter events].
    split; [done|]. intros path Hpath.
    destruct (G path Hpath) as [?|[reason Hr]]; [by left|].
    right. exists reason. by rewrite app_nil_r.
  - rewrite bind_run.
    destruct (cleanUpFiles_outcome [filePath file; imagesFolderFor file] fs1)
      as (R & _).
    destruct (cleanUpFiles [filePath file; imagesFolderFor file] fs1)
      as [r2 fs2 ev2]. cbn [result] in *. subst r2.
    cbv beta iota delta [ret]. cbn [result response]. left. by eexists.
  - rewrite bind_run.
    destruct (cleanUpFiles_outcome [filePath file; imagesFolderFor file] fs1)
      as (R & _).
    destruct (cleanUpFiles [filePath file; imagesFolderFor file] fs1)
      as [r2 fs2 ev2]. cbn [result] in *. subst r2.
    cbv beta iota delta [ret]. cbn [result response]. left. by eexists.
  - rewrite bind_run.
    destruct (cleanUpFiles_outcome [filePath file; imagesFolderFor file] fs1)
      as (R & _).
    destruct (cleanUpFiles [filePath file; imagesFolderFor file] fs1)
      as [r2 fs2 ev2]. cbn [result] in *. subst r2.
    cbv beta iota delta [ret]. cbn [result response]. left. by eexists.
Qed.

End Uploads.

(** An upload whose file has disappeared before the conversion starts. *)
Definition lostUpload : UploadedFile :=
  mkUploadedFile "/app/uploads/u1-doc.pdf" "u1-doc.pdf" "doc.pdf".

Definition emptyDisk : Fs.t := Fs.mk ∅ noFaults.

Lemma upload_failure_cleans_up_witness :
  result (upload onePageRasterizer "/app" true 0 "s1" (Some lostUpload) None ∅
            emptyDisk)
  = Ok (mkReply (ServerError "Failed to process PDF" "Processing failed") ∅ []).
Proof.
  refine (proj1 (upload_failure_cleans_up onePageRasterizer "/app" true 0 "s1"
                   lostUpload None ∅ emptyDisk
                   "PDF file not found: /app/uploads/u1-doc.pdf" _)).
  vm_compute. reflexivity.
Defined.

(** An upload that is converted, and what is left when its timer has
    fired. *)
Definition uploadDisk : Fs.t :=
  Fs.mk (list_to_map [("/app/uploads/u1-doc.pdf", Fs.File "%PDF-1.4");
                      ("/app/output", Fs.Dir); ("/app/temp", Fs.Dir);
                      ("/app/uploads", Fs.Dir)])
    noFaults.

Example upload_then_timeout :
  let o :=
    upload onePageRasterizer "/app" true 7 "s1" (Some lostUpload) None ∅ uploadDisk in
  let after :=
    timeout (mkTimer 600000
               ["/app/uploads/u1-doc.pdf"; "/app/temp/u1-doc_images";
                "/app/output/u1-doc_ocr.txt"] "s1") in
  result o
  = Ok (mkReply (Processed "s1" "doc.pdf")
          {[ "s1" := mkSession
                       (LF +:+ LF +:+ "=== PAGE 1 ===" +:+ LF +:+ LF
                          +:+ "text of /app/temp/u1-doc_images/page_001.png" +:+ LF)
                       "u1-doc" 7 ]}
          [mkTimer 600000
             ["/app/uploads/u1-doc.pdf"; "/app/temp/u1-doc_images";
              "/app/output/u1-doc_ocr.txt"] "s1"])
  /\ Fs.existsSync (fsAfter o) "/app/output/u1-doc_ocr.txt" = true
  /\ Fs.existsSync (fsAfter (after ∅ (fsAfter o))) "/app/output/u1-doc_ocr.txt" = false
  /\ Fs.existsSync (fsAfter (after ∅ (fsAfter o))) "/app/uploads/u1-doc.pdf" = false.
Proof. vm_compute. repeat split; reflexivity. Qed.

End ServerFacts.
